(** * pysvg: the chart-geometry core, embedded in Rocq

    A shallow embedding of the numeric and geometric core of pysvg
    (filetext.py and svgelements.py): the table reader and its
    transposition, the bar-chart axis loop, the pie layout, the regression
    helpers of the scatter plot and the partition-exchange sort of the line
    plot; then the loops that place the bars of the two bar charts, the
    axes, the labels and the points of the scatter plot, and the path of
    the line plot.

    The program is Python 2: [/] on two ints is floor division, [print] is a
    statement, [float] is IEEE binary64.  Python ints are modelled by [Z],
    Python floats by Rocq's primitive binary64 floats, exceptions and
    [sys.exit] by the [outcome] type below. *)

From Stdlib Require Import ZArith List String Ascii Bool Lia Permutation Sorted.
From Stdlib Require Import Floats.
From stdpp Require Import base numbers list.
Import ListNotations.

Local Open Scope Z_scope.

(** ** Outcomes of a Python computation *)

(** The exceptions the modelled code can raise. *)
Inductive exn : Type :=
  | IndexError
  | ValueError
  | ZeroDivisionError
  | OverflowError
  | UnboundLocalError
  | IOError.

#[global] Instance exn_eq_dec : EqDecision exn.
Proof. solve_decision. Defined.

(** A computation returns a value, raises an exception that nobody has
    caught yet, or leaves the process through [sys.exit status] after
    having printed [msg].  [OutOfFuel] is not a Python behaviour: it marks
    a run of a [while] loop or of a recursion that was cut by the bound the
    model puts on it. *)
Inductive outcome (A : Type) : Type :=
  | Ok (a : A)
  | Raise (e : exn)
  | Exit (status : Z) (msg : string)
  | OutOfFuel.

Arguments Ok {A} a.
Arguments Raise {A} e.
Arguments Exit {A} status msg.
Arguments OutOfFuel {A}.

Definition bind {A B : Type} (m : outcome A) (k : A -> outcome B) : outcome B :=
  match m with
  | Ok a => k a
  | Raise e => Raise e
  | Exit s msg => Exit s msg
  | OutOfFuel => OutOfFuel
  end.

Notation "x <-- m ;; k" := (bind m (fun x => k))
  (at level 100, m at next level, right associativity).

(** [try: m except e: handler]. *)
Definition try_except {A : Type} (m : outcome A) (e : exn) (handler : outcome A)
  : outcome A :=
  match m with
  | Raise e' => if decide (e' = e) then handler else Raise e'
  | other => other
  end.

(** ** Python primitives *)

Module Py.

(** [l[i]]: a negative index counts from the end, anything outside
    [-len, len) raises IndexError. *)
Definition getitem {A : Type} (l : list A) (i : Z) : outcome A :=
  let n := Z.of_nat (length l) in
  let k := if i <? 0 then i + n else i in
  if (0 <=? k) && (k <? n) then
    match l !! Z.to_nat k with
    | Some a => Ok a
    | None => Raise IndexError
    end
  else Raise IndexError.

(** [l[i] = v]. *)
Definition setitem {A : Type} (l : list A) (i : Z) (v : A) : outcome (list A) :=
  let n := Z.of_nat (length l) in
  let k := if i <? 0 then i + n else i in
  if (0 <=? k) && (k <? n) then Ok (<[Z.to_nat k := v]> l)
  else Raise IndexError.

(** [len(l)]. *)
Definition len {A : Type} (l : list A) : Z := Z.of_nat (length l).

(** [a / b] on two ints (Python 2): floor division. *)
Definition div (a b : Z) : outcome Z :=
  if b =? 0 then Raise ZeroDivisionError else Ok (a / b).

(** [for num in range(n): s = body(num, s)]. *)
Fixpoint for_range {S : Type} (n : nat) (body : Z -> S -> outcome S) (s0 : S)
  : outcome S :=
  match n with
  | O => Ok s0
  | S m => s <-- for_range m body s0 ;; body (Z.of_nat m) s
  end.

(** [for a in l: s = body(a, s)]. *)
Fixpoint for_each {A S : Type} (l : list A) (body : A -> S -> outcome S) (s0 : S)
  : outcome S :=
  match l with
  | [] => Ok s0
  | a :: l' => s <-- body a s0 ;; for_each l' body s
  end.

(** The whitespace of [str.split()] and of [str.isspace()] on a byte
    string: space, and the control characters 9 to 13. *)
Definition isspace (c : ascii) : bool :=
  let n := nat_of_ascii c in
  (Nat.eqb n 32 || (Nat.leb 9 n && Nat.leb n 13))%bool.

Fixpoint split_from (s : string) (tok : string) : list string :=
  match s with
  | EmptyString =>
      match tok with EmptyString => [] | _ => [tok] end
  | String c s' =>
      if isspace c then
        match tok with
        | EmptyString => split_from s' EmptyString
        | _ => tok :: split_from s' EmptyString
        end
      else split_from s' (tok ++ String c EmptyString)
  end.

(** [s.split()]: the maximal runs of non-whitespace characters. *)
Definition split (s : string) : list string := split_from s EmptyString.

Definition digit_of (c : ascii) : option Z :=
  let n := nat_of_ascii c in
  if (Nat.leb 48 n && Nat.leb n 57)%bool then Some (Z.of_nat (n - 48)) else None.

Fixpoint digits_from (s : string) (acc : Z) : option Z :=
  match s with
  | EmptyString => Some acc
  | String c s' =>
      match digit_of c with
      | Some d => digits_from s' (10 * acc + d)
      | None => None
      end
  end.

Definition digits (s : string) : option Z :=
  match s with
  | EmptyString => None
  | _ => digits_from s 0
  end.

(** [s.lstrip()], [s.rstrip()] and [s.strip()]: the whitespace of
    [isspace] is dropped at the ends of the string. *)
Fixpoint lstrip (s : string) : string :=
  match s with
  | EmptyString => EmptyString
  | String c s' => if isspace c then lstrip s' else s
  end.

Fixpoint rstrip (s : string) : string :=
  match s with
  | EmptyString => EmptyString
  | String c s' =>
      match rstrip s' with
      | EmptyString => if isspace c then EmptyString else String c EmptyString
      | r => String c r
      end
  end.

Definition strip (s : string) : string := lstrip (rstrip s).

(** [True] when the string holds no whitespace at all, as every cell of a
    table does: the cells are results of [split()]. *)
Fixpoint blank_free (s : string) : bool :=
  match s with
  | EmptyString => true
  | String c s' => negb (isspace c) && blank_free s'
  end.

(** An int literal, as [int(...)] and [float(...)] read one in a string:
    the whitespace before and after it is skipped, a sign is optional, one
    or more decimal digits follow and nothing else.  The result is the
    sign ([true] for a minus) and the magnitude. *)
Definition literal (tok : string) : option (bool * Z) :=
  match strip tok with
  | String "-" rest => option_map (pair true) (digits rest)
  | String "+" rest => option_map (pair false) (digits rest)
  | s => option_map (pair false) (digits s)
  end.

(** [int(tok)] on a string: the value of the int literal, ValueError for
    anything else. *)
Definition int (tok : string) : outcome Z :=
  match literal tok with
  | Some (neg, m) => Ok (if neg then - m else m)
  | None => Raise ValueError
  end.

(** The binary64 float nearest to an int (ties to even); an int beyond the
    range rounds to an infinity. *)
Definition Z2F (z : Z) : float :=
  SF2Prim (binary_normalize prec emax z 0 false).

(** [float(z)] for an int [z], and the conversion of an int operand of a
    mixed int/float operation: OverflowError when [z] is out of range. *)
Definition float_of_int (z : Z) : outcome float :=
  let f := Z2F z in
  if is_infinity f then Raise OverflowError else Ok f.

(** [float(tok)] for a cell that [int] accepts: the sign of the literal
    applied to the float nearest to its magnitude, so that ["-0"] gives
    [-0.0].  Every cell that reaches a [float(...)] call in the modelled
    code has gone through [int(...)] before, so decimal and exponent
    literals never get here; a literal too large for binary64 parses to an
    infinity. *)
Definition float_of_token (tok : string) : outcome float :=
  match literal tok with
  | Some (neg, m) => Ok (if neg then (- Z2F m)%float else Z2F m)
  | None => Raise ValueError
  end.

(** [a / b] on two floats. *)
Definition fdiv (a b : float) : outcome float :=
  if PrimFloat.eqb b 0%float then Raise ZeroDivisionError else Ok (a / b)%float.

(** [math.pi]. *)
Definition pi : float := 0x1.921fb54442d18p+1%float.

End Py.

(** The double quote, for the messages that contain one. *)
Definition dq : string := String (ascii_of_nat 34) EmptyString.

(** The line feed of the messages. *)
Definition nl : string := String (ascii_of_nat 10) EmptyString.

(** ** filetext.py *)

Module Filetext.

(** A table, column-major or row-major: a list of lists of cells. *)
Definition table : Type := list (list string).

Definition banner : string :=
  "pysvg 0.0.4-Nov2011" ++ nl ++ "Copyright (C) 2011 Isabel Rodriguez" ++ nl ++
  "You can see the full documentation at URL:" ++ dq ++
  "http://www.pysvg/orgfree.com" ++ dq.

(** What [readinputfile] prints when [open] raises IOError. *)
Definition msg_nofile (path : string) : string :=
  "Inputfile= " ++ path ++ nl ++ "No such file or directory" ++ nl ++
  "For help use --help or -h" ++ nl ++ banner.

(** What [readinputfile] prints when the transposition raises IndexError. *)
Definition msg_columns : string :=
  "The number of values of the parameters x, x2, y or y2 must" ++
  "be equal," ++ " please review the input data " ++ nl ++
  "For help use --help".

(** The [while fileline != ""] loop over the lines that [readline] yields:
    [cad] collects the split rows, [cad1] is the row split last ([None]
    while the local variable is still unbound).  [readline] gives the empty
    string at the end of the file, which is the end of [lines] here. *)
Fixpoint read_rows (lines : list string) (cad : table) (cad1 : option (list string))
  : table * option (list string) :=
  match lines with
  | [] => (cad, cad1)
  | fileline :: rest =>
      match fileline with
      | EmptyString => (cad, cad1)
      | _ =>
          let row := Py.split fileline in
          read_rows rest (cad ++ [row]) (Some row)
      end
  end.

(** The two nested [for] loops: one output column per token position of
    [cad1], each made of that position of every row of [cad]. *)
Definition transpose_rows (cad : table) (cad1 : option (list string))
  : outcome table :=
  match cad1 with
  | None => Raise UnboundLocalError
  | Some last_row =>
      Py.for_range (length last_row)
        (fun poscad1 finalcad =>
           auxcad <-- Py.for_range (length cad)
                        (fun poscad auxcad =>
                           row <-- Py.getitem cad poscad ;;
                           cell <-- Py.getitem row poscad1 ;;
                           Ok (auxcad ++ [cell]))
                        [] ;;
           Ok (finalcad ++ [auxcad]))
        []
  end.

(** The transposition as [readinputfile] performs it on the rows [cad] it
    has read: [cad1] is then the last of them. *)
Definition transposition (cad : table) : outcome table :=
  try_except (transpose_rows cad (last cad)) IndexError (Exit 2 msg_columns).

(** [readinputfile(path)]; [fs path] is the list of lines of the file at
    [path], [None] when it cannot be opened. *)
Definition readinputfile (fs : string -> option (list string)) (path : string)
  : outcome table :=
  match fs path with
  | None => Exit 2 (msg_nofile path)
  | Some lines =>
      let '(cad, cad1) := read_rows lines [] None in
      try_except (transpose_rows cad cad1) IndexError (Exit 2 msg_columns)
  end.

End Filetext.

(** ** svgelements.py *)

(** The options [xcolumn], [ycolumn], [yrange], [yinc], [colorfld], ... reach
    the classes as ints (the defaults) or as strings (from the command
    line) and are read through [int(self.opt)] everywhere: they are
    modelled by the value of that coercion. *)

Definition banner04 : string :=
  nl ++ "Pysvg 0.0.4-Nov2011" ++ nl ++ "Copyright (C) 2011 Isabel Rodriguez" ++
  nl ++ "You can see the full documentation at URL:" ++
  " " ++ dq ++ "http://www.pysvg/orgfree.com" ++ dq.

(** *** class Path *)

Module Path.

(** The large-arc-flag that [Path.printsvg] writes between the radii and
    the sweep flag of the arc command ([if (self.radian > pi)]). *)
Definition large_arc_flag (radian : float) : string :=
  if PrimFloat.ltb Py.pi radian then "1" else "0".

End Path.

(** *** class Scatterplot *)

Module Scatterplot.

(** [getaverage(lval)] over a column of cells. *)
Definition getaverage (lval : list string) : outcome Z :=
  sumlval <-- Py.for_range (length lval)
                (fun num sumlval =>
                   cell <-- Py.getitem lval num ;;
                   v <-- Py.int cell ;;
                   Ok (sumlval + v))
                0 ;;
  Py.div sumlval (Py.len lval).

(** [getvariance(lval)] over a column of cells. *)
Definition getvariance (lval : list string) : outcome Z :=
  var <-- Py.for_range (length lval)
            (fun num var =>
               cell <-- Py.getitem lval num ;;
               a <-- Py.int cell ;;
               m <-- getaverage lval ;;
               cell' <-- Py.getitem lval num ;;
               a' <-- Py.int cell' ;;
               m' <-- getaverage lval ;;
               Ok (var + (a - m) * (a' - m')))
            0 ;;
  Py.div var (Py.len lval).

(** [getcovariance(lval)] over the whole table; the X and Y columns are
    [self.xcolumn] and [self.ycolumn] (1-based). *)
Definition getcovariance (xcolumn ycolumn : Z) (lval : list (list string))
  : outcome Z :=
  xcol <-- Py.getitem lval (xcolumn - 1) ;;
  covar <-- Py.for_range (length xcol)
              (fun num covar =>
                 cell <-- Py.getitem xcol num ;;
                 a <-- Py.int cell ;;
                 mx <-- getaverage xcol ;;
                 ycol <-- Py.getitem lval (ycolumn - 1) ;;
                 cell2 <-- Py.getitem ycol num ;;
                 b <-- Py.int cell2 ;;
                 my <-- getaverage ycol ;;
                 Ok (covar + (a - mx) * (b - my)))
              0 ;;
  Py.div covar (Py.len xcol).

(** [getregressionline(lval)]: the list of the points [[x, y_fit]]. *)
Definition getregressionline (xcolumn ycolumn : Z) (lval : list (list string))
  : outcome (list (float * float)) :=
  cov <-- getcovariance xcolumn ycolumn lval ;;
  fcov <-- Py.float_of_int cov ;;
  xcol <-- Py.getitem lval (xcolumn - 1) ;;
  var <-- getvariance xcol ;;
  fvar <-- Py.float_of_int var ;;
  bcomponent <-- Py.fdiv fcov fvar ;;
  Py.for_range (length xcol)
    (fun cont reglist =>
       cell <-- Py.getitem xcol cont ;;
       fx <-- Py.float_of_token cell ;;
       mx <-- getaverage xcol ;;
       fmx <-- Py.float_of_int mx ;;
       ycol <-- Py.getitem lval (ycolumn - 1) ;;
       my <-- getaverage ycol ;;
       fmy <-- Py.float_of_int my ;;
       let ylist := (bcomponent * (fx - fmx) + fmy)%float in
       Ok (reglist ++ [(fx, ylist)]))
    [].

(** The slope [bcomponent] that [getregressionline] computes first. *)
Definition slope (xcolumn ycolumn : Z) (lval : list (list string))
  : outcome float :=
  cov <-- getcovariance xcolumn ycolumn lval ;;
  fcov <-- Py.float_of_int cov ;;
  xcol <-- Py.getitem lval (xcolumn - 1) ;;
  var <-- getvariance xcol ;;
  fvar <-- Py.float_of_int var ;;
  Py.fdiv fcov fvar.

End Scatterplot.

(** *** class Bardiagram *)

Module Bardiagram.

Definition msg_numeric : string :=
  "The input values must be numeric, can not be strings:" ++ banner04.

Definition msg_columns : string :=
  "The number of columns in data file must be equal to the" ++
  "maximum value indicated by the parameters x, y, x2, y2" ++ nl ++
  "Please review the input data " ++ nl ++ "For help use --help" ++ banner04.

(** The loop [for num in range(len(col)): if m < int(col[num]): m = int(col[num])]. *)
Definition max_loop (col : list string) (m0 : Z) : outcome Z :=
  Py.for_range (length col)
    (fun num m =>
       cell <-- Py.getitem col num ;;
       v <-- Py.int cell ;;
       if m <? v then
         cell' <-- Py.getitem col num ;;
         Py.int cell'
       else Ok m)
    m0.

(** [setmaximumbars(lval)]: the value left in [self.heightmaxbar]. *)
Definition setmaximumbars (ycolumn ycolumn2 : Z) (lval : list (list string))
  : outcome Z :=
  try_except
    (ycol <-- Py.getitem lval (ycolumn - 1) ;;
     cell0 <-- Py.getitem ycol 0 ;;
     heightmaxbar <-- Py.int cell0 ;;
     auxmaxbar <-- Py.int cell0 ;;
     heightmaxbar <-- max_loop ycol heightmaxbar ;;
     if Py.len lval =? ycolumn2 then
       ycol2 <-- Py.getitem lval (ycolumn2 - 1) ;;
       auxmaxbar <-- max_loop ycol2 auxmaxbar ;;
       Ok (if heightmaxbar <? auxmaxbar then auxmaxbar else heightmaxbar)
     else Ok heightmaxbar)
    ValueError (Exit 2 msg_numeric).

(** The constructor: [self.heightmaxbar] after [__init__]. *)
Definition init (ycolumn ycolumn2 : Z) (lval : list (list string)) : outcome Z :=
  try_except (setmaximumbars ycolumn ycolumn2 lval) IndexError (Exit 2 msg_columns).

(** The axis loop of [printsvg],
    [while inc <= self.heightmaxbar: ...; counter += 1;
     inc = int(self.yrange) + int(self.yinc) * counter],
    entered with the current [counter] and [inc].  Each turn draws one
    [Linetext] labelled [str(inc)] (and one grid [Line] when [ygrid] is
    "yes"); the result lists these labels in the order drawn. *)
Fixpoint axis_loop (fuel : nat) (yrange yinc heightmaxbar : Z) (counter inc : Z)
  : outcome (list Z) :=
  match fuel with
  | O => OutOfFuel
  | S fuel' =>
      if inc <=? heightmaxbar then
        let counter' := counter + 1 in
        let inc' := yrange + yinc * counter' in
        rest <-- axis_loop fuel' yrange yinc heightmaxbar counter' inc' ;;
        Ok (inc :: rest)
      else Ok []
  end.

(** The ticks of the Y axis: the loop entered with [counter = 0] and
    [inc = int(self.yrange)]. *)
Definition axis_ticks (fuel : nat) (yrange yinc heightmaxbar : Z) : outcome (list Z) :=
  axis_loop fuel yrange yinc heightmaxbar 0 yrange.

End Bardiagram.

(** *** class Piechart *)

Module Piechart.

Definition msg_incorrect : string :=
  "Incorrect input data" ++ nl ++
  "Please check the number of columns in the input" ++ "file" ++ nl ++
  "For help use --help or -h" ++ nl ++ "Pysvg 0.0.4-Nov2011" ++ nl ++
  "Copyright (C) 2011 Isabel " ++ "Rodriguez " ++ nl ++
  "You can see the full documentation at URL:" ++
  " " ++ dq ++ "http://www.pysvg/orgfree.com" ++ dq.

Definition msg_columns : string :=
  "The number of columns in data file must be equal to the " ++
  "maximum value indicated by the parameters x, y, x2, y2" ++ nl ++
  "Please review the input data " ++ nl ++ "For help use --help".

(** The fields of a [Piechart] object that the layout reads and writes. *)
Record t : Type := mk {
  listvalues : list (list string);
  values : Z;
  labels : Z;
  colorfld : Z;
  radius : Z;
  legend : bool;
  sumvalues : Z;
  radianvalues : list float;
  initianradian : float;
  pos : Z
}.

(** [totalsum()]: adds every value of the column to [self.sumvalues]. *)
Definition totalsum (self : t) : outcome t :=
  col <-- Py.getitem (listvalues self) (values self - 1) ;;
  total <-- Py.for_each col
              (fun value sumvalues => v <-- Py.int value ;; Ok (sumvalues + v))
              (sumvalues self) ;;
  Ok (mk (listvalues self) (values self) (labels self) (colorfld self)
         (radius self) (legend self) total (radianvalues self)
         (initianradian self) (pos self)).

(** One element of the list comprehension of [valuestoradians]:
    [(int(value) * 2 * pi) / self.sumvalues]. *)
Definition radian_of (sumvalues : Z) (value : string) : outcome float :=
  v <-- Py.int value ;;
  f <-- Py.float_of_int (v * 2) ;;
  d <-- Py.float_of_int sumvalues ;;
  Py.fdiv (f * Py.pi)%float d.

(** [valuestoradians()]. *)
Definition valuestoradians (self : t) : outcome t :=
  col <-- Py.getitem (listvalues self) (values self - 1) ;;
  rads <-- Py.for_each col
             (fun value acc => r <-- radian_of (sumvalues self) value ;;
                               Ok (acc ++ [r]))
             [] ;;
  Ok (mk (listvalues self) (values self) (labels self) (colorfld self)
         (radius self) (legend self) (sumvalues self) rads
         (initianradian self) (pos self)).

(** The constructor: the fields set from the arguments, the counters at
    their initial values, then [self.totalsum()] and
    [self.valuestoradians()]. *)
Definition init (radius : Z) (listvalues : list (list string))
    (values labels colorfld : Z) (legend : bool) : outcome t :=
  self <-- totalsum (mk listvalues values labels colorfld radius legend
                        0 [] 0%float 0) ;;
  valuestoradians self.

(** What [printsvg] draws for one slice: the percentage text, placed at the
    angle [text_angle] and at the distance [text_offset] from the centre,
    and the arc path of the slice with its fill colour and large-arc-flag;
    with [self.legend], the legend entry.  The strings of the markup are
    not modelled, nor is the text of the label, the rounded percentage
    [float(cell) / float(self.sumvalues) * 100]: on an object that
    [__init__] has built it reads a cell and a sum that [valuestoradians]
    has converted before, and raises nothing. *)
Record slice : Type := mk_slice {
  slice_pos : Z;
  text_angle : float;
  text_offset : float;
  fill : string;
  start_radian : float;
  radian : float;
  arc_flag : string;
  legend_label : option string
}.

(** The angle at which the percentage of a slice is written:
    [self.initianradian + value / 2]. *)
Definition midpoint (initianradian value : float) : float :=
  (initianradian + value / 2)%float.

(** The factor of the radius in the position of the percentage text: the
    test [(mid > 3 * pi / 4) and (mid < 5 * pi / 4)] of [printsvg]. *)
Definition label_factor (initianradian value : float) : float :=
  let mid := midpoint initianradian value in
  if (PrimFloat.ltb (3 * Py.pi / 4)%float mid && PrimFloat.ltb mid (5 * Py.pi / 4)%float)%bool
  then 0x1.6666666666666p+0%float   (* 1.4 *)
  else 0x1.3333333333333p+0%float.  (* 1.2 *)

(** The body of [for value in self.radianvalues], on the loop state
    [(initianradian, pos)] and the slices drawn so far. *)
Definition draw_slice (self : t) (value : float)
    (st : float * Z * list slice) : outcome (float * Z * list slice) :=
  let '(initianradian, pos, drawn) := st in
  fradius <-- Py.float_of_int (radius self) ;;
  let offset := (fradius * label_factor initianradian value)%float in
  colors <-- Py.getitem (listvalues self) (colorfld self - 1) ;;
  colorgrad <-- Py.getitem colors pos ;;
  lbl <-- (if legend self then
             names <-- Py.getitem (listvalues self) (labels self - 1) ;;
             name <-- Py.getitem names pos ;;
             Ok (Some name)
           else Ok None) ;;
  Ok ((initianradian + value)%float, pos + 1,
      drawn ++ [mk_slice pos (midpoint initianradian value) offset colorgrad
                         initianradian value (Path.large_arc_flag value) lbl]).

(** [printsvg()]: the slices drawn, in order.  The guard on [colorfld]
    leaves through [sys.exit(2)]; an IndexError of the body is caught and
    leaves the same way with another message. *)
Definition printsvg (self : t) : outcome (list slice) :=
  try_except
    (if negb (Py.len (listvalues self) =? colorfld self) then
       Exit 2 msg_incorrect
     else
       st <-- Py.for_each (radianvalues self) (draw_slice self)
                (initianradian self, pos self, []) ;;
       Ok (snd st))
    IndexError (Exit 2 msg_columns).

End Piechart.

(** *** class Lineplot *)

Module Lineplot.

(** A point [[x, y]] of the list that [transformtocoordenates] builds. *)
Abbreviation point := (Z * Z)%type (only parsing).

(** [p[c]] on the two-element list [p]. *)
Definition field (p : point) (c : Z) : outcome Z :=
  if (c =? 0) || (c =? -2) then Ok (fst p)
  else if (c =? 1) || (c =? -1) then Ok (snd p)
  else Raise IndexError.

(** [p[c] = v] on the two-element list [p]. *)
Definition set_field (p : point) (c : Z) (v : Z) : outcome point :=
  if (c =? 0) || (c =? -2) then Ok (v, snd p)
  else if (c =? 1) || (c =? -1) then Ok (fst p, v)
  else Raise IndexError.

(** [lval[i][c]]. *)
Definition get_cell (lval : list point) (i c : Z) : outcome Z :=
  p <-- Py.getitem lval i ;; field p c.

(** [lval[i][c] = v]: the point at [i] is updated in place. *)
Definition set_cell (lval : list point) (i c : Z) (v : Z) : outcome (list point) :=
  p <-- Py.getitem lval i ;;
  p' <-- set_field p c v ;;
  Py.setitem lval i p'.

Section Sort.

(** [int(self.xcolumn) - 1] and [int(self.ycolumn) - 1]. *)
Variables xc yc : Z.

(** [while int(lval[ivar][xc]) < pivot: ivar += 1]. *)
Fixpoint scan_up (fuel : nat) (lval : list point) (pivot ivar : Z) : outcome Z :=
  match fuel with
  | O => OutOfFuel
  | S fuel' =>
      x <-- get_cell lval ivar xc ;;
      if x <? pivot then scan_up fuel' lval pivot (ivar + 1) else Ok ivar
  end.

(** [while int(lval[jvar][xc]) > pivot: jvar -= 1]. *)
Fixpoint scan_down (fuel : nat) (lval : list point) (pivot jvar : Z) : outcome Z :=
  match fuel with
  | O => OutOfFuel
  | S fuel' =>
      x <-- get_cell lval jvar xc ;;
      if x >? pivot then scan_down fuel' lval pivot (jvar - 1) else Ok jvar
  end.

(** The exchange of the points at [ivar] and [jvar], cell by cell as the
    code does it. *)
Definition exchange (lval : list point) (ivar jvar : Z) : outcome (list point) :=
  aux1 <-- get_cell lval ivar xc ;;
  aux2 <-- get_cell lval ivar yc ;;
  vx <-- get_cell lval jvar xc ;;
  lval <-- set_cell lval ivar xc vx ;;
  vy <-- get_cell lval jvar yc ;;
  lval <-- set_cell lval ivar yc vy ;;
  lval <-- set_cell lval jvar xc aux1 ;;
  set_cell lval jvar yc aux2.

(** [while ivar < jvar: ...]: the partition loop; it returns the list and
    the two indices at the exit.  [fuel] bounds the turns of this loop and
    [scan_fuel] those of each inner loop. *)
Fixpoint partition (scan_fuel fuel : nat) (lval : list point) (pivot ivar jvar : Z)
  : outcome (list point * Z * Z) :=
  match fuel with
  | O => OutOfFuel
  | S fuel' =>
      if ivar <? jvar then
        ivar <-- scan_up scan_fuel lval pivot ivar ;;
        jvar <-- scan_down scan_fuel lval pivot jvar ;;
        if ivar <=? jvar then
          lval <-- exchange lval ivar jvar ;;
          partition scan_fuel fuel' lval pivot (ivar + 1) (jvar - 1)
        else partition scan_fuel fuel' lval pivot ivar jvar
      else Ok (lval, ivar, jvar)
  end.

(** [ordenatewithquicksort(lval, first, last)]. *)
Fixpoint ordenatewithquicksort (fuel : nat) (lval : list point) (first last : Z)
  : outcome (list point) :=
  match fuel with
  | O => OutOfFuel
  | S fuel' =>
      a <-- get_cell lval first xc ;;
      b <-- get_cell lval last xc ;;
      pivot <-- Py.div (a + b) 2 ;;
      parted <-- partition fuel' fuel' lval pivot first last ;;
      let '(lval, ivar, jvar) := parted in
      lval <-- (if first <? jvar
                then ordenatewithquicksort fuel' lval first jvar
                else Ok lval) ;;
      if last >? ivar
      then ordenatewithquicksort fuel' lval ivar last
      else Ok lval
  end.

End Sort.

End Lineplot.

(** *** class Scatterplot: the axes and the points *)

Module ScatterplotAxes.

(** What [getmaxpoint] prints before [sys.exit(2)]. *)
Definition msg_numeric : string :=
  "The input values must be numeric, can not be strings" ++
  nl ++ "pysvg 0.0.4-Nov2011" ++ nl ++ "Copyright (C) 2011 Isabel Rodriguez" ++
  nl ++ "You can see the full documentation at URL:" ++
  " " ++ dq ++ "http://www.pysvg/orgfree.com" ++ dq.

(** [getmaxpoint(lval)] over a column of cells; its loop is the one of
    [Bardiagram.setmaximumbars]. *)
Definition getmaxpoint (lval : list string) : outcome Z :=
  try_except
    (cell0 <-- Py.getitem lval 0 ;;
     maxpoint <-- Py.int cell0 ;;
     Bardiagram.max_loop lval maxpoint)
    ValueError (Exit 2 msg_numeric).

(** [getmaxaxis(lval)]: the pair [(xmaxaxis, ymaxaxis)].  With a second
    data set ([len(lval) > int(self.xcolumn2)]) its Y column is the last
    column of the table, [ycolumn2 = len(lval)]. *)
Definition getmaxaxis (xcolumn ycolumn xcolumn2 : Z) (lval : list (list string))
  : outcome (Z * Z) :=
  ycol <-- Py.getitem lval (ycolumn - 1) ;;
  ymaxaxis <-- getmaxpoint ycol ;;
  xcol <-- Py.getitem lval (xcolumn - 1) ;;
  xmaxaxis <-- getmaxpoint xcol ;;
  if Py.len lval >? xcolumn2 then
    let ycolumn2 := Py.len lval in
    ycol2 <-- Py.getitem lval (ycolumn2 - 1) ;;
    ymaxpoint2 <-- getmaxpoint ycol2 ;;
    xcol2 <-- Py.getitem lval (xcolumn2 - 1) ;;
    xmaxpoint2 <-- getmaxpoint xcol2 ;;
    let ymaxaxis := if ymaxpoint2 >? ymaxaxis then ymaxpoint2 else ymaxaxis in
    let xmaxaxis := if xmaxpoint2 >? xmaxaxis then xmaxpoint2 else xmaxaxis in
    Ok (xmaxaxis, ymaxaxis)
  else Ok (xmaxaxis, ymaxaxis).

(** [p[c]] on a two-element list [p] of floats, a point of the regression
    line. *)
Definition ffield (p : float * float) (c : Z) : outcome float :=
  if (c =? 0) || (c =? -2) then Ok (fst p)
  else if (c =? 1) || (c =? -1) then Ok (snd p)
  else Raise IndexError.

(** [regtocoordenates(lval, ymaxpoint)] on the points that
    [getregressionline] returns: each point is read at the indices
    [int(self.xcolumn) - 1] and [int(self.ycolumn) - 1]. *)
Definition regtocoordenates (xcolumn ycolumn : Z) (lval : list (float * float))
    (ymaxpoint : Z) : outcome (list (float * float)) :=
  Py.for_range (length lval)
    (fun num newlpoints =>
       p <-- Py.getitem lval num ;;
       xcoordenate <-- ffield p (xcolumn - 1) ;;
       fmax <-- Py.float_of_int ymaxpoint ;;
       p' <-- Py.getitem lval num ;;
       y <-- ffield p' (ycolumn - 1) ;;
       Ok (newlpoints ++ [(xcoordenate, (fmax - y)%float)]))
    [].

(** The labels of one axis as [printsvg] draws them,
    [while int(self.yinc) <= maxaxis: ...; self.yinc = auxinc * cont;
     cont += 1],
    entered with the current [self.yinc] and [cont]; each turn draws one
    label, at the distance [int(self.yinc)] from the origin of the axis
    and with [self.yinc] as its text.  The loop runs once for the Y axis
    and once for the X axis, both times from [self.yinc = auxinc] and
    [cont = 0]. *)
Fixpoint scale_loop (fuel : nat) (auxinc maxaxis : Z) (yinc cont : Z)
  : outcome (list Z) :=
  match fuel with
  | O => OutOfFuel
  | S fuel' =>
      if yinc <=? maxaxis then
        rest <-- scale_loop fuel' auxinc maxaxis (auxinc * cont) (cont + 1) ;;
        Ok (yinc :: rest)
      else Ok []
  end.

Definition scale_labels (fuel : nat) (auxinc maxaxis : Z) : outcome (list Z) :=
  scale_loop fuel auxinc maxaxis auxinc 0.

(** A number of a polygon outline: [getsvgpoint] leaves an int where it
    passes [xpoint] or [ypoint] unchanged, and a float where it adds or
    subtracts [size / 2]. *)
Inductive num : Type :=
  | Int (z : Z)
  | Float (f : float).

(** The shapes that [getsvgpoint] builds: [Circle(cx, cy, radius, ...)],
    [Rectangle(height, width, x, y, id, fill)] and
    [Polygon(points, id, fill)]. *)
Inductive shape : Type :=
  | Circle (cx cy : Z) (r : float) (fill : string)
  | Rectangle (heightrect widthrect x y : float) (id fill : string)
  | Polygon (points : list (num * num)) (id fill : string).

(** [getsvgpoint(xpoint, ypoint, sym, color, size)]; [size] is the float
    [self.ptsize].  An int operand of a float operation is converted
    first; a symbol that is none of the five names leaves the local
    [shapepoint] unbound. *)
Definition getsvgpoint (xpoint ypoint : Z) (sym color : string) (size : float)
  : outcome shape :=
  let half := (size / 2)%float in
  if String.eqb sym "circle" then
    Ok (Circle xpoint ypoint half color)
  else if String.eqb sym "square" then
    fx <-- Py.float_of_int xpoint ;;
    fy <-- Py.float_of_int ypoint ;;
    Ok (Rectangle size size (fx - half) (fy - half) sym color)
  else if String.eqb sym "triangle" then
    fy <-- Py.float_of_int ypoint ;;
    fx <-- Py.float_of_int xpoint ;;
    Ok (Polygon [(Int xpoint, Float (fy - half));
                 (Float (fx - half), Float (fy + half));
                 (Float (fx + half), Float (fy + half))] sym color)
  else if String.eqb sym "invertedtriangle" then
    fx <-- Py.float_of_int xpoint ;;
    fy <-- Py.float_of_int ypoint ;;
    Ok (Polygon [(Float (fx - half), Float (fy - half));
                 (Int xpoint, Float (fy + half));
                 (Float (fx + half), Float (fy - half))] sym color)
  else if String.eqb sym "diamond" then
    fy <-- Py.float_of_int ypoint ;;
    fx <-- Py.float_of_int xpoint ;;
    Ok (Polygon [(Int xpoint, Float (fy - half));
                 (Float (fx + half), Int ypoint);
                 (Int xpoint, Float (fy + half));
                 (Float (fx - half), Int ypoint)] sym color)
  else Raise UnboundLocalError.

(** A point of the plot as [printsvg] draws it: the centre
    [(xpoint, ypoint)] it passes to [getsvgpoint] and the shape it gets. *)
Record marker : Type := mk_marker {
  marker_x : Z;
  marker_y : Z;
  marker_shape : shape
}.

(** The loop [for cont in range(len(self.lval[int(self.xcolumn) - 1]))] of
    [printsvg] that draws the points, one per row and data set. *)
Definition draw_points (xcolumn ycolumn xcolumn2 xorigin yorigin ymaxaxis : Z)
    (ptsym ptcolor pt2sym pt2color : string) (ptsize : float)
    (lval : list (list string)) : outcome (list marker) :=
  xcol <-- Py.getitem lval (xcolumn - 1) ;;
  Py.for_range (length xcol)
    (fun cont drawn =>
       xcol <-- Py.getitem lval (xcolumn - 1) ;;
       cell <-- Py.getitem xcol cont ;;
       x <-- Py.int cell ;;
       let xpoint := x + xorigin in
       ycol <-- Py.getitem lval (ycolumn - 1) ;;
       cell <-- Py.getitem ycol cont ;;
       y <-- Py.int cell ;;
       let ypoint := yorigin + ymaxaxis - y in
       sh <-- getsvgpoint xpoint ypoint ptsym ptcolor ptsize ;;
       let m := mk_marker xpoint ypoint sh in
       if Py.len lval >? xcolumn2 then
         let ycolumn2 := Py.len lval in
         xcol2 <-- Py.getitem lval (xcolumn2 - 1) ;;
         cell <-- Py.getitem xcol2 cont ;;
         x2 <-- Py.int cell ;;
         let xpoint2 := x2 + xorigin in
         ycol2 <-- Py.getitem lval (ycolumn2 - 1) ;;
         cell <-- Py.getitem ycol2 cont ;;
         y2 <-- Py.int cell ;;
         let ypoint2 := yorigin + ymaxaxis - y2 in
         sh2 <-- getsvgpoint xpoint2 ypoint2 pt2sym pt2color ptsize ;;
         let m2 := mk_marker xpoint2 ypoint2 sh2 in
         Ok (drawn ++ [m; m2])
       else Ok (drawn ++ [m]))
    [].

(** What [printsvg] prints when it catches IndexError. *)
Definition msg_columns : string :=
  "The number of columns in data file must be equal to the" ++
  "maximum value indicated by the parameters x, y, x2, y2" ++ nl ++
  "Please review the input data " ++ nl ++ "For help use --help".

(** The points of the regression line of the first data set, as [printsvg]
    computes them when [self.corr] is set:
    [regtocoordenates(getregressionline(lval), getmaxpoint(lval[ycolumn - 1]))],
    inside the [try] of [printsvg], whose only handler is the one of
    IndexError. *)
Definition regline (xcolumn ycolumn : Z) (lval : list (list string))
  : outcome (list (float * float)) :=
  try_except
    (reg <-- Scatterplot.getregressionline xcolumn ycolumn lval ;;
     ycol <-- Py.getitem lval (ycolumn - 1) ;;
     ymaxpoint <-- getmaxpoint ycol ;;
     regtocoordenates xcolumn ycolumn reg ymaxpoint)
    IndexError (Exit 2 msg_columns).

End ScatterplotAxes.

(** *** class Lineplot: the path of the line *)

Module LineplotPath.
Import Lineplot.

(** [transformtocoordenates(lval, ymaxpoint)]. *)
Definition transformtocoordenates (xcolumn ycolumn : Z) (lval : list (list string))
    (ymaxpoint : Z) : outcome (list point) :=
  xcol <-- Py.getitem lval (xcolumn - 1) ;;
  Py.for_range (length xcol)
    (fun num newlpoints =>
       xcol <-- Py.getitem lval (xcolumn - 1) ;;
       cell <-- Py.getitem xcol num ;;
       xcoordenate <-- Py.int cell ;;
       ycol <-- Py.getitem lval (ycolumn - 1) ;;
       cell <-- Py.getitem ycol num ;;
       y <-- Py.int cell ;;
       Ok (newlpoints ++ [(xcoordenate, ymaxpoint - y)]))
    [].

(** The points of the first [Linepath] of [printsvg]: the transformed
    points in the order the sort leaves them, after
    [[lpointsordenate[0][0], ymaxaxis]] and before
    [[getmaxpoint(lval[int(self.xcolumn) - 1]), ymaxaxis]].  [fuel] bounds
    the sort. *)
Definition plotline (fuel : nat) (xcolumn ycolumn : Z) (lval : list (list string))
    (ymaxaxis : Z) : outcome (list point) :=
  lpoints <-- transformtocoordenates xcolumn ycolumn lval ymaxaxis ;;
  lpointsordenate <-- ordenatewithquicksort (xcolumn - 1) (ycolumn - 1) fuel
                        lpoints (xcolumn - 1) (Py.len lpoints - 1) ;;
  p0 <-- Py.getitem lpointsordenate 0 ;;
  x0 <-- field p0 0 ;;
  let lpointsordenate := (x0, ymaxaxis) :: lpointsordenate in
  xcol <-- Py.getitem lval (xcolumn - 1) ;;
  xmax <-- ScatterplotAxes.getmaxpoint xcol ;;
  Ok (lpointsordenate ++ [(xmax, ymaxaxis)]).

End LineplotPath.

(** *** class Bardiagram: the bars *)

Module BardiagramBars.

(** A [Column]: the two texts, the rectangle (height, width, left and top
    edge) and its fill colour; [bar_series] and [bar_index] are the two
    numbers in its identifier ["colum<series>_<index>"]. *)
Record bar : Type := mk_bar {
  bar_xtext : string;
  bar_ytext : string;
  bar_height : Z;
  bar_width : Z;
  bar_x : Z;
  bar_y : Z;
  bar_fill : string;
  bar_series : Z;
  bar_index : Z
}.

(** [endbars], the right end of the grid lines, of the title and of the
    legend, as [printsvg] computes it before it draws. *)
Definition endbars (ycolumn ycolumn2 xorigin delim barwidth : Z)
    (lval : list (list string)) : outcome Z :=
  if Py.len lval =? ycolumn2 then
    ycol <-- Py.getitem lval (ycolumn - 1) ;;
    ycol2 <-- Py.getitem lval (ycolumn2 - 1) ;;
    let numbars := Py.len ycol + Py.len ycol2 in
    Ok (xorigin + delim * (numbars / 2) + barwidth * numbars)
  else
    ycol <-- Py.getitem lval (ycolumn - 1) ;;
    let numbars := Py.len ycol in
    Ok (xorigin + delim * numbars + barwidth * numbars).

(** The loop of [printsvg] that draws the bars, entered after
    [self.xorigin = self.xorigin + int(self.delim)]; the state is
    [self.xorigin] and the bars drawn so far. *)
Definition draw_bars (xcolumn ycolumn ycolumn2 xorigin yorigin delim barwidth
                      yrange heightmaxbar : Z) (fillcolor fillcolor2 : string)
    (lval : list (list string)) : outcome (Z * list bar) :=
  let xorigin := xorigin + delim in
  xcol <-- Py.getitem lval (xcolumn - 1) ;;
  Py.for_range (length xcol)
    (fun cont st =>
       let '(xorigin, drawn) := st in
       xcol <-- Py.getitem lval (xcolumn - 1) ;;
       xvalue <-- Py.getitem xcol cont ;;
       ycol <-- Py.getitem lval (ycolumn - 1) ;;
       yvalue <-- Py.getitem ycol cont ;;
       y <-- Py.int yvalue ;;
       let yoriginbar := yorigin + heightmaxbar - y in
       let column := mk_bar xvalue yvalue (y - yrange) barwidth xorigin
                            yoriginbar fillcolor 1 cont in
       if Py.len lval =? ycolumn2 then
         ycol2 <-- Py.getitem lval (ycolumn2 - 1) ;;
         yvalue2 <-- Py.getitem ycol2 cont ;;
         y2 <-- Py.int yvalue2 ;;
         let yoriginbar2 := yorigin + heightmaxbar - y2 in
         let column2 := mk_bar "" yvalue2 (y2 - yrange) barwidth
                               (xorigin + barwidth) yoriginbar2 fillcolor2 2 cont in
         Ok (xorigin + delim + 2 * barwidth, drawn ++ [column; column2])
       else
         Ok (xorigin + delim + barwidth, drawn ++ [column]))
    (xorigin, []).

End BardiagramBars.

(** *** class Bardiagram3d *)

Module Bardiagram3d.

Definition msg_numeric : string :=
  "The input values must be numeric, can not be strings" ++ banner04.

(** What [__init__] prints when it catches IndexError. *)
Definition msg_values : string :=
  "The number of values of the parameters x, y or y2 must" ++
  " be equal, please review the input data" ++ nl ++
  "For help use --help" ++ banner04.

(** What [printsvg] prints for a value below [yrange]. *)
Definition msg_yrange : string :=
  "Yrange value must be less than the minimum" ++
  "value of the input data" ++ nl ++ "pysvg 0.0.4-Nov2011" ++ nl ++
  "Copyright (C) 2011 Isabel Rodriguez" ++ nl ++
  "You can see the full documentation at URL:" ++
  " " ++ dq ++ "http://www.pysvg/orgfree.com" ++ dq.

(** [setmaximumbars(lval)] over the column of the heights. *)
Definition setmaximumbars (lval : list string) : outcome Z :=
  try_except
    (cell0 <-- Py.getitem lval 0 ;;
     heightmaxbar <-- Py.int cell0 ;;
     Bardiagram.max_loop lval heightmaxbar)
    ValueError (Exit 2 msg_numeric).

(** The constructor: [self.heightmaxbar] after [__init__]. *)
Definition init (ycolumn : Z) (lval : list (list string)) : outcome Z :=
  try_except
    (ycol <-- Py.getitem lval (ycolumn - 1) ;;
     setmaximumbars ycol)
    IndexError (Exit 2 msg_values).

(** A [Column3d]: as a [Column], with one data set only. *)
Record bar3d : Type := mk_bar3d {
  bar3d_xtext : string;
  bar3d_ytext : string;
  bar3d_height : Z;
  bar3d_width : Z;
  bar3d_x : Z;
  bar3d_y : Z;
  bar3d_fill : string;
  bar3d_index : Z
}.

(** The loop of [printsvg] that draws the bars, entered after
    [self.xorigin = self.xorigin + int(self.delim)]; a value below
    [yrange] leaves through [sys.exit(2)]. *)
Definition draw_bars (xcolumn ycolumn xorigin yorigin delim barwidth
                      yrange heightmaxbar : Z) (fillcolor : string)
    (lval : list (list string)) : outcome (Z * list bar3d) :=
  let xorigin := xorigin + delim in
  xcol <-- Py.getitem lval (xcolumn - 1) ;;
  Py.for_range (length xcol)
    (fun cont st =>
       let '(xorigin, drawn) := st in
       xcol <-- Py.getitem lval (xcolumn - 1) ;;
       xvalue <-- Py.getitem xcol cont ;;
       ycol <-- Py.getitem lval (ycolumn - 1) ;;
       yvalue <-- Py.getitem ycol cont ;;
       y <-- Py.int yvalue ;;
       let yoriginbar := yorigin + heightmaxbar - y in
       if yrange <=? y then
         let column3d := mk_bar3d xvalue yvalue (y - yrange) barwidth xorigin
                                  yoriginbar fillcolor cont in
         Ok (xorigin + delim + barwidth, drawn ++ [column3d])
       else Exit 2 msg_yrange)
    (xorigin, []).

End Bardiagram3d.

(** * Definitions for the statements *)

(** The cells [col] are int literals, of values [vals]. *)
Definition ints (col : list string) (vals : list Z) : Prop :=
  Forall2 (fun cell v => Py.int cell = Ok v) col vals.

(** The sum of a list of ints. *)
Definition sum_list (vals : list Z) : Z := fold_right Z.add 0 vals.

(** For the statements about the sort: the x of the point at an index,
    the list with two of its points exchanged, the lists reached by
    exchanges inside an index range, and the order on an index range. *)
Module SortSpec.
Import Lineplot.

(** The x of the point at index [k] (0 beyond the end). *)
Definition xn (l : list point) (k : nat) : Z :=
  match l !! k with
  | Some p => fst p
  | None => 0
  end.

(** [l] with the points at [i] and [j] exchanged. *)
Definition swap_at (l : list point) (i j : nat) : list point :=
  match l !! i, l !! j with
  | Some a, Some b => <[j := a]> (<[i := b]> l)
  | _, _ => l
  end.

(** [reorder lo hi l l']: [l'] comes from [l] by exchanges of points whose
    indices are both between [lo] and [hi]. *)
Inductive reorder (lo hi : Z) : list point -> list point -> Prop :=
  | reorder_refl l : reorder lo hi l l
  | reorder_step l l' (i j : nat) :
      lo <= Z.of_nat i <= hi -> lo <= Z.of_nat j <= hi ->
      (i < length l)%nat -> (j < length l)%nat ->
      reorder lo hi (swap_at l i j) l' ->
      reorder lo hi l l'.

(** The x values do not decrease between [lo] and [hi]. *)
Definition sorted_on (lo hi : Z) (l : list point) : Prop :=
  forall a b : nat,
    lo <= Z.of_nat a -> (a <= b)%nat -> Z.of_nat b <= hi -> xn l a <= xn l b.

(** What the partition loop keeps true, for the range [first..last], the
    pivot [p] and the list [l0] at the entry. *)
Definition part_inv (first last p : Z) (l0 l : list point) (ivar jvar : Z) : Prop :=
  reorder first last l0 l
  /\ first <= ivar /\ jvar <= last
  /\ (forall k : nat, first <= Z.of_nat k < ivar -> xn l k <= p)
  /\ (forall k : nat, jvar < Z.of_nat k <= last -> p <= xn l k)
  /\ (ivar < jvar ->
      (exists s : nat, ivar <= Z.of_nat s <= last /\ p <= xn l s)
      /\ (exists t : nat, first <= Z.of_nat t <= jvar /\ xn l t <= p))
  /\ ((ivar = first /\ jvar = last) \/ (first < ivar /\ jvar < last)).

End SortSpec.

Module FiletextSpec.
Import Filetext.

(** Column [j] of a row-major table. *)
Definition column (cad : table) (j : nat) : list string :=
  map (fun row => nth j row EmptyString) cad.

(** The body of the inner loop of the transposition, for the token
    position [poscad1]. *)
Definition inner_body (cad : table) (poscad1 : Z) :=
  fun (poscad : Z) (auxcad : list string) =>
    row <-- Py.getitem cad poscad ;;
    cell <-- Py.getitem row poscad1 ;;
    Ok (auxcad ++ [cell]).

End FiletextSpec.

Module BardiagramSpec.

(** The ticks number [0] to [n - 1]. *)
Definition ticks (yrange yinc : Z) (n : nat) : list Z :=
  map (fun k => yrange + yinc * Z.of_nat k) (seq 0 n).

(** How many ticks fit under [heightmaxbar]. *)
Definition tick_count (yrange yinc heightmaxbar : Z) : nat :=
  if yrange <=? heightmaxbar
  then Z.to_nat ((heightmaxbar - yrange) / yinc + 1)
  else 0%nat.

(** The values that feed the Y axis: those of the column [ycolumn], and
    those of the column [ycolumn2] after them when the chart has this
    second data set ([len(lval) == int(self.ycolumn2)]). *)
Definition axis_values (ycolumn ycolumn2 : Z) (lval : list (list string))
    (all : list Z) : Prop :=
  exists ycol vals,
    Py.getitem lval (ycolumn - 1) = Ok ycol /\ ints ycol vals
    /\ if Py.len lval =? ycolumn2
       then exists ycol2 vals2,
              Py.getitem lval (ycolumn2 - 1) = Ok ycol2 /\ ints ycol2 vals2
              /\ all = vals ++ vals2
       else all = vals.

End BardiagramSpec.

Module PiechartSpec.
Import Piechart.

(** What [printsvg] guarantees of a drawn slice: the text stands at the
    middle angle of the slice, at the radius times the factor that the
    test on this angle selects, and the flag of the arc is the one of the
    span of the slice. *)
Definition slice_drawn (self : t) (s : slice) : Prop :=
  text_angle s = midpoint (start_radian s) (radian s)
  /\ (exists fradius, Py.float_of_int (radius self) = Ok fradius
        /\ text_offset s = (fradius * label_factor (start_radian s) (radian s))%float)
  /\ arc_flag s = Path.large_arc_flag (radian s).

End PiechartSpec.

(** The two ways in which the modelled code leaves a computation before
    its end: an exception, or [sys.exit]. *)
Inductive stop : Type :=
  | StopRaise (e : exn)
  | StopExit (status : Z) (msg : string).

Definition stopped {A : Type} (s : stop) : outcome A :=
  match s with
  | StopRaise e => Raise e
  | StopExit status msg => Exit status msg
  end.

(** A step that can only return, or stop in the way [s]. *)
Definition returns_or_stops {A : Type} (s : stop) (m : outcome A) : Prop :=
  (exists a, m = Ok a) \/ m = stopped s.

(** For the statements about the slices of the pie: [news] are slices
    drawn one after the other from the start angle [r0] and the position
    [p0] on, each with the colour of its position. *)
Fixpoint slices_from (self : Piechart.t) (r0 : float) (p0 : Z)
    (news : list Piechart.slice) : Prop :=
  match news with
  | [] => True
  | s :: rest =>
      Piechart.start_radian s = r0
      /\ Piechart.slice_pos s = p0
      /\ (exists colors,
            Py.getitem (Piechart.listvalues self) (Piechart.colorfld self - 1)
            = Ok colors
            /\ Py.getitem colors p0 = Ok (Piechart.fill s))
      /\ slices_from self (r0 + Piechart.radian s)%float (p0 + 1) rest
  end.

(** Inversion of a successful sequence of binds. *)
Ltac bind_ok H :=
  repeat match type of H with
         | bind ?m _ = Ok _ =>
             let E := fresh "E" in
             destruct m eqn:E; cbn [bind] in H; try discriminate H
         | (if ?b then _ else _) = Ok _ =>
             let E := fresh "E" in
             destruct b eqn:E; try discriminate H
         | (let '(_, _) := ?p in _) = Ok _ =>
             destruct p
         end.


(** * Properties *)

(** ** Python primitives *)

(** [int] skips the whitespace around a literal and refuses anything else
    than an optional sign and decimal digits; [float] keeps the sign of a
    literal of zero. *)
Example int_literals :
  Py.int " 7" = Ok 7 /\ Py.int "7 " = Ok 7 /\ Py.int "+7" = Ok 7
  /\ Py.int "-07" = Ok (-7) /\ Py.int "" = Raise ValueError
  /\ Py.int " " = Raise ValueError /\ Py.int "2.5" = Raise ValueError
  /\ Py.int "1 2" = Raise ValueError /\ Py.int "-" = Raise ValueError
  /\ Py.float_of_token "-0" = Ok (-0)%float
  /\ Py.float_of_token "0" = Ok 0%float
  /\ Py.float_of_token " -12 " = Ok (-12)%float.
Proof. repeat split; vm_compute; reflexivity. Qed.

Section PyFacts.

Context {A : Type}.
Implicit Types (l : list A) (a : A).

Lemma getitem_lookup l (k : nat) a :
  l !! k = Some a -> Py.getitem l (Z.of_nat k) = Ok a.
Proof.
  intros Hk. pose proof (lookup_lt_Some _ _ _ Hk) as Hlt.
  unfold Py.getitem.
  destruct (Z.ltb_spec (Z.of_nat k) 0) as [Hneg|_]; [lia|].
  destruct (Z.leb_spec 0 (Z.of_nat k)) as [_|?]; [|lia].
  destruct (Z.ltb_spec (Z.of_nat k) (Z.of_nat (length l))) as [_|?]; [|lia].
  simpl. by rewrite Nat2Z.id, Hk.
Qed.

Lemma getitem_in_range l (i : Z) :
  0 <= i < Py.len l ->
  exists a, l !! Z.to_nat i = Some a /\ Py.getitem l i = Ok a.
Proof.
  intros [H0 Hlen]. unfold Py.len in Hlen.
  destruct (lookup_lt_is_Some_2 l (Z.to_nat i)) as [a Ha]; [lia|].
  exists a. split; [done|].
  rewrite <- (Z2Nat.id i) by done. by apply getitem_lookup.
Qed.

Lemma getitem_beyond l (i : Z) :
  Py.len l <= i -> Py.getitem l i = Raise IndexError.
Proof.
  intros Hi. unfold Py.len in Hi. unfold Py.getitem.
  destruct (Z.ltb_spec i 0) as [?|_]; [lia|].
  destruct (Z.ltb_spec i (Z.of_nat (length l))) as [?|_]; [lia|].
  by rewrite andb_false_r.
Qed.

Lemma setitem_in_range l (i : Z) a :
  0 <= i < Py.len l -> Py.setitem l i a = Ok (<[Z.to_nat i := a]> l).
Proof.
  intros [H0 Hlen]. unfold Py.len in Hlen. unfold Py.setitem.
  destruct (Z.ltb_spec i 0) as [?|_]; [lia|].
  destruct (Z.leb_spec 0 i) as [_|?]; [|lia].
  destruct (Z.ltb_spec i (Z.of_nat (length l))) as [_|?]; [|lia].
  done.
Qed.

End PyFacts.

(** ** filetext.py: the transposition *)

Module FiletextFacts.
Import Filetext FiletextSpec.

Lemma inner_loop_column (cad : table) (j : nat) :
  Forall (fun row => (j < length row)%nat) cad ->
  forall m, (m <= length cad)%nat ->
  Py.for_range m (inner_body cad (Z.of_nat j)) [] = Ok (column (take m cad) j).
Proof.
  intros Hrows. induction m as [|m IH]; intros Hm; [done|].
  simpl. rewrite IH by lia. simpl.
  destruct (lookup_lt_is_Some_2 cad m) as [row Hrow]; [lia|].
  unfold inner_body at 1. rewrite (getitem_lookup _ _ _ Hrow). simpl.
  assert (Hj : (j < length row)%nat).
  { rewrite Forall_forall in Hrows. apply Hrows.
    eapply list_elem_of_lookup_2; eauto. }
  destruct (lookup_lt_is_Some_2 row j) as [cell Hcell]; [done|].
  rewrite (getitem_lookup _ _ _ Hcell). simpl.
  rewrite (take_S_r _ _ _ Hrow). unfold column. rewrite map_app. simpl.
  do 3 f_equal. symmetry. apply nth_lookup_Some with (d := EmptyString) in Hcell.
  done.
Qed.

Lemma transpose_rows_columns (cad : table) (last_row : list string) :
  Forall (fun row => (length last_row <= length row)%nat) cad ->
  transpose_rows cad (Some last_row)
  = Ok (map (column cad) (seq 0 (length last_row))).
Proof.
  intros Hrows. unfold transpose_rows.
  assert (Hgen : forall k, (k <= length last_row)%nat ->
    Py.for_range k
      (fun poscad1 finalcad =>
         auxcad <-- Py.for_range (length cad) (inner_body cad poscad1) [] ;;
         Ok (finalcad ++ [auxcad])) []
    = Ok (map (column cad) (seq 0 k))).
  { induction k as [|k IH]; intros Hk; [done|].
    rewrite seq_S, map_app. cbn [Py.for_range].
    rewrite IH by lia. cbn [bind].
    rewrite inner_loop_column; [|eapply Forall_impl; [exact Hrows|simpl; lia]|lia].
    cbn [bind]. by rewrite firstn_all. }
  apply Hgen. lia.
Qed.

Lemma column_length cad j : length (column cad j) = length cad.
Proof. unfold column. by rewrite length_map. Qed.

Lemma map_nth_seq {A : Type} (d : A) (l : list A) :
  map (fun j => nth j l d) (seq 0 (length l)) = l.
Proof.
  apply list_eq. intros k. rewrite list_lookup_fmap.
  destruct (decide (k < length l)%nat) as [Hk|Hk].
  - rewrite lookup_seq_lt by done. simpl.
    destruct (lookup_lt_is_Some_2 l k Hk) as [a Ha].
    rewrite Ha. f_equal. by apply nth_lookup_Some.
  - rewrite lookup_seq_ge by lia. simpl. symmetry. apply lookup_ge_None. lia.
Qed.

Lemma nth_column (cad : table) (i j : nat) :
  nth i (column cad j) EmptyString = nth j (nth i cad []) EmptyString.
Proof.
  unfold column.
  transitivity (nth i (map (fun row => nth j row EmptyString) cad)
                  ((fun row => nth j row EmptyString) [])).
  - f_equal. by destruct j.
  - apply (map_nth (fun row => nth j row EmptyString)).
Qed.

Lemma last_map_seq {A : Type} (f : nat -> A) (n : nat) :
  last (map f (seq 0 (S n))) = Some (f n).
Proof. rewrite seq_S, map_app. simpl. by rewrite last_snoc. Qed.

Lemma transposition_rectangular (cad : table) (n : nat) :
  cad <> [] ->
  Forall (fun row => length row = n) cad ->
  transposition cad = Ok (map (column cad) (seq 0 n)).
Proof.
  intros Hne Hrows. unfold transposition.
  destruct (last cad) as [last_row|] eqn:Hlast.
  - assert (Hn : length last_row = n).
    { rewrite Forall_forall in Hrows. apply Hrows.
      apply last_Some_elem_of. done. }
    rewrite transpose_rows_columns.
    + by rewrite Hn.
    + eapply Forall_impl; [exact Hrows|]. simpl. intros. lia.
  - apply last_None in Hlast. done.
Qed.

(** The reading loop: every line is split and appended, and [cad1] ends as
    the last row. *)
Lemma read_rows_split (lines : list string) :
  Forall (fun fileline => fileline <> EmptyString) lines ->
  forall cad cad1,
    read_rows lines cad cad1
    = (cad ++ map Py.split lines,
       match last (map Py.split lines) with
       | Some row => Some row
       | None => cad1
       end).
Proof.
  induction 1 as [|fileline lines Hline _ IH]; intros cad cad1; simpl.
  - by rewrite app_nil_r.
  - destruct fileline as [|c fileline]; [done|].
    rewrite IH, <- app_assoc. simpl. f_equal.
    destruct (map Py.split lines) as [|row rows] eqn:E; [done|].
    change (last (Py.split (String c fileline) :: row :: rows))
      with (last (row :: rows)).
    by destruct (last (row :: rows)) eqn:El; [|apply last_None in El].
Qed.

(** [readinputfile] is the transposition of the split lines of the file. *)
Lemma readinputfile_transposition (fs : string -> option (list string))
    (path : string) (lines : list string) :
  fs path = Some lines ->
  Forall (fun fileline => fileline <> EmptyString) lines ->
  readinputfile fs path = transposition (map Py.split lines).
Proof.
  intros Hfs Hlines. unfold readinputfile, transposition. rewrite Hfs.
  rewrite (read_rows_split lines Hlines). simpl.
  by destruct (last (map Py.split lines)).
Qed.

(** X2.  When no row is shorter than the last one the file is accepted, whether
    the rows have the same number of tokens or not: the longer rows lose
    their tokens beyond the length of the last row. *)
Lemma readinputfile_accepts (fs : string -> option (list string))
    (path : string) (lines : list string) (last_row : list string) :
  fs path = Some lines ->
  Forall (fun fileline => fileline <> EmptyString) lines ->
  last (map Py.split lines) = Some last_row ->
  Forall (fun row => (length last_row <= length row)%nat) (map Py.split lines) ->
  readinputfile fs path
  = Ok (map (column (map Py.split lines)) (seq 0 (length last_row))).
Proof.
  intros Hfs Hlines Hlast Hrows.
  rewrite (readinputfile_transposition fs path lines Hfs Hlines).
  unfold transposition. rewrite Hlast.
  by rewrite transpose_rows_columns.
Qed.

End FiletextFacts.

(** C9, as the code has it.  Transposing twice gives the table back when
    it has at least one row and its rows share one length that is not
    zero: the transposition of [readinputfile], applied to the rows [R],
    returns the columns, and applied to these columns it returns [R]. *)
Theorem transposition_twice (R : Filetext.table) (n : nat) :
  R <> [] -> (0 < n)%nat ->
  Forall (fun row => length row = n) R ->
  exists C, Filetext.transposition R = Ok C /\ Filetext.transposition C = Ok R.
Proof.
  intros Hne Hn Hrows.
  exists (map (FiletextSpec.column R) (seq 0 n)). split.
  - by apply FiletextFacts.transposition_rectangular.
  - rewrite (FiletextFacts.transposition_rectangular _ (length R)).
    + rewrite <- (FiletextFacts.map_nth_seq [] R) at 3.
      f_equal. apply map_ext_in. intros i Hi. apply in_seq in Hi.
      unfold FiletextSpec.column at 1. rewrite map_map.
      erewrite map_ext; [|intros j; apply FiletextFacts.nth_column].
      assert (Hrow : length (nth i R []) = n).
      { rewrite Forall_forall in Hrows. apply Hrows.
        apply list_elem_of_In, nth_In. lia. }
      rewrite <- Hrow. apply FiletextFacts.map_nth_seq.
    + destruct n; [lia|]. rewrite seq_S, map_app. simpl.
      intros Hnil. by apply app_nil in Hnil as [_ ?].
    + apply Forall_forall. intros col Hcol.
      apply list_elem_of_In, in_map_iff in Hcol as (j & <- & _).
      apply FiletextFacts.column_length.
Qed.

(** A table of three rows of two cells goes through the round trip. *)
Lemma transposition_twice_witness :
  exists C, Filetext.transposition [["a"; "b"]; ["c"; "d"]; ["e"; "f"]]%string = Ok C
            /\ Filetext.transposition C = Ok [["a"; "b"]; ["c"; "d"]; ["e"; "f"]]%string.
Proof.
  apply (transposition_twice _ 2%nat).
  - discriminate.
  - lia.
  - repeat constructor.
Defined.

(** C9, as the claim states it, fails on a table whose only row is empty
    (a file made of one blank line): its rows all have the same length,
    its transposition has no column at all, and the transposition of that
    reads the unbound local [cad1]. *)
Lemma transposition_twice_blank_row :
  Forall (fun row : list string => length row = 0%nat) [[]]
  /\ Filetext.transposition [[]] = Ok []
  /\ Filetext.transposition [] = Raise UnboundLocalError
  /\ (C <-- Filetext.transposition [[]] ;; Filetext.transposition C) <> Ok [[]].
Proof. repeat split; [repeat constructor|discriminate]. Qed.

(** C2.  A file whose first row has four tokens and whose last row has
    three is not rejected: [readinputfile] returns a table of three
    columns and drops the fourth token of the first row. *)
Theorem readinputfile_longer_first_row :
  Filetext.readinputfile
    (fun _ => Some ["10 20 30 40" ++ nl; "1 2 3" ++ nl]%string) "data.txt"
  = Ok [["10"; "1"]; ["20"; "2"]; ["30"; "3"]]%string.
Proof. reflexivity. Qed.

(** The scenario of the specification, rows of three and of four tokens in
    this order, is rejected: the message is printed and the exit status is
    2. *)
Example readinputfile_shorter_first_row :
  Filetext.readinputfile
    (fun _ => Some ["1 2 3" ++ nl; "10 20 30 40" ++ nl]%string) "data.txt"
  = Exit 2 Filetext.msg_columns.
Proof. reflexivity. Qed.

(** ** Bardiagram: the maximum and the axis loop *)

Module BardiagramFacts.
Import Bardiagram BardiagramSpec.

Lemma max_loop_fold (col : list string) (vals : list Z) (m0 : Z) :
  ints col vals ->
  forall n, (n <= length col)%nat ->
  Py.for_range n
    (fun num m =>
       cell <-- Py.getitem col num ;;
       v <-- Py.int cell ;;
       if m <? v then cell' <-- Py.getitem col num ;; Py.int cell' else Ok m)
    m0
  = Ok (fold_left Z.max (take n vals) m0).
Proof.
  intros Hints. induction n as [|n IH]; intros Hn; [done|].
  cbn [Py.for_range]. rewrite IH by lia. cbn [bind].
  destruct (lookup_lt_is_Some_2 col n) as [cell Hcell]; [lia|].
  destruct (Forall2_lookup_l _ _ _ _ _ Hints Hcell) as (v & Hv & Hint).
  rewrite (getitem_lookup _ _ _ Hcell). cbn [bind]. rewrite Hint. cbn [bind].
  rewrite (take_S_r _ _ _ Hv), fold_left_app. simpl.
  destruct (Z.ltb_spec (fold_left Z.max (take n vals) m0) v).
  - f_equal. lia.
  - f_equal. lia.
Qed.

Lemma max_loop_ints col vals m0 :
  ints col vals -> max_loop col m0 = Ok (fold_left Z.max vals m0).
Proof.
  intros Hints. unfold max_loop.
  rewrite (max_loop_fold col vals m0 Hints) by done.
  by rewrite (Forall2_length _ _ _ Hints), firstn_all.
Qed.

Lemma fold_max_upper (vals : list Z) (m0 : Z) :
  m0 <= fold_left Z.max vals m0
  /\ Forall (fun v => v <= fold_left Z.max vals m0) vals.
Proof.
  revert m0. induction vals as [|v vals IH]; intros m0; simpl.
  - split; [lia|constructor].
  - destruct (IH (Z.max m0 v)) as [H1 H2]. split; [lia|].
    constructor; [lia|done].
Qed.

Lemma fold_max_elem (vals : list Z) (m0 : Z) :
  fold_left Z.max vals m0 = m0 \/ fold_left Z.max vals m0 ∈ vals.
Proof.
  revert m0. induction vals as [|v vals IH]; intros m0; simpl; [by left|].
  destruct (IH (Z.max m0 v)) as [H|H].
  - rewrite H. destruct (Z.max_spec m0 v) as [[_ ->]|[_ ->]].
    + right. constructor.
    + by left.
  - right. by constructor.
Qed.

(** With one data set, [self.heightmaxbar] is the maximum of the column. *)
Lemma init_maximum (lval : list (list string)) (ycolumn ycolumn2 : Z)
    (ycol : list string) (vals : list Z) :
  Py.getitem lval (ycolumn - 1) = Ok ycol ->
  ints ycol vals -> vals <> [] -> Py.len lval <> ycolumn2 ->
  exists h, init ycolumn ycolumn2 lval = Ok h
            /\ h ∈ vals /\ Forall (fun v => v <= h) vals.
Proof.
  intros Hcol Hints Hne Hsingle.
  destruct Hints as [|cell0 v0 col vals Hint0 Hints]; [done|].
  exists (fold_left Z.max (v0 :: vals) v0).
  split; [|split].
  - unfold init, setmaximumbars. rewrite Hcol. cbn [bind].
    rewrite (getitem_lookup (cell0 :: col) 0%nat cell0 eq_refl
             : Py.getitem (cell0 :: col) 0 = Ok cell0). cbn [bind].
    rewrite Hint0. cbn [bind].
    rewrite (max_loop_ints _ (v0 :: vals)) by (by constructor). cbn [bind].
    destruct (Z.eqb_spec (Py.len lval) ycolumn2); [done|]. done.
  - destruct (fold_max_elem (v0 :: vals) v0) as [->|H]; [constructor|done].
  - apply fold_max_upper.
Qed.

Lemma max_loop_prefix (col : list string) (m0 : Z) :
  forall n m, (n <= length col)%nat ->
  Py.for_range n
    (fun num m =>
       cell <-- Py.getitem col num ;;
       v <-- Py.int cell ;;
       if m <? v then cell' <-- Py.getitem col num ;; Py.int cell' else Ok m)
    m0
  = Ok m ->
  exists vals, ints (take n col) vals /\ m = fold_left Z.max vals m0.
Proof.
  induction n as [|n IH]; intros m Hn H.
  - injection H as <-. exists []. split; [constructor|done].
  - cbn [Py.for_range] in H.
    destruct (Py.for_range n _ m0) as [s| | |] eqn:Hs; try discriminate.
    cbn [bind] in H. destruct (IH s ltac:(lia) eq_refl) as (vals & Hvals & ->).
    destruct (lookup_lt_is_Some_2 col n) as [cell Hcell]; [lia|].
    rewrite (getitem_lookup _ _ _ Hcell) in H. cbn [bind] in H.
    destruct (Py.int cell) as [v| | |] eqn:Hv; try discriminate.
    cbn [bind] in H.
    exists (vals ++ [v]). split.
    + rewrite (take_S_r _ _ _ Hcell). apply Forall2_app; [done|].
      by repeat constructor.
    + rewrite fold_left_app. simpl.
      destruct (Z.ltb_spec (fold_left Z.max vals m0) v);
        injection H as <-; lia.
Qed.

(** A maximum loop that returns has read int literals only. *)
Lemma max_loop_Ok (col : list string) (m0 m : Z) :
  max_loop col m0 = Ok m ->
  exists vals, ints col vals /\ m = fold_left Z.max vals m0.
Proof.
  intros H. destruct (max_loop_prefix col m0 (length col) m) as (vals & Hv & ->);
    [done|exact H|].
  rewrite firstn_all in Hv. eauto.
Qed.

Lemma try_except_exit_Ok {A : Type} (m : outcome A) (e : exn) (status : Z)
    (msg : string) (a : A) :
  try_except m e (Exit status msg) = Ok a -> m = Ok a.
Proof.
  destruct m as [a'|e'| |]; simpl; try done.
  by destruct (decide (e' = e)).
Qed.

Lemma getitem_first (col : list string) (cell0 : string) :
  Py.getitem col 0 = Ok cell0 -> exists rest, col = cell0 :: rest.
Proof.
  destruct col as [|c rest]; [done|].
  rewrite (getitem_lookup (c :: rest) 0%nat c eq_refl
           : Py.getitem (c :: rest) 0 = Ok c).
  intros H. injection H as ->. eauto.
Qed.

(** When the constructor returns, [self.heightmaxbar] is the maximum of
    the values that feed the axis. *)
Lemma init_Ok (lval : list (list string)) (ycolumn ycolumn2 h : Z) :
  init ycolumn ycolumn2 lval = Ok h ->
  exists all,
    axis_values ycolumn ycolumn2 lval all
    /\ h ∈ all /\ Forall (fun v => v <= h) all.
Proof.
  unfold init, setmaximumbars, axis_values. intros H.
  do 2 apply try_except_exit_Ok in H.
  destruct (Py.getitem lval (ycolumn - 1)) as [ycol| | |] eqn:Hcol;
    try discriminate. cbn [bind] in H.
  destruct (Py.getitem ycol 0) as [cell0| | |] eqn:Hcell0;
    try discriminate. cbn [bind] in H.
  destruct (Py.int cell0) as [v0| | |] eqn:Hv0; try discriminate.
  cbn [bind] in H.
  destruct (max_loop ycol v0) as [hm| | |] eqn:Hloop; try discriminate.
  cbn [bind] in H.
  destruct (max_loop_Ok _ _ _ Hloop) as (vals & Hvals & ->).
  destruct (getitem_first _ _ Hcell0) as [rest ->].
  assert (Hin0 : v0 ∈ vals).
  { inversion Hvals as [|? v ? ? Hv ?]; subst.
    rewrite Hv0 in Hv. injection Hv as <-. constructor. }
  assert (Hhm : fold_left Z.max vals v0 ∈ vals).
  { by destruct (fold_max_elem vals v0) as [->|?]. }
  pose proof (fold_max_upper vals v0) as [Hv0le Hvalsle].
  destruct (Py.len lval =? ycolumn2).
  - destruct (Py.getitem lval (ycolumn2 - 1)) as [ycol2| | |] eqn:Hcol2;
      try discriminate. cbn [bind] in H.
    destruct (max_loop ycol2 v0) as [aux| | |] eqn:Hloop2; try discriminate.
    cbn [bind] in H.
    destruct (max_loop_Ok _ _ _ Hloop2) as (vals2 & Hvals2 & ->).
    pose proof (fold_max_upper vals2 v0) as [Hv0le2 Hvalsle2].
    injection H as <-.
    exists (vals ++ vals2). split; [|split].
    + exists (cell0 :: rest), vals. split; [done|]. split; [done|].
      exists ycol2, vals2. done.
    + apply elem_of_app.
      destruct (Z.ltb_spec (fold_left Z.max vals v0) (fold_left Z.max vals2 v0));
        [|by left].
      destruct (fold_max_elem vals2 v0) as [->|?]; [by left|by right].
    + apply Forall_app. split.
      * eapply Forall_impl; [exact Hvalsle|]. simpl. intros v Hv.
        destruct (Z.ltb_spec (fold_left Z.max vals v0) (fold_left Z.max vals2 v0));
          lia.
      * eapply Forall_impl; [exact Hvalsle2|]. simpl. intros v Hv.
        destruct (Z.ltb_spec (fold_left Z.max vals v0) (fold_left Z.max vals2 v0));
          lia.
  - injection H as <-. exists vals. split; [|done].
    exists (cell0 :: rest), vals. done.
Qed.

(** The loop, entered at the tick number [c]: it draws the ticks that are
    left, and stops. *)
Lemma axis_loop_ticks (yrange yinc heightmaxbar : Z) :
  0 < yinc ->
  forall (left c : nat) (fuel : nat),
    (left < fuel)%nat ->
    (forall k, (c <= k < c + left)%nat -> yrange + yinc * Z.of_nat k <= heightmaxbar) ->
    heightmaxbar < yrange + yinc * Z.of_nat (c + left) ->
    axis_loop fuel yrange yinc heightmaxbar (Z.of_nat c) (yrange + yinc * Z.of_nat c)
    = Ok (map (fun k => yrange + yinc * Z.of_nat k) (seq c left)).
Proof.
  intros Hinc. induction left as [|left IH]; intros c fuel Hfuel Hle Hgt.
  - destruct fuel as [|fuel]; [lia|]. simpl.
    rewrite Nat.add_0_r in Hgt.
    destruct (Z.leb_spec (yrange + yinc * Z.of_nat c) heightmaxbar); [lia|done].
  - destruct fuel as [|fuel]; [lia|]. cbn [axis_loop].
    destruct (Z.leb_spec (yrange + yinc * Z.of_nat c) heightmaxbar) as [_|Hc].
    + replace (Z.of_nat c + 1) with (Z.of_nat (S c)) by lia.
      rewrite (IH (S c) fuel); [done|lia| |].
      * intros k Hk. apply Hle. lia.
      * by replace (S c + left)%nat with (c + S left)%nat by lia.
    + specialize (Hle c). lia.
Qed.

Lemma tick_count_spec (yrange yinc heightmaxbar : Z) :
  0 < yinc ->
  let n := tick_count yrange yinc heightmaxbar in
  (forall k, (k < n)%nat -> yrange + yinc * Z.of_nat k <= heightmaxbar)
  /\ heightmaxbar < yrange + yinc * Z.of_nat n.
Proof.
  intros Hinc n. subst n. unfold tick_count.
  destruct (Z.leb_spec yrange heightmaxbar) as [Hle|Hgt].
  - pose proof (Z.div_pos (heightmaxbar - yrange) yinc ltac:(lia) Hinc) as Hq.
    pose proof (Z.mul_div_le (heightmaxbar - yrange) yinc Hinc) as Hlo.
    pose proof (Z.mul_succ_div_gt (heightmaxbar - yrange) yinc Hinc) as Hhi.
    split.
    + intros k Hk. nia.
    + rewrite Z2Nat.id by lia. nia.
  - split; [intros k Hk; lia|]. simpl. lia.
Qed.

End BardiagramFacts.

(** C3.  For every bar chart that the constructor has built, every range
    minimum and every increment above zero: [self.heightmaxbar] is the
    maximum [h] of the data column (of the two data columns when there is
    a second data set), and the axis loop of [printsvg] terminates (any
    bound above the number [n] of ticks is enough) having drawn exactly
    the ticks [yrange + yinc * k] for [k] from [0] to [n - 1]; each of
    them is at most [h] and the next one, [yrange + yinc * n], is above
    [h]. *)
Theorem axis_ticks_terminate (lval : list (list string))
    (ycolumn ycolumn2 yrange yinc h : Z) :
  Bardiagram.init ycolumn ycolumn2 lval = Ok h ->
  0 < yinc ->
  (exists all,
     BardiagramSpec.axis_values ycolumn ycolumn2 lval all
     /\ h ∈ all /\ Forall (fun v => v <= h) all)
  /\ let n := BardiagramSpec.tick_count yrange yinc h in
     (forall fuel, (n < fuel)%nat ->
        Bardiagram.axis_ticks fuel yrange yinc h
        = Ok (BardiagramSpec.ticks yrange yinc n))
     /\ (forall k, (k < n)%nat -> yrange + yinc * Z.of_nat k <= h)
     /\ h < yrange + yinc * Z.of_nat n.
Proof.
  intros Hinit Hinc. split; [by apply BardiagramFacts.init_Ok|].
  pose proof (BardiagramFacts.tick_count_spec yrange yinc h Hinc) as [Hle Hgt].
  split; [|by split].
  intros fuel Hfuel. unfold Bardiagram.axis_ticks.
  pose proof (BardiagramFacts.axis_loop_ticks yrange yinc h Hinc
                (BardiagramSpec.tick_count yrange yinc h) 0 fuel Hfuel) as Hloop.
  simpl in Hloop. rewrite Z.mul_0_r, Z.add_0_r in Hloop.
  apply Hloop; [intros k Hk; apply Hle; lia|done].
Qed.

(** The bar chart of the specification: the column 366, 42, 15, 67, 276,
    27, 66 with the range minimum 0 and the increment 20 has the maximum
    366 and the nineteen ticks 0, 20, ..., 360. *)
Lemma axis_ticks_bar_scenario :
  (exists all,
     BardiagramSpec.axis_values 2 3
       [["a"; "b"; "c"; "d"; "e"; "f"; "g"];
        ["366"; "42"; "15"; "67"; "276"; "27"; "66"]]%string all
     /\ 366 ∈ all /\ Forall (fun v => v <= 366) all)
  /\ (forall fuel, (19 < fuel)%nat ->
        Bardiagram.axis_ticks fuel 0 20 366
        = Ok [0; 20; 40; 60; 80; 100; 120; 140; 160; 180; 200; 220; 240; 260;
              280; 300; 320; 340; 360])
     /\ (forall k, (k < 19)%nat -> 0 + 20 * Z.of_nat k <= 366)
     /\ 366 < 0 + 20 * Z.of_nat 19.
Proof.
  apply (axis_ticks_terminate
           [["a"; "b"; "c"; "d"; "e"; "f"; "g"];
            ["366"; "42"; "15"; "67"; "276"; "27"; "66"]]%string 2 3 0 20 366).
  - reflexivity.
  - lia.
Defined.

(** The same scenario, evaluated. *)
Example axis_ticks_bar_scenario_values :
  Bardiagram.init 2 3
    [["a"; "b"; "c"; "d"; "e"; "f"; "g"];
     ["366"; "42"; "15"; "67"; "276"; "27"; "66"]]%string = Ok 366
  /\ Bardiagram.axis_ticks 20 0 20 366
     = Ok [0; 20; 40; 60; 80; 100; 120; 140; 160; 180; 200; 220; 240; 260;
           280; 300; 320; 340; 360].
Proof. split; reflexivity. Qed.

(** Without the precondition the loop has no exit: with an increment of
    zero and a range minimum under the maximum, no bound is enough. *)
Example axis_ticks_zero_increment (fuel : nat) :
  Bardiagram.axis_ticks fuel 0 0 366 = OutOfFuel.
Proof.
  unfold Bardiagram.axis_ticks. generalize 0 at 3. 
  induction fuel as [|fuel IH]; intros c; [done|].
  cbn [Bardiagram.axis_loop]. simpl (0 <=? 366). cbv iota.
  replace (0 + 0 * (c + 1)) with 0 by lia. by rewrite IH.
Qed.

(** ** Piechart and Path: the slices *)

Module PiechartFacts.
Import Piechart PiechartSpec.

Lemma draw_slice_drawn (self : t) (value : float) st st' :
  draw_slice self value st = Ok st' ->
  Forall (slice_drawn self) (snd st) ->
  Forall (slice_drawn self) (snd st')
  /\ map radian (snd st') = map radian (snd st) ++ [value].
Proof.
  destruct st as [[initianradian pos] drawn]. unfold draw_slice.
  intros H Hdrawn. bind_ok H; injection H as <-; simpl; split;
    try (by rewrite map_app);
    apply Forall_app; (split; [done|]); repeat constructor; simpl; eauto.
Qed.

Lemma draw_loop_drawn (self : t) (vals : list float) : forall st st',
  Py.for_each vals (draw_slice self) st = Ok st' ->
  Forall (slice_drawn self) (snd st) ->
  Forall (slice_drawn self) (snd st')
  /\ map radian (snd st') = map radian (snd st) ++ vals.
Proof.
  induction vals as [|value vals IH]; intros st st' H Hdrawn.
  - simpl in H. injection H as <-. by rewrite app_nil_r.
  - cbn [Py.for_each] in H. bind_ok H.
    destruct (draw_slice_drawn _ _ _ _ E Hdrawn) as [Hd Hr].
    destruct (IH _ _ H Hd) as [Hd' Hr']. split; [done|].
    by rewrite Hr', Hr, <- app_assoc.
Qed.

Lemma printsvg_Ok (self : t) (slices : list slice) :
  printsvg self = Ok slices ->
  Py.len (listvalues self) = colorfld self
  /\ Forall (slice_drawn self) slices
  /\ map radian slices = radianvalues self.
Proof.
  unfold printsvg. intros H.
  destruct (Z.eqb_spec (Py.len (listvalues self)) (colorfld self)) as [Heq|Hne];
    simpl in H; [|discriminate].
  split; [done|].
  destruct (Py.for_each (radianvalues self) (draw_slice self)
              (initianradian self, pos self, [])) as [st|e| |] eqn:E;
    simpl in H; try discriminate.
  - injection H as <-. by apply (draw_loop_drawn _ _ _ _ E).
  - destruct (decide (e = IndexError)); discriminate.
Qed.

Lemma totalsum_loop (col : list string) (vals : list Z) :
  ints col vals ->
  forall s0,
    Py.for_each col (fun value sumvalues => v <-- Py.int value ;; Ok (sumvalues + v)) s0
    = Ok (s0 + sum_list vals).
Proof.
  induction 1 as [|value v col vals Hv _ IH]; intros s0; simpl.
  - f_equal. lia.
  - rewrite Hv. cbn [bind]. rewrite IH. f_equal.
    unfold sum_list. simpl. lia.
Qed.

Lemma radians_loop (total : Z) (col : list string) : forall acc rads,
  Py.for_each col
    (fun value acc => r <-- radian_of total value ;; Ok (acc ++ [r])) acc
  = Ok rads ->
  exists spans,
    rads = acc ++ spans
    /\ Forall2 (fun value r => radian_of total value = Ok r) col spans.
Proof.
  induction col as [|value col IH]; intros acc rads H; simpl in H.
  - injection H as <-. exists []. split; [by rewrite app_nil_r|constructor].
  - destruct (radian_of total value) as [r| | |] eqn:Hr; try discriminate.
    cbn [bind] in H. destruct (IH _ _ H) as (spans & -> & Hspans).
    exists (r :: spans). split; [by rewrite <- app_assoc|by constructor].
Qed.

(** X29.  The layout that the constructor computes on a column of int literals:
    [self.sumvalues] is the sum of the values, and the span of each slice
    is the binary64 value of [(int(value) * 2 * pi) / self.sumvalues]. *)
Lemma init_layout (radius0 : Z) (lv : list (list string)) (values0 labels0 colorfld0 : Z)
    (legend0 : bool) (col : list string) (vals : list Z) (self : t) :
  Py.getitem lv (values0 - 1) = Ok col ->
  ints col vals ->
  init radius0 lv values0 labels0 colorfld0 legend0 = Ok self ->
  sumvalues self = sum_list vals
  /\ Forall2 (fun value r => radian_of (sum_list vals) value = Ok r)
       col (radianvalues self)
  /\ initianradian self = 0%float /\ pos self = 0.
Proof.
  intros Hcol Hints. unfold init, totalsum, valuestoradians. simpl.
  rewrite Hcol. cbn [bind]. rewrite (totalsum_loop col vals Hints). cbn [bind].
  simpl. rewrite Hcol. cbn [bind]. rewrite Z.add_0_l.
  destruct (Py.for_each col _ []) as [rads| | |] eqn:Hrads; try discriminate.
  cbn [bind]. intros H. injection H as <-. simpl.
  destruct (radians_loop _ _ _ _ Hrads) as (spans & -> & Hspans).
  done.
Qed.

End PiechartFacts.

(** C10.  Whatever the table: when [int(self.colorfld)] is not the number
    of columns of the table, [printsvg] prints the "Incorrect input data"
    message and leaves with the exit status 2, and so returns no slice;
    it does so before it reads the colour column, whether the column that
    [colorfld] names exists or not. *)
Theorem printsvg_colorfld_guard (self : Piechart.t) :
  Py.len (Piechart.listvalues self) <> Piechart.colorfld self ->
  Piechart.printsvg self = Exit 2 Piechart.msg_incorrect
  /\ forall slices, Piechart.printsvg self <> Ok slices.
Proof.
  intros Hne.
  assert (H : Piechart.printsvg self = Exit 2 Piechart.msg_incorrect).
  { unfold Piechart.printsvg.
    by destruct (Z.eqb_spec (Py.len (Piechart.listvalues self))
                            (Piechart.colorfld self)). }
  split; [done|]. intros slices. rewrite H. discriminate.
Qed.

(** A table of four columns whose third column holds the colours, drawn
    with [colorfld = 3]: the column exists and its colours are valid, and
    the chart is refused all the same. *)
Lemma printsvg_colorfld_guard_witness :
  exists self,
    Piechart.init 100
      [["a"; "b"]; ["3"; "1"]; ["red"; "blue"]; ["x"; "y"]]%string 2 1 3 false
    = Ok self
    /\ Piechart.printsvg self = Exit 2 Piechart.msg_incorrect
    /\ forall slices, Piechart.printsvg self <> Ok slices.
Proof.
  eexists. split; [vm_compute; reflexivity|].
  apply printsvg_colorfld_guard. vm_compute. discriminate.
Defined.

(** The converse direction of C10: slices come out only when [colorfld] is
    the number of columns. *)
Lemma printsvg_slices_only_last_column (self : Piechart.t) slices :
  Piechart.printsvg self = Ok slices ->
  Piechart.colorfld self = Py.len (Piechart.listvalues self).
Proof. intros H. by destruct (PiechartFacts.printsvg_Ok _ _ H) as [-> _]. Qed.

(** C6.  Two equal values make two slices of exactly [pi] radians each,
    and [printsvg] writes the large-arc-flag 0 for both. *)
Theorem half_circle_flag :
  (self <-- Piechart.init 100
              [["a"; "b"]; ["1"; "1"]; ["red"; "blue"]]%string 2 1 3 false ;;
   slices <-- Piechart.printsvg self ;;
   Ok (map (fun s => (Piechart.radian s, Piechart.arc_flag s)) slices))
  = Ok [(Py.pi, "0"%string); (Py.pi, "0"%string)].
Proof. vm_compute. reflexivity. Qed.

(** X28.  What the code does for every slice: the flag is 1 exactly when the span
    is above [pi], and 0 for a span of [pi] or less. *)
Lemma large_arc_flag_strict (self : Piechart.t) slices s :
  Piechart.printsvg self = Ok slices -> s ∈ slices ->
  Piechart.arc_flag s
  = if PrimFloat.ltb Py.pi (Piechart.radian s) then "1"%string else "0"%string.
Proof.
  intros H Hs. destruct (PiechartFacts.printsvg_Ok _ _ H) as (_ & Hall & _).
  rewrite Forall_forall in Hall. by destruct (Hall s Hs) as (_ & _ & ->).
Qed.

(** C7, as the code has it.  For every slice that [printsvg] draws, the
    percentage is written at the middle angle of the slice (its start plus
    half its span) and at 1.4 times the radius when this angle is strictly
    between [3 * pi / 4] and [5 * pi / 4], at 1.2 times the radius
    otherwise: the two bounds themselves get 1.2. *)
Theorem label_offset_open_interval (self : Piechart.t) slices s :
  Piechart.printsvg self = Ok slices -> s ∈ slices ->
  Piechart.text_angle s
  = (Piechart.start_radian s + Piechart.radian s / 2)%float
  /\ exists fradius,
       Py.float_of_int (Piechart.radius self) = Ok fradius
       /\ Piechart.text_offset s
          = if (PrimFloat.ltb (3 * Py.pi / 4)%float (Piechart.text_angle s)
                && PrimFloat.ltb (Piechart.text_angle s) (5 * Py.pi / 4)%float)%bool
            then (fradius * 0x1.6666666666666p+0)%float
            else (fradius * 0x1.3333333333333p+0)%float.
Proof.
  intros H Hs. destruct (PiechartFacts.printsvg_Ok _ _ H) as (_ & Hall & _).
  rewrite Forall_forall in Hall.
  destruct (Hall s Hs) as (Hmid & (fradius & Hrad & Hoff) & _).
  split; [done|]. exists fradius. split; [done|].
  rewrite Hoff, Hmid. unfold Piechart.label_factor.
  by destruct (_ && _)%bool.
Qed.

(** The pie of the values 1, 2 and 1: the second slice starts at
    [pi / 2] and spans [pi], its middle angle [pi] is inside the interval
    and its percentage stands at 1.4 times the radius. *)
Lemma label_offset_open_interval_witness :
  exists self slices s,
    Piechart.init 100
      [["a"; "b"; "c"]; ["1"; "2"; "1"]; ["red"; "blue"; "green"]]%string
      2 1 3 false
    = Ok self
    /\ Piechart.printsvg self = Ok slices
    /\ slices !! 1%nat = Some s
    /\ Piechart.text_angle s
       = (Piechart.start_radian s + Piechart.radian s / 2)%float
    /\ exists fradius,
         Py.float_of_int (Piechart.radius self) = Ok fradius
         /\ Piechart.text_offset s
            = if (PrimFloat.ltb (3 * Py.pi / 4)%float (Piechart.text_angle s)
                  && PrimFloat.ltb (Piechart.text_angle s) (5 * Py.pi / 4)%float)%bool
              then (fradius * 0x1.6666666666666p+0)%float
              else (fradius * 0x1.3333333333333p+0)%float.
Proof.
  eexists. eexists. eexists.
  split; [vm_compute; reflexivity|].
  split; [vm_compute; reflexivity|].
  split; [reflexivity|].
  eapply label_offset_open_interval.
  - vm_compute. reflexivity.
  - apply list_elem_of_lookup. exists 1%nat. reflexivity.
Defined.

(** The same pie, evaluated: the three percentages stand at 120, 140 and
    120 from the centre. *)
Example label_offsets_one_two_one :
  (self <-- Piechart.init 100
              [["a"; "b"; "c"]; ["1"; "2"; "1"]; ["red"; "blue"; "green"]]%string
              2 1 3 false ;;
   slices <-- Piechart.printsvg self ;;
   Ok (map Piechart.text_offset slices))
  = Ok [120; 140; 120]%float.
Proof. vm_compute. reflexivity. Qed.

(** C7, as the claim states it, fails at both bounds of the interval.  In
    the pie of the values 3 and 1 the first slice spans [3 * pi / 2]: its
    middle angle is exactly [3 * pi / 4].  In the pie of the values 2, 1
    and 1 the second slice starts at [pi] and spans [pi / 2]: its middle
    angle is exactly [5 * pi / 4].  The closed interval contains both
    angles, and both percentages are written at 1.2 times the radius 100,
    not at 1.4 times. *)
Lemma label_offset_at_bounds :
  (self <-- Piechart.init 100
              [["a"; "b"]; ["3"; "1"]; ["red"; "blue"]]%string 2 1 3 false ;;
   slices <-- Piechart.printsvg self ;;
   Ok (option_map (fun s => (Piechart.text_angle s, Piechart.text_offset s))
                  (slices !! 0%nat)))
  = Ok (Some ((3 * Py.pi / 4)%float, (100 * 0x1.3333333333333p+0)%float))
  /\ (self <-- Piechart.init 100
                 [["a"; "b"; "c"]; ["2"; "1"; "1"]; ["red"; "blue"; "green"]]%string
                 2 1 3 false ;;
      slices <-- Piechart.printsvg self ;;
      Ok (option_map (fun s => (Piechart.text_angle s, Piechart.text_offset s))
                     (slices !! 1%nat)))
     = Ok (Some ((5 * Py.pi / 4)%float, (100 * 0x1.3333333333333p+0)%float))
  /\ PrimFloat.eqb (100 * 0x1.3333333333333p+0) (100 * 0x1.6666666666666p+0)
     = false.
Proof. repeat split; vm_compute; reflexivity. Qed.

(** The pie of the specification, 39, 200, 42, 15, 67, 276 and 27: the sum
    is 666 and the binary64 sum of the seven spans is within [2 ^ -20] of
    [2 * pi]. *)
Example pie_scenario_total :
  (self <-- Piechart.init 100
              [["a"; "b"; "c"; "d"; "e"; "f"; "g"];
               ["39"; "200"; "42"; "15"; "67"; "276"; "27"];
               ["red"; "blue"; "green"; "cyan"; "pink"; "gray"; "gold"]]%string
              2 1 3 false ;;
   let total := fold_left PrimFloat.add (Piechart.radianvalues self) 0%float in
   Ok (Piechart.sumvalues self,
       PrimFloat.ltb (PrimFloat.abs (total - 2 * Py.pi)) 0x1p-20%float))
  = Ok (666, true).
Proof. vm_compute. reflexivity. Qed.

(** The layout takes int literals only: a positive decimal value is
    refused by [int] and the constructor raises ValueError. *)
Example pie_decimal_value :
  Piechart.init 100 [["a"; "b"]; ["2.5"; "1"]; ["red"; "blue"]]%string 2 1 3 false
  = Raise ValueError.
Proof. reflexivity. Qed.

(** ** Scatterplot: average, variance, covariance, regression line *)

Module ScatterplotFacts.
Import Scatterplot.

Lemma sum_list_app (l1 l2 : list Z) :
  sum_list (l1 ++ l2) = sum_list l1 + sum_list l2.
Proof. unfold sum_list. induction l1 as [|a l1 IH]; simpl; lia. Qed.

Lemma sum_loop (col : list string) (vals : list Z) :
  ints col vals ->
  forall n, (n <= length col)%nat ->
  Py.for_range n
    (fun num sumlval =>
       cell <-- Py.getitem col num ;; v <-- Py.int cell ;; Ok (sumlval + v)) 0
  = Ok (sum_list (take n vals)).
Proof.
  intros Hints. induction n as [|n IH]; intros Hn; [done|].
  cbn [Py.for_range]. rewrite IH by lia. cbn [bind].
  destruct (lookup_lt_is_Some_2 col n) as [cell Hcell]; [lia|].
  destruct (Forall2_lookup_l _ _ _ _ _ Hints Hcell) as (v & Hv & Hint).
  rewrite (getitem_lookup _ _ _ Hcell). cbn [bind]. rewrite Hint. cbn [bind].
  rewrite (take_S_r _ _ _ Hv), sum_list_app. simpl. f_equal. lia.
Qed.

(** The average of a column of ints: the floor of the sum over the count. *)
Lemma getaverage_ints (col : list string) (vals : list Z) :
  ints col vals ->
  getaverage col = Py.div (sum_list vals) (Py.len col).
Proof.
  intros Hints. unfold getaverage. rewrite (sum_loop col vals Hints) by done.
  cbn [bind]. by rewrite (Forall2_length _ _ _ Hints), firstn_all.
Qed.

Lemma ints_constant (col : list string) (x : Z) :
  Forall (fun cell => Py.int cell = Ok x) col ->
  ints col (replicate (length col) x).
Proof.
  induction 1 as [|cell col Hcell _ IH]; simpl; constructor; done.
Qed.

Lemma sum_list_replicate (n : nat) (x : Z) :
  sum_list (replicate n x) = x * Z.of_nat n.
Proof. induction n as [|n IH]; [simpl; lia|]. cbn [replicate sum_list fold_right]. fold (sum_list (replicate n x)). lia. Qed.

Lemma getaverage_constant (col : list string) (x : Z) :
  col <> [] ->
  Forall (fun cell => Py.int cell = Ok x) col ->
  getaverage col = Ok x.
Proof.
  intros Hne Hall. rewrite (getaverage_ints _ _ (ints_constant _ _ Hall)).
  rewrite sum_list_replicate. unfold Py.div, Py.len.
  destruct col; [done|].
  destruct (Z.eqb_spec (Z.of_nat (length (s :: col))) 0) as [H0|H0].
  - simpl in H0. lia.
  - f_equal. by apply Z.div_mul.
Qed.

Lemma getaverage_nonempty (col : list string) (vals : list Z) :
  col <> [] -> ints col vals -> exists m, getaverage col = Ok m.
Proof.
  intros Hne Hints. rewrite (getaverage_ints _ _ Hints). unfold Py.div, Py.len.
  destruct col; [done|].
  destruct (Z.eqb_spec (Z.of_nat (length (s :: col))) 0) as [H0|H0].
  - simpl in H0. lia.
  - eauto.
Qed.

(** A loop whose every turn leaves the accumulator at zero. *)
Lemma for_range_zero (n : nat) (body : Z -> Z -> outcome Z) :
  (forall k, (k < n)%nat -> body (Z.of_nat k) 0 = Ok 0) ->
  Py.for_range n body 0 = Ok 0.
Proof.
  induction n as [|n IH]; intros Hbody; [done|].
  cbn [Py.for_range]. rewrite IH by (intros; apply Hbody; lia).
  cbn [bind]. apply Hbody. lia.
Qed.

Lemma div_zero_nonempty {A : Type} (l : list A) :
  l <> [] -> Py.div 0 (Py.len l) = Ok 0.
Proof.
  intros Hne. unfold Py.div, Py.len. destruct l; [done|].
  destruct (Z.eqb_spec (Z.of_nat (length (a :: l))) 0) as [H0|H0].
  - simpl in H0. lia.
  - done.
Qed.

Lemma getvariance_constant (col : list string) (x : Z) :
  col <> [] ->
  Forall (fun cell => Py.int cell = Ok x) col ->
  getvariance col = Ok 0.
Proof.
  intros Hne Hall. unfold getvariance.
  rewrite for_range_zero.
  - cbn [bind]. by apply div_zero_nonempty.
  - intros k Hk.
    destruct (lookup_lt_is_Some_2 col k Hk) as [cell Hcell].
    rewrite (getitem_lookup _ _ _ Hcell). cbn [bind].
    rewrite Forall_lookup in Hall. rewrite (Hall _ _ Hcell). cbn [bind].
    rewrite (getaverage_constant col x) by (done || by apply Forall_lookup).
    cbn [bind]. f_equal. lia.
Qed.

Lemma getcovariance_constant (lval : list (list string)) (xcolumn ycolumn : Z)
    (xcol ycol : list string) (x : Z) (ys : list Z) :
  Py.getitem lval (xcolumn - 1) = Ok xcol ->
  Py.getitem lval (ycolumn - 1) = Ok ycol ->
  xcol <> [] ->
  Forall (fun cell => Py.int cell = Ok x) xcol ->
  ints ycol ys -> length ycol = length xcol ->
  getcovariance xcolumn ycolumn lval = Ok 0.
Proof.
  intros Hx Hy Hne Hall Hints Hlen. unfold getcovariance.
  rewrite Hx. cbn [bind].
  assert (Hyne : ycol <> []) by (destruct ycol, xcol; done).
  destruct (getaverage_nonempty _ _ Hyne Hints) as [my Hmy].
  rewrite for_range_zero.
  - cbn [bind]. by apply div_zero_nonempty.
  - intros k Hk.
    destruct (lookup_lt_is_Some_2 xcol k Hk) as [cell Hcell].
    rewrite (getitem_lookup _ _ _ Hcell). cbn [bind].
    pose proof Hall as Hall'. rewrite Forall_lookup in Hall'.
    rewrite (Hall' _ _ Hcell). cbn [bind].
    rewrite (getaverage_constant xcol x) by done. cbn [bind].
    rewrite Hy. cbn [bind].
    destruct (lookup_lt_is_Some_2 ycol k) as [cell2 Hcell2]; [lia|].
    rewrite (getitem_lookup _ _ _ Hcell2). cbn [bind].
    destruct (Forall2_lookup_l _ _ _ _ _ Hints Hcell2) as (b & _ & Hb).
    rewrite Hb. cbn [bind]. rewrite Hmy. cbn [bind]. f_equal. lia.
Qed.

End ScatterplotFacts.

(** For every pair of columns of ints of the same length whose X values
    are all the same, [getregressionline] raises ZeroDivisionError and
    returns no list of points. *)
Theorem regression_constant_x (lval : list (list string)) (xcolumn ycolumn : Z)
    (xcol ycol : list string) (x : Z) (ys : list Z) :
  Py.getitem lval (xcolumn - 1) = Ok xcol ->
  Py.getitem lval (ycolumn - 1) = Ok ycol ->
  Forall (fun cell => Py.int cell = Ok x) xcol ->
  ints ycol ys -> length ycol = length xcol ->
  Scatterplot.getregressionline xcolumn ycolumn lval = Raise ZeroDivisionError.
Proof.
  intros Hx Hy Hall Hints Hlen. unfold Scatterplot.getregressionline.
  destruct (decide (xcol = [])) as [->|Hne].
  - unfold Scatterplot.getcovariance. rewrite Hx. reflexivity.
  - rewrite (ScatterplotFacts.getcovariance_constant _ _ _ _ _ _ _ Hx Hy Hne Hall Hints Hlen).
    cbn [bind]. change (Py.float_of_int 0) with (Ok 0%float). cbn [bind].
    rewrite Hx. cbn [bind].
    rewrite (ScatterplotFacts.getvariance_constant _ _ Hne Hall). cbn [bind].
    change (Py.float_of_int 0) with (Ok 0%float). cbn [bind].
    reflexivity.
Qed.

(** Three points on the vertical line x = 5. *)
Lemma regression_constant_x_witness :
  Scatterplot.getregressionline 1 2 [["5"; "5"; "5"]; ["2"; "4"; "6"]]%string
  = Raise ZeroDivisionError.
Proof.
  apply (regression_constant_x _ 1 2 ["5"; "5"; "5"]%string
           ["2"; "4"; "6"]%string 5 [2; 4; 6]).
  - reflexivity.
  - reflexivity.
  - repeat constructor.
  - repeat constructor.
  - reflexivity.
Defined.

(** C8, as the code has it.  For every pair of columns of ints of the same
    length whose X values are all the same, [getregressionline] raises
    ZeroDivisionError and returns no list of points, and the [try] of
    [printsvg] around it, which handles IndexError only, lets the
    exception through: the program prints no message of its own and
    draws no regression line. *)
Theorem regression_constant_x_uncaught (lval : list (list string))
    (xcolumn ycolumn : Z) (xcol ycol : list string) (x : Z) (ys : list Z) :
  Py.getitem lval (xcolumn - 1) = Ok xcol ->
  Py.getitem lval (ycolumn - 1) = Ok ycol ->
  Forall (fun cell => Py.int cell = Ok x) xcol ->
  ints ycol ys -> length ycol = length xcol ->
  Scatterplot.getregressionline xcolumn ycolumn lval = Raise ZeroDivisionError
  /\ ScatterplotAxes.regline xcolumn ycolumn lval = Raise ZeroDivisionError.
Proof.
  intros Hx Hy Hall Hints Hlen.
  pose proof (regression_constant_x lval xcolumn ycolumn xcol ycol x ys
                Hx Hy Hall Hints Hlen) as Hreg.
  split; [done|]. unfold ScatterplotAxes.regline. by rewrite Hreg.
Qed.

(** Three points on the vertical line x = 5. *)
Lemma regression_constant_x_uncaught_witness :
  Scatterplot.getregressionline 1 2 [["5"; "5"; "5"]; ["2"; "4"; "6"]]%string
  = Raise ZeroDivisionError
  /\ ScatterplotAxes.regline 1 2 [["5"; "5"; "5"]; ["2"; "4"; "6"]]%string
     = Raise ZeroDivisionError.
Proof.
  apply (regression_constant_x_uncaught _ 1 2 ["5"; "5"; "5"]%string
           ["2"; "4"; "6"]%string 5 [2; 4; 6]).
  - reflexivity.
  - reflexivity.
  - repeat constructor.
  - repeat constructor.
  - reflexivity.
Defined.

(** C8, as the claim states it, fails on these three points: the error is
    not reported.  What [printsvg] gets from the regression is the
    exception itself, not the message and the [sys.exit] of its handler,
    and not a line either. *)
Lemma regression_constant_x_no_message :
  ScatterplotAxes.regline 1 2 [["5"; "5"; "5"]; ["2"; "4"; "6"]]%string
  = Raise ZeroDivisionError
  /\ (forall status msg,
        ScatterplotAxes.regline 1 2 [["5"; "5"; "5"]; ["2"; "4"; "6"]]%string
        <> Exit status msg)
  /\ (forall lpoints,
        ScatterplotAxes.regline 1 2 [["5"; "5"; "5"]; ["2"; "4"; "6"]]%string
        <> Ok lpoints).
Proof. repeat split; intros; discriminate. Qed.

(** C1.  On X = 1, 2, 3, 4 and Y = 2, 4, 6, 8 the slope is 2.0, but the
    means are floored to 2 and 5 before they are used, and the fitted
    points are 3, 5, 7, 9: each is one above the Y value it should equal. *)
Theorem regression_synthetic_line :
  Scatterplot.slope 1 2 [["1"; "2"; "3"; "4"]; ["2"; "4"; "6"; "8"]]%string
  = Ok 2%float
  /\ Scatterplot.getaverage ["1"; "2"; "3"; "4"]%string = Ok 2
  /\ Scatterplot.getaverage ["2"; "4"; "6"; "8"]%string = Ok 5
  /\ Scatterplot.getregressionline 1 2
       [["1"; "2"; "3"; "4"]; ["2"; "4"; "6"; "8"]]%string
     = Ok [(1, 3); (2, 5); (3, 7); (4, 9)]%float.
Proof. repeat split; vm_compute; reflexivity. Qed.

(** ** Lineplot: the partition-exchange sort *)

Module SortFacts.
Import Lineplot SortSpec.

(** *** Cells *)

Lemma get_cell_x (l : list point) (k : nat) (p : point) :
  l !! k = Some p -> get_cell l (Z.of_nat k) 0 = Ok (fst p).
Proof. intros H. unfold get_cell. by rewrite (getitem_lookup _ _ _ H). Qed.

Lemma get_cell_y (l : list point) (k : nat) (p : point) :
  l !! k = Some p -> get_cell l (Z.of_nat k) 1 = Ok (snd p).
Proof. intros H. unfold get_cell. by rewrite (getitem_lookup _ _ _ H). Qed.

Lemma get_cell_xn (l : list point) (k : nat) :
  (k < length l)%nat -> get_cell l (Z.of_nat k) 0 = Ok (xn l k).
Proof.
  intros Hk. destruct (lookup_lt_is_Some_2 l k Hk) as [p Hp].
  rewrite (get_cell_x _ _ _ Hp). unfold xn. by rewrite Hp.
Qed.

Lemma set_cell_x (l : list point) (k : nat) (p : point) (v : Z) :
  l !! k = Some p ->
  set_cell l (Z.of_nat k) 0 v = Ok (<[k := (v, snd p)]> l).
Proof.
  intros H. unfold set_cell. rewrite (getitem_lookup _ _ _ H). cbn [bind].
  change (set_field p 0 v) with (Ok (v, snd p)). cbn [bind].
  rewrite setitem_in_range.
  - by rewrite Nat2Z.id.
  - apply lookup_lt_Some in H. unfold Py.len. lia.
Qed.

Lemma set_cell_y (l : list point) (k : nat) (p : point) (v : Z) :
  l !! k = Some p ->
  set_cell l (Z.of_nat k) 1 v = Ok (<[k := (fst p, v)]> l).
Proof.
  intros H. unfold set_cell. rewrite (getitem_lookup _ _ _ H). cbn [bind].
  change (set_field p 1 v) with (Ok (fst p, v)). cbn [bind].
  rewrite setitem_in_range.
  - by rewrite Nat2Z.id.
  - apply lookup_lt_Some in H. unfold Py.len. lia.
Qed.

(** The four assignments of the code exchange the two points. *)
Lemma exchange_swap_at (l : list point) (i j : nat) :
  (i < length l)%nat -> (j < length l)%nat ->
  exchange 0 1 l (Z.of_nat i) (Z.of_nat j) = Ok (swap_at l i j).
Proof.
  intros Hi Hj.
  destruct (lookup_lt_is_Some_2 l i Hi) as [[xi yi] Ha].
  destruct (lookup_lt_is_Some_2 l j Hj) as [[xj yj] Hb].
  unfold exchange, swap_at. rewrite Ha, Hb.
  rewrite (get_cell_x _ _ _ Ha), (get_cell_y _ _ _ Ha). cbn [bind fst snd].
  rewrite (get_cell_x _ _ _ Hb). cbn [bind fst snd].
  rewrite (set_cell_x _ _ _ _ Ha). cbn [bind fst snd].
  destruct (decide (i = j)) as [->|Hij].
  - assert (xj = xi /\ yj = yi) as [-> ->] by (split; congruence).
    rewrite (get_cell_y _ j (xi, yi)) by (by apply list_lookup_insert_eq).
    cbn [bind fst snd].
    rewrite (set_cell_y _ j (xi, yi)) by (by apply list_lookup_insert_eq).
    cbn [bind fst snd]. rewrite list_insert_insert_eq.
    rewrite (set_cell_x _ j (xi, yi))
      by (apply list_lookup_insert_eq; by rewrite ?length_insert).
    cbn [bind fst snd]. rewrite list_insert_insert_eq.
    rewrite (set_cell_y _ j (xi, yi))
      by (apply list_lookup_insert_eq; by rewrite ?length_insert).
    cbn [fst]. by rewrite !list_insert_insert_eq.
  - rewrite (get_cell_y _ j (xj, yj)) by (by rewrite list_lookup_insert_ne).
    cbn [bind fst snd].
    rewrite (set_cell_y _ i (xj, yi)) by (by apply list_lookup_insert_eq).
    cbn [bind fst snd]. rewrite list_insert_insert_eq.
    rewrite (set_cell_x _ j (xj, yj)) by (by rewrite list_lookup_insert_ne).
    cbn [bind fst snd].
    rewrite (set_cell_y _ j (xi, yj))
      by (apply list_lookup_insert_eq; by rewrite ?length_insert).
    cbn [fst]. by rewrite list_insert_insert_eq.
Qed.

(** *** Exchanges *)

Lemma length_swap_at l i j : length (swap_at l i j) = length l.
Proof.
  unfold swap_at. destruct (l !! i), (l !! j); by rewrite ?length_insert.
Qed.

Lemma xn_swap_at (l : list point) (i j k : nat) :
  (i < length l)%nat -> (j < length l)%nat ->
  xn (swap_at l i j) k
  = if decide (k = j) then xn l i else if decide (k = i) then xn l j else xn l k.
Proof.
  intros Hi Hj.
  destruct (lookup_lt_is_Some_2 l i Hi) as [a Ha].
  destruct (lookup_lt_is_Some_2 l j Hj) as [b Hb].
  unfold swap_at, xn. rewrite Ha, Hb.
  destruct (decide (k = j)) as [->|Hkj].
  - rewrite list_lookup_insert_eq by (by rewrite length_insert). done.
  - rewrite list_lookup_insert_ne by done.
    destruct (decide (k = i)) as [->|Hki].
    + by rewrite list_lookup_insert_eq.
    + by rewrite list_lookup_insert_ne.
Qed.

Lemma swap_at_Permutation (l : list point) (i j : nat) :
  Permutation l (swap_at l i j).
Proof.
  unfold swap_at.
  destruct (l !! i) as [a|] eqn:Ha; [|done].
  destruct (l !! j) as [b|] eqn:Hb; [|done].
  destruct (decide (i = j)) as [->|Hij].
  - rewrite list_insert_insert_eq. by rewrite list_insert_id.
  - revert i j a b Ha Hb Hij.
    assert (Hlt : forall (l : list point) i j a b, (i < j)%nat ->
      l !! i = Some a -> l !! j = Some b ->
      Permutation l (<[j := a]> (<[i := b]> l))
      /\ Permutation l (<[i := b]> (<[j := a]> l))).
    { clear. intros l i j a b Hij Ha Hb.
      rewrite <- (take_drop_middle l i a Ha) at 1 3.
      assert (Hd : drop (S i) l !! (j - S i)%nat = Some b).
      { rewrite lookup_drop. rewrite <- Hb. f_equal. lia. }
      rewrite <- (take_drop_middle _ _ _ Hd) at 1 2.
      assert (Hi : (i < length l)%nat) by (by eapply lookup_lt_Some).
      assert (Hj : (j < length l)%nat) by (by eapply lookup_lt_Some).
      assert (E : <[j := a]> (<[i := b]> l)
                  = take i l ++ b :: take (j - S i) (drop (S i) l)
                    ++ a :: drop (S (j - S i)) (drop (S i) l)).
      { apply list_eq. intros k.
        rewrite (list_lookup_insert _ j k), length_insert.
        rewrite (list_lookup_insert _ i k).
        destruct (decide (k < i)%nat).
        - rewrite lookup_app_l by (rewrite length_take; lia).
          rewrite lookup_take_lt by lia.
          repeat case_decide; try lia; done.
        - rewrite lookup_app_r by (rewrite length_take; lia).
          rewrite length_take, Nat.min_l by lia.
          destruct (decide (k = i)) as [->|].
          + rewrite Nat.sub_diag. simpl.
            repeat case_decide; try lia; done.
          + destruct (k - i)%nat as [|m] eqn:Hm; [lia|]. simpl.
            destruct (decide (m < j - S i)%nat).
            * rewrite lookup_app_l by (rewrite length_take, length_drop; lia).
              rewrite lookup_take_lt by lia. rewrite lookup_drop.
              repeat case_decide; try lia. f_equal. lia.
            * rewrite lookup_app_r by (rewrite length_take, length_drop; lia).
              rewrite length_take, length_drop, Nat.min_l by lia.
              destruct (decide (k = j)) as [->|].
              -- replace (m - (j - S i))%nat with 0%nat by lia. simpl.
                 repeat case_decide; try lia; done.
              -- destruct (m - (j - S i))%nat as [|m'] eqn:Hm'; [lia|]. simpl.
                 rewrite !lookup_drop.
                 repeat case_decide; try lia. f_equal. lia. }
      assert (E' : <[i := b]> (<[j := a]> l) = <[j := a]> (<[i := b]> l)).
      { apply list_insert_insert_ne. lia. }
      rewrite E', E.
      assert (Permutation
                (take i l ++ a :: take (j - S i) (drop (S i) l)
                   ++ b :: drop (S (j - S i)) (drop (S i) l))
                (take i l ++ b :: take (j - S i) (drop (S i) l)
                   ++ a :: drop (S (j - S i)) (drop (S i) l))); [|done].
      apply Permutation_app_head.
      etransitivity; [apply perm_skip; symmetry; apply Permutation_middle|].
      etransitivity; [apply perm_swap|].
      apply perm_skip, Permutation_middle. }
    intros i j a b Ha Hb Hij.
    destruct (decide (i < j)%nat).
    + by apply (Hlt l i j a b).
    + apply (Hlt l j i b a); [lia|done|done].
Qed.


Lemma reorder_length lo hi l l' : reorder lo hi l l' -> length l' = length l.
Proof.
  induction 1 as [|l l' i j ? ? ? ? _ IH]; [done|].
  by rewrite IH, length_swap_at.
Qed.

Lemma reorder_trans lo hi l1 l2 l3 :
  reorder lo hi l1 l2 -> reorder lo hi l2 l3 -> reorder lo hi l1 l3.
Proof.
  induction 1 as [|l l' i j ? ? ? ? _ IH]; [done|].
  intros H23. apply (reorder_step lo hi l l3 i j); auto.
Qed.

Lemma reorder_mono lo hi lo' hi' l l' :
  lo' <= lo -> hi <= hi' -> reorder lo hi l l' -> reorder lo' hi' l l'.
Proof.
  intros Hlo Hhi. induction 1 as [|l l' i j ? ? ? ? _ IH]; [constructor|].
  apply (reorder_step lo' hi' l l' i j); auto; lia.
Qed.

Lemma reorder_swap lo hi l (i j : nat) :
  lo <= Z.of_nat i <= hi -> lo <= Z.of_nat j <= hi ->
  (i < length l)%nat -> (j < length l)%nat ->
  reorder lo hi l (swap_at l i j).
Proof. intros. apply (reorder_step lo hi l _ i j); auto. constructor. Qed.

Lemma reorder_outside lo hi l l' :
  reorder lo hi l l' ->
  forall k : nat, Z.of_nat k < lo \/ hi < Z.of_nat k -> xn l' k = xn l k.
Proof.
  induction 1 as [|l l' i j Hi Hj Hil Hjl _ IH]; [done|].
  intros k Hk. rewrite IH by done. rewrite xn_swap_at by done.
  repeat case_decide; try lia; done.
Qed.

Lemma reorder_forall (Q : Z -> Prop) lo hi l l' :
  reorder lo hi l l' ->
  (forall k : nat, lo <= Z.of_nat k <= hi -> Q (xn l k)) ->
  forall k : nat, lo <= Z.of_nat k <= hi -> Q (xn l' k).
Proof.
  induction 1 as [|l l' i j Hi Hj Hil Hjl _ IH]; [done|].
  intros HQ. apply IH. intros k Hk. rewrite xn_swap_at by done.
  repeat case_decide; by apply HQ.
Qed.

Lemma reorder_at_most_one (p : Z) lo hi l l' :
  reorder lo hi l l' ->
  (exists m : nat, forall k : nat, lo <= Z.of_nat k <= hi -> k <> m -> xn l k <= p) ->
  exists m : nat, forall k : nat, lo <= Z.of_nat k <= hi -> k <> m -> xn l' k <= p.
Proof.
  induction 1 as [|l l' i j Hi Hj Hil Hjl _ IH]; [done|].
  intros [m Hm]. apply IH.
  exists (if decide (m = i) then j else if decide (m = j) then i else m).
  intros k Hk Hne. rewrite xn_swap_at by done.
  repeat case_decide; subst; try done; apply Hm; try done; lia.
Qed.

Lemma reorder_Permutation lo hi l l' : reorder lo hi l l' -> Permutation l l'.
Proof.
  induction 1 as [|l l' i j ? ? ? ? _ IH]; [done|].
  etransitivity; [apply (swap_at_Permutation l i j)|done].
Qed.

(** *** The inner loops *)

Lemma scan_up_stops (l : list point) (p : Z) (s : nat) :
  (s < length l)%nat -> p <= xn l s ->
  forall (d i0 : nat) (fuel : nat),
    (i0 + d = s)%nat -> (d < fuel)%nat ->
    exists i : nat,
      scan_up 0 fuel l p (Z.of_nat i0) = Ok (Z.of_nat i)
      /\ (i0 <= i <= s)%nat /\ p <= xn l i
      /\ forall k : nat, (i0 <= k < i)%nat -> xn l k < p.
Proof.
  intros Hs Hps. induction d as [|d IH]; intros i0 fuel Hd Hfuel;
    (destruct fuel as [|fuel]; [lia|]); cbn [scan_up];
    rewrite get_cell_xn by lia; cbn [bind].
  - replace i0 with s by lia.
    destruct (Z.ltb_spec (xn l s) p); [lia|].
    exists s. repeat split; try done; try lia; intros k Hk; lia.
  - destruct (Z.ltb_spec (xn l i0) p) as [Hlt|Hge].
    + replace (Z.of_nat i0 + 1) with (Z.of_nat (S i0)) by lia.
      destruct (IH (S i0) fuel) as (i & Hrun & Hi & Hpi & Hbelow); [lia|lia|].
      exists i. repeat split; try done; try lia.
      intros k Hk. destruct (decide (k = i0)) as [->|]; [done|].
      apply Hbelow. lia.
    + exists i0. repeat split; try done; try lia; intros k Hk; lia.
Qed.

Lemma scan_down_stops (l : list point) (p : Z) (t : nat) :
  xn l t <= p ->
  forall (d j0 : nat) (fuel : nat),
    (j0 < length l)%nat -> (t + d = j0)%nat -> (d < fuel)%nat ->
    exists j : nat,
      scan_down 0 fuel l p (Z.of_nat j0) = Ok (Z.of_nat j)
      /\ (t <= j <= j0)%nat /\ xn l j <= p
      /\ forall k : nat, (j < k <= j0)%nat -> p < xn l k.
Proof.
  intros Htp. induction d as [|d IH]; intros j0 fuel Hj0 Hd Hfuel;
    (destruct fuel as [|fuel]; [lia|]); cbn [scan_down];
    rewrite get_cell_xn by lia; cbn [bind].
  - replace j0 with t by lia.
    destruct (Z.gtb_spec (xn l t) p); [lia|].
    exists t. repeat split; try done; try lia; intros k Hk; lia.
  - destruct (Z.gtb_spec (xn l j0) p) as [Hgt|Hle].
    + replace (Z.of_nat j0 - 1) with (Z.of_nat (j0 - 1)) by lia.
      destruct (IH (j0 - 1)%nat fuel) as (j & Hrun & Hj & Hpj & Habove);
        [lia|lia|lia|].
      exists j. repeat split; try done; try lia.
      intros k Hk. destruct (decide (k = j0)) as [->|]; [lia|].
      apply Habove. lia.
    + exists j0. repeat split; try done; try lia; intros k Hk; lia.
Qed.

(** *** The partition loop *)

Lemma partition_exits (first last p : Z) (l0 : list point) :
  0 <= first -> last < Z.of_nat (length l0) ->
  forall (n : nat) (l : list point) (ivar jvar : Z) (scan_fuel fuel : nat),
    part_inv first last p l0 l ivar jvar ->
    jvar - ivar < Z.of_nat n ->
    (n < fuel)%nat -> (length l0 <= scan_fuel)%nat ->
    exists l' ivar' jvar',
      partition 0 1 scan_fuel fuel l p ivar jvar = Ok (l', ivar', jvar')
      /\ part_inv first last p l0 l' ivar' jvar'
      /\ jvar' <= ivar'.
Proof.
  intros Hfirst Hlast.
  induction n as [|n IH]; intros l ivar jvar scan_fuel fuel Hinv Hn Hfuel Hscan;
    (destruct fuel as [|fuel]; [lia|]); cbn [partition].
  - destruct (Z.ltb_spec ivar jvar); [lia|].
    exists l, ivar, jvar. split; [done|]. split; [done|lia].
  - destruct (Z.ltb_spec ivar jvar) as [Hlt|Hge];
      [|exists l, ivar, jvar; split; [done|]; split; [done|lia]].
    destruct Hinv as (Hre & Hfi & Hjl & Hlow & Hhigh & Hsent & Hprog).
    pose proof (reorder_length _ _ _ _ Hre) as Hlen.
    destruct (Hsent Hlt) as [(s & Hs & Hps) (t & Ht & Htp)].
    destruct (scan_up_stops l p s ltac:(lia) Hps (s - Z.to_nat ivar)
                (Z.to_nat ivar) scan_fuel ltac:(lia) ltac:(lia))
      as (i & Hrun_i & Hi & Hpi & Hbelow).
    rewrite Z2Nat.id in Hrun_i by lia. rewrite Hrun_i. cbn [bind].
    destruct (scan_down_stops l p t Htp (Z.to_nat jvar - t)
                (Z.to_nat jvar) scan_fuel ltac:(lia) ltac:(lia) ltac:(lia))
      as (j & Hrun_j & Hj & Hpj & Habove).
    rewrite Z2Nat.id in Hrun_j by lia. rewrite Hrun_j. cbn [bind].
    destruct (Z.leb_spec (Z.of_nat i) (Z.of_nat j)) as [Hij|Hij].
    + rewrite exchange_swap_at by lia. cbn [bind].
      apply IH; try lia.
      unfold part_inv.
      split; [|split; [|split; [|split; [|split; [|split]]]]].
      * eapply reorder_trans; [exact Hre|]. apply reorder_swap; lia.
      * lia.
      * lia.
      * intros k Hk. rewrite xn_swap_at by lia.
        destruct (decide (k = j)) as [->|Hkj];
          [by assert (i = j) as -> by lia|].
        destruct (decide (k = i)) as [->|Hki]; [done|].
        destruct (decide (Z.of_nat k < ivar)); [apply Hlow; lia|].
        specialize (Hbelow k). lia.
      * intros k Hk. rewrite xn_swap_at by lia.
        destruct (decide (k = j)) as [->|Hkj]; [done|].
        destruct (decide (k = i)) as [->|Hki]; [lia|].
        destruct (decide (jvar < Z.of_nat k)); [apply Hhigh; lia|].
        specialize (Habove k). lia.
      * intros Hlt'. split.
        -- exists j. split; [lia|]. rewrite xn_swap_at by lia.
           by destruct (decide (j = j)).
        -- exists i. split; [lia|]. rewrite xn_swap_at by lia.
           destruct (decide (i = j)) as [->|Hne]; [done|].
           by destruct (decide (i = i)).
      * right. lia.
    + apply IH; try lia.
      unfold part_inv.
      split; [|split; [|split; [|split; [|split; [|split]]]]].
      * done.
      * lia.
      * lia.
      * intros k Hk.
        destruct (decide (Z.of_nat k < ivar)); [apply Hlow; lia|].
        specialize (Hbelow k). lia.
      * intros k Hk.
        destruct (decide (jvar < Z.of_nat k)); [apply Hhigh; lia|].
        specialize (Habove k). lia.
      * intros Hlt'. lia.
      * right. lia.
Qed.

(** *** The recursion *)

Lemma pivot_between (a b : Z) :
  Z.min a b <= (a + b) / 2 <= Z.max a b.
Proof.
  pose proof (Z.div_mod (a + b) 2 ltac:(lia)).
  pose proof (Z.mod_pos_bound (a + b) 2 ltac:(lia)). lia.
Qed.

Lemma get_cell_xn_Z (l : list point) (i : Z) :
  0 <= i < Z.of_nat (length l) -> get_cell l i 0 = Ok (xn l (Z.to_nat i)).
Proof.
  intros Hi. rewrite <- (Z2Nat.id i) at 1 by lia. apply get_cell_xn. lia.
Qed.

Lemma sorted_on_short lo hi (l : list point) : hi <= lo -> sorted_on lo hi l.
Proof. intros Hle a b Ha Hab Hb. assert (a = b) as -> by lia. lia. Qed.

Lemma quicksort_sorts :
  forall (n : nat) (l : list point) (first last : Z) (fuel : nat),
    0 <= first -> first <= last -> last < Z.of_nat (length l) ->
    last - first < Z.of_nat n -> (n + length l < fuel)%nat ->
    exists l',
      ordenatewithquicksort 0 1 fuel l first last = Ok l'
      /\ reorder first last l l' /\ sorted_on first last l'.
Proof.
  induction n as [|n IH]; intros l first last fuel H0 Hfl Hlast Hn Hfuel; [lia|].
  destruct fuel as [|fuel]; [lia|]. cbn [ordenatewithquicksort].
  rewrite !get_cell_xn_Z by lia. cbn [bind].
  set (a := xn l (Z.to_nat first)). set (b := xn l (Z.to_nat last)).
  change (Py.div (a + b) 2) with (Ok ((a + b) / 2)). cbn [bind].
  pose proof (pivot_between a b) as Hp. set (p := (a + b) / 2) in *.
  destruct (decide (first = last)) as [<-|Hne].
  - (* one element: the loop is not entered and nothing is sorted further *)
    destruct fuel as [|fuel]; [lia|]. cbn [partition].
    rewrite Z.ltb_irrefl. cbn [bind]. rewrite Z.ltb_irrefl.
    rewrite Z.gtb_ltb, Z.ltb_irrefl.
    exists l. split; [done|]. split; [constructor|by apply sorted_on_short].
  - assert (Hinv0 : part_inv first last p l l first last).
    { unfold part_inv.
      split; [constructor|]. split; [lia|]. split; [lia|].
      split; [intros k Hk; lia|]. split; [intros k Hk; lia|].
      split; [|left; done]. intros _. split.
      - destruct (decide (p <= a)).
        + exists (Z.to_nat first). split; [lia|done].
        + exists (Z.to_nat last). split; [lia|]. fold b. lia.
      - destruct (decide (a <= p)).
        + exists (Z.to_nat first). split; [lia|done].
        + exists (Z.to_nat last). split; [lia|]. fold b. lia. }
    destruct (partition_exits first last p l H0 Hlast (S n) l first last fuel fuel
                Hinv0 Hn ltac:(lia) ltac:(lia))
      as (l1 & i1 & j1 & Hrun & Hinv1 & Hji).
    rewrite Hrun. cbn [bind].
    destruct Hinv1 as (Hre1 & Hfi & Hjl & Hlow1 & Hhigh1 & _ & Hprog).
    destruct Hprog as [[-> ->]|[Hi1 Hj1]]; [lia|].
    pose proof (reorder_length _ _ _ _ Hre1) as Hlen1.
    (* the first recursive call *)
    assert (Hcall1 : exists l2,
      (if first <? j1 then ordenatewithquicksort 0 1 fuel l1 first j1 else Ok l1)
      = Ok l2
      /\ reorder first j1 l1 l2 /\ sorted_on first j1 l2).
    { destruct (Z.ltb_spec first j1) as [Hlt|Hge].
      - apply IH; lia.
      - exists l1. split; [done|]. split; [constructor|by apply sorted_on_short]. }
    destruct Hcall1 as (l2 & Hrun2 & Hre2 & Hsorted2).
    rewrite Hrun2. cbn [bind].
    pose proof (reorder_length _ _ _ _ Hre2) as Hlen2.
    (* the second recursive call *)
    assert (Hcall2 : exists l3,
      (if last >? i1 then ordenatewithquicksort 0 1 fuel l2 i1 last else Ok l2)
      = Ok l3
      /\ reorder i1 last l2 l3 /\ sorted_on i1 last l3).
    { rewrite Z.gtb_ltb. destruct (Z.ltb_spec i1 last) as [Hlt|Hge].
      - apply IH; lia.
      - exists l2. split; [done|]. split; [constructor|by apply sorted_on_short]. }
    destruct Hcall2 as (l3 & Hrun3 & Hre3 & Hsorted3).
    rewrite Hrun3. exists l3. split; [done|]. split.
    { eapply reorder_trans; [exact Hre1|].
      eapply reorder_trans.
      - eapply reorder_mono; [| |exact Hre2]; lia.
      - eapply reorder_mono; [| |exact Hre3]; lia. }
    (* below [i1] everything is at most the pivot, above [j1] at least *)
    assert (H2high : forall k : nat, j1 < Z.of_nat k <= last -> p <= xn l2 k).
    { intros k Hk. rewrite (reorder_outside _ _ _ _ Hre2) by lia. by apply Hhigh1. }
    assert (H2low : forall k : nat, first <= Z.of_nat k < i1 -> xn l2 k <= p).
    { intros k Hk. destruct (decide (j1 < Z.of_nat k)) as [Hout|Hin].
      - rewrite (reorder_outside _ _ _ _ Hre2) by lia. by apply Hlow1.
      - destruct (decide (j1 < i1)) as [Hlt|Heq].
        + apply (reorder_forall (fun v => v <= p) _ _ _ _ Hre2); [|lia].
          intros k' Hk'. apply Hlow1. lia.
        + assert (j1 = i1) as -> by lia.
          destruct (reorder_at_most_one p _ _ _ _ Hre2) as [m Hm].
          { exists (Z.to_nat i1). intros k' Hk' Hne'. apply Hlow1. lia. }
          destruct (decide (k = m)) as [->|Hkm]; [|apply Hm; [lia|done]].
          transitivity (xn l2 (Z.to_nat i1)).
          * apply Hsorted2; lia.
          * apply Hm; lia. }
    assert (Hcross : forall a' : nat, first <= Z.of_nat a' < i1 ->
              forall k : nat, i1 <= Z.of_nat k <= last -> xn l2 a' <= xn l3 k).
    { intros a' Ha'.
      apply (reorder_forall (fun v => xn l2 a' <= v) _ _ _ _ Hre3).
      intros k Hk. destruct (decide (j1 < Z.of_nat k)).
      - transitivity p; [by apply H2low|apply H2high; lia].
      - apply Hsorted2; lia. }
    intros a' b' Ha' Hab' Hb'.
    destruct (decide (i1 <= Z.of_nat a')) as [Hright|Hleft].
    + apply Hsorted3; lia.
    + rewrite (reorder_outside _ _ _ _ Hre3 a') by lia.
      destruct (decide (i1 <= Z.of_nat b')) as [Hbr|Hbl].
      * apply Hcross; lia.
      * rewrite (reorder_outside _ _ _ _ Hre3 b') by lia.
        destruct (decide (Z.of_nat b' <= j1)).
        -- apply Hsorted2; lia.
        -- transitivity p; [apply H2low; lia|apply H2high; lia].
Qed.
End SortFacts.

(** With the x in the first cell of each point and the y in the second
    (the columns 1 and 2), for every list of points
    that is not empty, [ordenatewithquicksort(lval, 0, len(lval) - 1)]
    returns (any bound above twice the length is enough for its loops and
    its recursion): the list it returns has the points of [lval], each as
    often, and along it the x values never decrease.  At each partition
    step the pivot is the floor of the half sum of the x at [first] and
    at [last]. *)
Theorem ordenatewithquicksort_sorts (lval : list (Z * Z)) (fuel : nat) :
  lval <> [] -> (2 * length lval < fuel)%nat ->
  exists sorted,
    Lineplot.ordenatewithquicksort 0 1 fuel lval 0 (Py.len lval - 1) = Ok sorted
    /\ Permutation lval sorted
    /\ forall (i : nat) (p q : Z * Z),
         sorted !! i = Some p -> sorted !! S i = Some q -> fst p <= fst q.
Proof.
  intros Hne Hfuel.
  assert (Hlen : (0 < length lval)%nat) by (destruct lval; [done|simpl; lia]).
  destruct (SortFacts.quicksort_sorts (length lval) lval 0 (Py.len lval - 1) fuel)
    as (sorted & Hrun & Hre & Hsorted); unfold Py.len; try lia.
  exists sorted. split; [done|]. split.
  - by eapply SortFacts.reorder_Permutation.
  - intros i p q Hp Hq.
    pose proof (SortFacts.reorder_length _ _ _ _ Hre) as Hl.
    pose proof (lookup_lt_Some _ _ _ Hq) as Hi.
    unfold Py.len in Hsorted.
    specialize (Hsorted i (S i) ltac:(lia) ltac:(lia) ltac:(lia)).
    unfold SortSpec.xn in Hsorted. by rewrite Hp, Hq in Hsorted.
Qed.

(** Five points, two of them with the same x. *)
Lemma ordenatewithquicksort_sorts_witness :
  exists sorted,
    Lineplot.ordenatewithquicksort 0 1 11
      [(5, 1); (3, 2); (9, 3); (1, 4); (3, 5)] 0
      (Py.len [(5, 1); (3, 2); (9, 3); (1, 4); (3, 5)] - 1) = Ok sorted
    /\ Permutation [(5, 1); (3, 2); (9, 3); (1, 4); (3, 5)] sorted
    /\ forall (i : nat) (p q : Z * Z),
         sorted !! i = Some p -> sorted !! S i = Some q -> fst p <= fst q.
Proof.
  apply (ordenatewithquicksort_sorts [(5, 1); (3, 2); (9, 3); (1, 4); (3, 5)] 11).
  - discriminate.
  - simpl. lia.
Defined.

(** The same call, evaluated. *)
Example quicksort_five_points :
  Lineplot.ordenatewithquicksort 0 1 11 [(5, 1); (3, 2); (9, 3); (1, 4); (3, 5)] 0 4
  = Ok [(1, 4); (3, 5); (3, 2); (5, 1); (9, 3)].
Proof. reflexivity. Qed.

(** On the empty list, with [low = 0] and [high = len(lval) - 1 = -1], the
    first statement that reads the list, the pivot, raises IndexError, and
    no list is returned. *)
Lemma ordenatewithquicksort_empty :
  Lineplot.ordenatewithquicksort 0 1 1 [] 0 (Py.len (@nil (Z * Z)) - 1)
  = Raise IndexError.
Proof. reflexivity. Qed.

(** Whatever the bound on the loops. *)
Lemma quicksort_empty_list_any_fuel (fuel : nat) :
  Lineplot.ordenatewithquicksort 0 1 (S fuel) [] 0 (-1) = Raise IndexError.
Proof. reflexivity. Qed.

(** With another y column than 2 the exchange reads a third cell of the
    points: two points out of order are enough for an IndexError. *)
Example quicksort_third_column :
  Lineplot.ordenatewithquicksort 0 2 5 [(2, 0); (1, 0)] 0 1 = Raise IndexError.
Proof. reflexivity. Qed.

(** C5.  The key of the sort is the cell [int(self.xcolumn) - 1] of each
    point [[x, y]], and [printsvg] starts the sort at the row
    [int(self.xcolumn) - 1]: with the X values in the column 2 and the Y
    values in the column 1 the points are compared on their y, and the
    first point is left out.  Two points in descending x come back as
    they were from a call on the whole list, and the path of the line of
    the rows (95, 57), (150, 27), (84, 175) has the x values 57, 57, 27,
    175, 175, which go down from 57 to 27.  On the empty list, a base
    case of the docstring, the call raises IndexError. *)
Theorem ordenatewithquicksort_key_column :
  Lineplot.ordenatewithquicksort 1 0 5 [(2, 3); (1, 5)] 0
    (Py.len [(2, 3); (1, 5)] - 1)
  = Ok [(2, 3); (1, 5)]
  /\ LineplotPath.plotline 7 2 1
       [["95"; "150"; "84"]; ["57"; "27"; "175"]]%string 150
     = Ok [(57, 150); (57, 55); (27, 0); (175, 66); (175, 150)]
  /\ Lineplot.ordenatewithquicksort 0 1 5 [] 0 (Py.len (@nil (Z * Z)) - 1)
     = Raise IndexError.
Proof. repeat split; vm_compute; reflexivity. Qed.

(** ** Loops and conversions: what the later proofs share *)

Module LoopFacts.

(** An invariant indexed by the number of turns done goes through a
    [for] loop that returns. *)
Lemma for_range_ind {St : Type} (I : nat -> St -> Prop) (n : nat)
    (body : Z -> St -> outcome St) (s0 s : St) :
  I 0%nat s0 ->
  (forall (k : nat) s1 s2, (k < n)%nat -> I k s1 ->
     body (Z.of_nat k) s1 = Ok s2 -> I (S k) s2) ->
  Py.for_range n body s0 = Ok s -> I n s.
Proof.
  intros H0 Hstep. revert s. induction n as [|n IH]; intros s Hrun.
  - cbn in Hrun. by inversion Hrun; subst.
  - cbn [Py.for_range] in Hrun.
    destruct (Py.for_range n body s0) as [s1| | |] eqn:E; try discriminate.
    cbn [bind] in Hrun. apply (Hstep n s1 s); [lia| |done].
    apply IH; [|done]. intros k s2 s3 Hk. apply Hstep. lia.
Qed.

(** A [for] loop whose turns all return, returns. *)
Lemma for_range_total {St : Type} (I : nat -> St -> Prop) (n : nat)
    (body : Z -> St -> outcome St) (s0 : St) :
  I 0%nat s0 ->
  (forall (k : nat) s1, (k < n)%nat -> I k s1 ->
     exists s2, body (Z.of_nat k) s1 = Ok s2 /\ I (S k) s2) ->
  exists s, Py.for_range n body s0 = Ok s /\ I n s.
Proof.
  intros H0 Hstep. induction n as [|n IH].
  - by exists s0.
  - destruct IH as (s1 & Hrun & Hs1).
    { intros k s1 Hk. apply Hstep. lia. }
    destruct (Hstep n s1) as (s2 & Hbody & Hs2); [lia|done|].
    exists s2. cbn [Py.for_range]. rewrite Hrun. by cbn [bind].
Qed.

Lemma bind_returns_or_stops {A B : Type} (e : stop) (m : outcome A)
    (k : A -> outcome B) :
  returns_or_stops e m -> (forall a, returns_or_stops e (k a)) ->
  returns_or_stops e (bind m k).
Proof.
  intros [[a ->]| ->] Hk; cbn [bind]; [apply Hk|right; by destruct e].
Qed.

Lemma for_range_returns_or_stops {St : Type} (e : stop) (n : nat)
    (body : Z -> St -> outcome St) (s0 : St) :
  (forall (k : nat) s, (k < n)%nat -> returns_or_stops e (body (Z.of_nat k) s)) ->
  returns_or_stops e (Py.for_range n body s0).
Proof.
  intros Hbody. induction n as [|n IH].
  - left. by exists s0.
  - cbn [Py.for_range]. apply bind_returns_or_stops.
    + apply IH. intros k s Hk. apply Hbody. lia.
    + intros s. apply Hbody. lia.
Qed.

(** A [for] loop one of whose turns raises [e] whatever the state, the
    other turns returning or raising [e], raises [e]. *)
Lemma for_range_stops {St : Type} (e : stop) (n : nat)
    (body : Z -> St -> outcome St) (s0 : St) (bad : nat) :
  (forall (k : nat) s, (k < n)%nat -> returns_or_stops e (body (Z.of_nat k) s)) ->
  (bad < n)%nat ->
  (forall s, body (Z.of_nat bad) s = stopped e) ->
  Py.for_range n body s0 = stopped e.
Proof.
  intros Hbody Hbad Hraise. induction n as [|n IH]; [lia|].
  cbn [Py.for_range].
  destruct (decide (bad = n)) as [->|Hne].
  - destruct (for_range_returns_or_stops e n body s0) as [[s ->]| ->];
      [intros k s Hk; apply Hbody; lia| |].
    + cbn [bind]. apply Hraise.
    + by destruct e.
  - rewrite IH; [by destruct e| |lia]. intros k s Hk. apply Hbody. lia.
Qed.

Lemma getitem_returns_or_stops {A : Type} (l : list A) (i : Z) :
  returns_or_stops (StopRaise IndexError) (Py.getitem l i).
Proof.
  unfold Py.getitem.
  destruct (_ && _); [|by right].
  destruct (l !! _) as [a|]; [left; by exists a|by right].
Qed.

Lemma int_returns_or_stops (tok : string) :
  returns_or_stops (StopRaise ValueError) (Py.int tok).
Proof.
  unfold Py.int.
  destruct (Py.literal tok) as [[neg m]|]; [left; by eexists|by right].
Qed.

(** [l[k]] for an index inside the list. *)
Lemma getitem_nat {A : Type} (l : list A) (k : nat) :
  (k < length l)%nat -> exists a, l !! k = Some a /\ Py.getitem l (Z.of_nat k) = Ok a.
Proof.
  intros Hk. destruct (lookup_lt_is_Some_2 l k Hk) as [a Ha].
  exists a. split; [done|]. by apply getitem_lookup.
Qed.

(** What [l[i]] returns is an element of [l]. *)
Lemma getitem_Ok_elem {A : Type} (l : list A) (i : Z) (a : A) :
  Py.getitem l i = Ok a -> a ∈ l.
Proof.
  unfold Py.getitem. destruct (_ && _); [|discriminate].
  destruct (l !! _) as [b|] eqn:E; [|discriminate].
  intros [= <-]. by apply list_elem_of_lookup_2 in E.
Qed.

(** [l[k]], when it returns, is the element at [k]. *)
Lemma getitem_nat_Ok {A : Type} (l : list A) (k : nat) (a : A) :
  Py.getitem l (Z.of_nat k) = Ok a -> l !! k = Some a.
Proof.
  unfold Py.getitem.
  destruct (Z.ltb_spec (Z.of_nat k) 0) as [?|_]; [lia|].
  destruct (_ && _); [|discriminate]. rewrite Nat2Z.id.
  destruct (l !! k) as [b|]; [|discriminate]. by intros [= <-].
Qed.

(** The element at [i] of [map f l]. *)
Lemma lookup_map {A B : Type} (f : A -> B) (l : list A) (i : nat) :
  map f l !! i = option_map f (l !! i).
Proof. revert i. induction l as [|a l IH]; intros [|i]; simpl; auto. Qed.

End LoopFacts.

(** ** filetext.py: what [readinputfile] accepts and what it rejects *)

(** X1.  On a file whose lines all split into the same number [n] of tokens,
    [readinputfile] returns [n] columns, each as long as the file has
    lines, and token [j] of line [i] is cell [i] of column [j]. *)
Theorem readinputfile_cells (fs : string -> option (list string))
    (path : string) (lines : list string) (n : nat) :
  fs path = Some lines -> lines <> [] ->
  Forall (fun fileline => fileline <> EmptyString) lines ->
  Forall (fun fileline => length (Py.split fileline) = n) lines ->
  exists cols,
    Filetext.readinputfile fs path = Ok cols
    /\ length cols = n
    /\ Forall (fun col => length col = length lines) cols
    /\ forall (i j : nat) fileline cell,
         lines !! i = Some fileline -> Py.split fileline !! j = Some cell ->
         exists col, cols !! j = Some col /\ col !! i = Some cell.
Proof.
  intros Hfs Hne Hlines Hn.
  set (cad := map Py.split lines).
  exists (map (FiletextSpec.column cad) (seq 0 n)).
  split; [|split; [|split]].
  - rewrite (FiletextFacts.readinputfile_transposition fs path lines Hfs Hlines).
    apply FiletextFacts.transposition_rectangular.
    + subst cad. by destruct lines.
    + subst cad. by apply Forall_map.
  - by rewrite length_map, length_seq.
  - apply Forall_map, Forall_forall. intros j _. simpl.
    rewrite FiletextFacts.column_length. subst cad. by rewrite length_map.
  - intros i j fileline cell Hi Hj.
    assert (Hjn : (j < n)%nat).
    { rewrite Forall_forall in Hn.
      rewrite <- (Hn fileline) by (by apply list_elem_of_lookup_2 in Hi).
      by apply lookup_lt_Some in Hj. }
    exists (FiletextSpec.column cad j). split.
    + unfold Filetext.table.
      rewrite LoopFacts.lookup_map, lookup_seq_lt by done. done.
    + unfold FiletextSpec.column. subst cad.
      rewrite !LoopFacts.lookup_map, Hi. simpl. f_equal.
      by apply nth_lookup_Some with (d := EmptyString) in Hj.
Qed.

(** A file of three lines of two tokens. *)
Lemma readinputfile_cells_witness :
  exists cols,
    Filetext.readinputfile
      (fun _ => Some ["a 1" ++ nl; "b 2" ++ nl; "c 3" ++ nl]%string) "data.txt"
    = Ok cols
    /\ length cols = 2%nat
    /\ Forall (fun col => length col = 3%nat) cols
    /\ forall (i j : nat) fileline cell,
         ["a 1" ++ nl; "b 2" ++ nl; "c 3" ++ nl]%string !! i = Some fileline ->
         Py.split fileline !! j = Some cell ->
         exists col, cols !! j = Some col /\ col !! i = Some cell.
Proof.
  apply (readinputfile_cells _ "data.txt"
           ["a 1" ++ nl; "b 2" ++ nl; "c 3" ++ nl]%string 2%nat).
  - reflexivity.
  - discriminate.
  - repeat constructor; discriminate.
  - repeat constructor.
Defined.

(** A file of two lines, the first of three tokens and the last of two:
    the third token of the first line is dropped. *)
Lemma readinputfile_accepts_witness :
  Filetext.readinputfile
    (fun _ => Some ["a b c" ++ nl; "1 2" ++ nl]%string) "data.txt"
  = Ok (map (FiletextSpec.column
               (map Py.split ["a b c" ++ nl; "1 2" ++ nl]%string))
            (seq 0 (length ["1"; "2"]%string))).
Proof.
  apply (FiletextFacts.readinputfile_accepts _ "data.txt"
           ["a b c" ++ nl; "1 2" ++ nl]%string ["1"; "2"]%string).
  - reflexivity.
  - repeat constructor; discriminate.
  - reflexivity.
  - repeat constructor.
Defined.

(** X3.  A file with a line of fewer tokens than its last line is rejected,
    wherever that line stands: [readinputfile] prints the message about
    the number of values and leaves with the status 2. *)
Theorem readinputfile_short_row (fs : string -> option (list string))
    (path : string) (lines : list string) (last_row row : list string) :
  fs path = Some lines ->
  Forall (fun fileline => fileline <> EmptyString) lines ->
  last (map Py.split lines) = Some last_row ->
  row ∈ map Py.split lines ->
  (length row < length last_row)%nat ->
  Filetext.readinputfile fs path = Exit 2 Filetext.msg_columns.
Proof.
  intros Hfs Hlines Hlast Hrow Hshort.
  rewrite (FiletextFacts.readinputfile_transposition fs path lines Hfs Hlines).
  unfold Filetext.transposition. rewrite Hlast.
  set (cad := map Py.split lines) in *.
  apply list_elem_of_lookup in Hrow as [i Hi].
  pose proof (lookup_lt_Some _ _ _ Hi) as Hilt.
  assert (Hinner : forall (k : nat) (s : list string),
             returns_or_stops (StopRaise IndexError)
               (row0 <-- Py.getitem cad (Z.of_nat k) ;;
                cell <-- Py.getitem row0 (Z.of_nat (length row)) ;;
                Ok (s ++ [cell]))
             /\ (k = i ->
                 (row0 <-- Py.getitem cad (Z.of_nat k) ;;
                  cell <-- Py.getitem row0 (Z.of_nat (length row)) ;;
                  Ok (s ++ [cell])) = Raise IndexError)).
  { intros k s. split.
    - apply LoopFacts.bind_returns_or_stops;
        [apply LoopFacts.getitem_returns_or_stops|intros row0].
      apply LoopFacts.bind_returns_or_stops;
        [apply LoopFacts.getitem_returns_or_stops|intros cell].
      left. by eexists.
    - intros ->. rewrite (getitem_lookup _ _ _ Hi). cbn [bind].
      rewrite getitem_beyond; [done|unfold Py.len; lia]. }
  unfold Filetext.transpose_rows.
  rewrite (LoopFacts.for_range_stops (StopRaise IndexError) _ _ _ (length row)); [done| |done|].
  - intros k s Hk.
    apply LoopFacts.bind_returns_or_stops; [|intros aux; left; by eexists].
    apply LoopFacts.for_range_returns_or_stops. intros k' s' _.
    apply LoopFacts.bind_returns_or_stops;
      [apply LoopFacts.getitem_returns_or_stops|intros row0].
    apply LoopFacts.bind_returns_or_stops;
      [apply LoopFacts.getitem_returns_or_stops|intros cell].
    left. by eexists.
  - intros s.
    rewrite (LoopFacts.for_range_stops (StopRaise IndexError) _ _ _ i); [done| |done|].
    + intros k s' _. apply Hinner.
    + intros s'. by apply Hinner.
Qed.

(** Lines of two, one and two tokens: the short line is in the middle. *)
Lemma readinputfile_short_row_witness :
  Filetext.readinputfile
    (fun _ => Some ["a 1" ++ nl; "b" ++ nl; "c 3" ++ nl]%string) "data.txt"
  = Exit 2 Filetext.msg_columns.
Proof.
  apply (readinputfile_short_row _ "data.txt"
           ["a 1" ++ nl; "b" ++ nl; "c 3" ++ nl]%string
           ["c"; "3"]%string ["b"]%string).
  - reflexivity.
  - repeat constructor; discriminate.
  - reflexivity.
  - vm_compute. apply list_elem_of_further, list_elem_of_here.
  - simpl. lia.
Defined.

(** ** Bardiagram: the errors of the constructor, the axis loop without
       exit, the layout of the bars *)

Module BarsFacts.
Import Bardiagram.

(** Under a maximum that is not below the range minimum, and with an
    increment that is not positive, the axis loop has no exit. *)
Lemma axis_loop_no_exit (yrange yinc heightmaxbar : Z) :
  yinc <= 0 -> yrange <= heightmaxbar ->
  forall fuel counter inc,
    0 <= counter -> inc <= heightmaxbar ->
    axis_loop fuel yrange yinc heightmaxbar counter inc = OutOfFuel.
Proof.
  intros Hinc Hrange. induction fuel as [|fuel IH]; intros counter inc Hc Hi; [done|].
  cbn [axis_loop].
  destruct (Z.leb_spec inc heightmaxbar) as [_|?]; [|lia].
  rewrite IH; [done|lia|nia].
Qed.

(** The loop of the maximum raises ValueError on a column with a cell
    that is no int literal. *)
Lemma max_loop_non_numeric (col : list string) (cell : string) (m0 : Z) :
  cell ∈ col -> Py.int cell = Raise ValueError ->
  max_loop col m0 = Raise ValueError.
Proof.
  intros Hcell Hint. apply list_elem_of_lookup in Hcell as [i Hi].
  unfold max_loop.
  apply (LoopFacts.for_range_stops (StopRaise ValueError) _ _ _ i).
  - intros k m Hk.
    destruct (LoopFacts.getitem_nat col k Hk) as (c & _ & ->). cbn [bind].
    apply LoopFacts.bind_returns_or_stops; [apply LoopFacts.int_returns_or_stops|].
    intros v. destruct (m <? v); [|left; by eexists].
    cbn [bind]. apply LoopFacts.int_returns_or_stops.
  - by apply lookup_lt_Some in Hi.
  - intros m. rewrite (getitem_lookup _ _ _ Hi). cbn [bind]. by rewrite Hint.
Qed.

(** [l[0]] on a list with an element. *)
Lemma getitem_head {A : Type} (l : list A) (a : A) :
  a ∈ l -> exists a0, Py.getitem l 0 = Ok a0 /\ a0 ∈ l.
Proof.
  destruct l as [|a0 l]; [by intros ?%elem_of_nil|]. intros _.
  exists a0. split; [|constructor].
  by apply (getitem_lookup (a0 :: l) 0%nat).
Qed.

End BarsFacts.

(** X4.  For every range minimum that is not above the maximum of the chart and
    every increment that is zero or negative, the axis loop of
    [Bardiagram.printsvg] does not terminate: no bound on its turns lets
    it return. *)
Theorem axis_ticks_no_exit (yrange yinc heightmaxbar : Z) (fuel : nat) :
  yinc <= 0 -> yrange <= heightmaxbar ->
  Bardiagram.axis_ticks fuel yrange yinc heightmaxbar = OutOfFuel.
Proof.
  intros Hinc Hrange. unfold Bardiagram.axis_ticks.
  by apply BarsFacts.axis_loop_no_exit.
Qed.

(** A negative increment under the maximum 366, cut after a thousand
    turns. *)
Lemma axis_ticks_no_exit_witness :
  Bardiagram.axis_ticks 1000 0 (-20) 366 = OutOfFuel.
Proof. apply axis_ticks_no_exit; lia. Defined.

(** X5.  A cell of the Y column that holds no whitespace, as the cells that
    [readinputfile] returns, and that [int] refuses makes the constructor
    of the bar chart print the message about numeric values and leave
    with the status 2, with or without a second data set. *)
Theorem init_non_numeric (lval : list (list string)) (ycolumn ycolumn2 : Z)
    (ycol : list string) (cell : string) :
  Py.getitem lval (ycolumn - 1) = Ok ycol ->
  cell ∈ ycol -> Py.blank_free cell = true -> Py.int cell = Raise ValueError ->
  Bardiagram.init ycolumn ycolumn2 lval = Exit 2 Bardiagram.msg_numeric.
Proof.
  intros Hcol Hcell _ Hint. unfold Bardiagram.init, Bardiagram.setmaximumbars.
  rewrite Hcol. cbn [bind].
  destruct (BarsFacts.getitem_head ycol cell Hcell) as (cell0 & -> & _).
  cbn [bind].
  destruct (LoopFacts.int_returns_or_stops cell0) as [[v ->]| ->]; [|done].
  cbn [bind]. by rewrite (BarsFacts.max_loop_non_numeric ycol cell v).
Qed.

(** The value 4.5 in the second row of the Y column. *)
Lemma init_non_numeric_witness :
  Bardiagram.init 2 3 [["a"; "b"; "c"]; ["10"; "4.5"; "7"]]%string
  = Exit 2 Bardiagram.msg_numeric.
Proof.
  apply (init_non_numeric _ 2 3 ["10"; "4.5"; "7"]%string "4.5"%string).
  - reflexivity.
  - apply list_elem_of_further, list_elem_of_here.
  - reflexivity.
  - reflexivity.
Defined.

(** X6.  With one data set, an X and a Y column of the same length and int
    literals in the Y column, the loop of [Bardiagram.printsvg] draws one
    bar per row: bar [k] has the width [barwidth], its left edge
    [delim + barwidth] after the one of bar [k - 1] (the first at
    [xorigin + delim]), the height [y_k - yrange], and its lower edge on
    the line [yorigin + heightmaxbar - yrange] where the vertical axis
    ends; the right edge of the last bar is at [endbars], where the grid
    lines end. *)
Theorem draw_bars_layout (lval : list (list string))
    (xcolumn ycolumn ycolumn2 xorigin yorigin delim barwidth yrange heightmaxbar : Z)
    (fillcolor fillcolor2 : string) (xcol ycol : list string) (ys : list Z) :
  Py.getitem lval (xcolumn - 1) = Ok xcol ->
  Py.getitem lval (ycolumn - 1) = Ok ycol ->
  ints ycol ys -> length xcol = length ycol ->
  Py.len lval <> ycolumn2 ->
  exists xend bars e,
    BardiagramBars.draw_bars xcolumn ycolumn ycolumn2 xorigin yorigin delim
      barwidth yrange heightmaxbar fillcolor fillcolor2 lval = Ok (xend, bars)
    /\ BardiagramBars.endbars ycolumn ycolumn2 xorigin delim barwidth lval = Ok e
    /\ length bars = length ys
    /\ forall (k : nat) b, bars !! k = Some b ->
         exists y,
           ys !! k = Some y
           /\ BardiagramBars.bar_x b
              = xorigin + delim + Z.of_nat k * (delim + barwidth)
           /\ BardiagramBars.bar_width b = barwidth
           /\ BardiagramBars.bar_height b = y - yrange
           /\ BardiagramBars.bar_y b + BardiagramBars.bar_height b
              = yorigin + heightmaxbar - yrange
           /\ (S k = length bars ->
               BardiagramBars.bar_x b + BardiagramBars.bar_width b = e).
Proof.
  intros Hx Hy Hints Hlen Hsingle.
  pose proof (Forall2_length _ _ _ Hints) as Hlen2.
  unfold BardiagramBars.draw_bars, BardiagramBars.endbars.
  rewrite Hx, Hy. cbn [bind].
  destruct (Z.eqb_spec (Py.len lval) ycolumn2) as [?|_]; [done|].
  match goal with |- context [Py.for_range ?len ?body ?s0] =>
    destruct (LoopFacts.for_range_total
              (fun n (st : Z * list BardiagramBars.bar) =>
                 fst st = xorigin + delim + Z.of_nat n * (delim + barwidth)
                 /\ length (snd st) = n
                 /\ forall (k : nat) b, snd st !! k = Some b ->
                      exists y, ys !! k = Some y
                        /\ BardiagramBars.bar_x b
                           = xorigin + delim + Z.of_nat k * (delim + barwidth)
                        /\ BardiagramBars.bar_width b = barwidth
                        /\ BardiagramBars.bar_height b = y - yrange
                        /\ BardiagramBars.bar_y b + BardiagramBars.bar_height b
                           = yorigin + heightmaxbar - yrange)
              len body s0)
      as ([xend bars] & Hrun & Hxend & Hcount & Hbars)
  end.
  - simpl. split; [lia|]. split; [done|]. intros k b Hk. by destruct k.
  - intros n [x0 drawn] Hn (Hx0 & Hcnt & Hdrawn). simpl in Hx0, Hcnt, Hdrawn.
    destruct (LoopFacts.getitem_nat xcol n Hn) as (xvalue & _ & ->). cbn [bind].
    destruct (LoopFacts.getitem_nat ycol n) as (yvalue & Hyv & ->); [lia|].
    cbn [bind].
    destruct (Forall2_lookup_l _ _ _ _ _ Hints Hyv) as (y & Hyk & ->).
    cbn [bind].
    eexists. split; [reflexivity|]. simpl.
    split; [lia|]. split; [rewrite length_app; simpl; lia|].
    intros k b Hk.
    destruct (decide (k < n)%nat) as [Hlt|Hge].
    + rewrite lookup_app_l in Hk by lia. by apply Hdrawn.
    + rewrite lookup_app_r in Hk by lia.
      destruct (k - length drawn)%nat as [|?] eqn:Ek; [|done].
      simpl in Hk. injection Hk as <-. simpl.
      assert (k = n) as -> by lia.
      exists y. repeat split; [done|lia..].
  - simpl in Hxend, Hcount, Hbars.
    exists xend, bars. eexists. split; [exact Hrun|].
    split; [reflexivity|]. split; [lia|].
    intros k b Hk. destruct (Hbars k b Hk) as (y & Hyk & Hbx & Hbw & Hbh & Hby).
    exists y. repeat split; try done.
    intros Hlast. rewrite Hbx, Hbw. unfold Py.len. nia.
Qed.

(** Three bars of the width 25, 25 apart, from the origin 100. *)
Lemma draw_bars_layout_witness :
  exists xend bars e,
    BardiagramBars.draw_bars 1 2 3 100 100 25 25 0 30 "red" "blue"
      [["a"; "b"; "c"]; ["10"; "30"; "20"]]%string = Ok (xend, bars)
    /\ BardiagramBars.endbars 2 3 100 25 25
         [["a"; "b"; "c"]; ["10"; "30"; "20"]]%string = Ok e
    /\ length bars = length [10; 30; 20]
    /\ forall (k : nat) b, bars !! k = Some b ->
         exists y,
           [10; 30; 20] !! k = Some y
           /\ BardiagramBars.bar_x b = 100 + 25 + Z.of_nat k * (25 + 25)
           /\ BardiagramBars.bar_width b = 25
           /\ BardiagramBars.bar_height b = y - 0
           /\ BardiagramBars.bar_y b + BardiagramBars.bar_height b = 100 + 30 - 0
           /\ (S k = length bars ->
               BardiagramBars.bar_x b + BardiagramBars.bar_width b = e).
Proof.
  apply (draw_bars_layout [["a"; "b"; "c"]; ["10"; "30"; "20"]]%string
           1 2 3 100 100 25 25 0 30 "red" "blue"
           ["a"; "b"; "c"]%string ["10"; "30"; "20"]%string [10; 30; 20]).
  - reflexivity.
  - reflexivity.
  - repeat constructor.
  - reflexivity.
  - discriminate.
Defined.

(** ** The maximum of a column, and the bars under it *)

Module MaxFacts.

(** The value of a cell of a column of int literals is one of the values
    of the column. *)
Lemma ints_elem (col : list string) (vals : list Z) (cell : string) (v : Z) :
  ints col vals -> cell ∈ col -> Py.int cell = Ok v -> v ∈ vals.
Proof.
  intros Hints Hcell Hv. apply list_elem_of_lookup in Hcell as [i Hi].
  destruct (Forall2_lookup_l _ _ _ _ _ Hints Hi) as (v' & Hv' & Hint).
  rewrite Hv in Hint. injection Hint as <-.
  by apply list_elem_of_lookup_2 in Hv'.
Qed.

(** The maximum as [getmaxpoint] and [Bardiagram3d.setmaximumbars] compute
    it, when it returns: the cells are int literals and the result is the
    greatest of their values. *)
Lemma first_max_Ok (col : list string) (msg : string) (h : Z) :
  try_except
    (cell0 <-- Py.getitem col 0 ;;
     m <-- Py.int cell0 ;;
     Bardiagram.max_loop col m)
    ValueError (Exit 2 msg) = Ok h ->
  exists vals, ints col vals /\ h ∈ vals /\ Forall (fun v => v <= h) vals.
Proof.
  intros H. apply BardiagramFacts.try_except_exit_Ok in H.
  destruct (Py.getitem col 0) as [cell0| | |] eqn:Hcell0; try discriminate.
  cbn [bind] in H.
  destruct (Py.int cell0) as [v0| | |] eqn:Hv0; try discriminate.
  cbn [bind] in H.
  destruct (BardiagramFacts.max_loop_Ok _ _ _ H) as (vals & Hvals & ->).
  destruct (BardiagramFacts.getitem_first _ _ Hcell0) as [rest ->].
  exists vals. split; [done|]. split.
  - destruct (BardiagramFacts.fold_max_elem vals v0) as [->|?]; [|done].
    inversion Hvals as [|? v ? ? Hv ?]; subst.
    rewrite Hv0 in Hv. injection Hv as <-. constructor.
  - apply BardiagramFacts.fold_max_upper.
Qed.

(** The same maximum on a column of int literals that is not empty. *)
Lemma first_max_ints (col : list string) (vals : list Z) (msg : string) :
  ints col vals -> vals <> [] ->
  exists h,
    try_except
      (cell0 <-- Py.getitem col 0 ;;
       m <-- Py.int cell0 ;;
       Bardiagram.max_loop col m)
      ValueError (Exit 2 msg) = Ok h
    /\ h ∈ vals /\ Forall (fun v => v <= h) vals.
Proof.
  intros Hints Hne.
  destruct Hints as [|cell0 v0 col vals Hint0 Hints]; [done|].
  exists (fold_left Z.max (v0 :: vals) v0). split; [|split].
  - rewrite (getitem_lookup (cell0 :: col) 0%nat cell0 eq_refl
             : Py.getitem (cell0 :: col) 0 = Ok cell0). cbn [bind].
    rewrite Hint0. cbn [bind].
    by rewrite (BardiagramFacts.max_loop_ints _ (v0 :: vals)) by (by constructor).
  - destruct (BardiagramFacts.fold_max_elem (v0 :: vals) v0) as [->|H];
      [constructor|done].
  - apply BardiagramFacts.fold_max_upper.
Qed.

(** When the constructor of the three-dimensional chart returns,
    [self.heightmaxbar] is the maximum of the Y column. *)
Lemma init3d_Ok (lval : list (list string)) (ycolumn h : Z) :
  Bardiagram3d.init ycolumn lval = Ok h ->
  exists ycol vals,
    Py.getitem lval (ycolumn - 1) = Ok ycol /\ ints ycol vals
    /\ h ∈ vals /\ Forall (fun v => v <= h) vals.
Proof.
  unfold Bardiagram3d.init. intros H.
  apply BardiagramFacts.try_except_exit_Ok in H.
  destruct (Py.getitem lval (ycolumn - 1)) as [ycol| | |] eqn:Hcol;
    try discriminate. cbn [bind] in H.
  destruct (first_max_Ok _ _ _ H) as (vals & ? & ? & ?).
  by exists ycol, vals.
Qed.

End MaxFacts.

(** X7.  On a chart that the constructor has built, no bar that
    [Bardiagram.printsvg] draws rises above the upper end [yorigin] of
    the vertical axis, with one data set or with two: the upper edge of
    each bar is at [yorigin] or below it (the Y of the canvas grows
    downwards). *)
Theorem bars_under_axis_top (lval : list (list string))
    (xcolumn ycolumn ycolumn2 xorigin yorigin delim barwidth yrange h xend : Z)
    (fillcolor fillcolor2 : string) (bars : list BardiagramBars.bar) :
  Bardiagram.init ycolumn ycolumn2 lval = Ok h ->
  BardiagramBars.draw_bars xcolumn ycolumn ycolumn2 xorigin yorigin delim
    barwidth yrange h fillcolor fillcolor2 lval = Ok (xend, bars) ->
  Forall (fun b => yorigin <= BardiagramBars.bar_y b) bars.
Proof.
  intros Hinit Hdraw.
  destruct (BardiagramFacts.init_Ok _ _ _ _ Hinit)
    as (all & (ycol & vals & Hcol & Hvals & Hall) & _ & Hmax).
  unfold BardiagramBars.draw_bars in Hdraw.
  destruct (Py.getitem lval (xcolumn - 1)) as [xcol| | |] eqn:Hxcol;
    try discriminate. cbn [bind] in Hdraw.
  rewrite Hcol in Hdraw.
  apply (LoopFacts.for_range_ind
           (fun _ (st : Z * list BardiagramBars.bar) =>
              Forall (fun b => yorigin <= BardiagramBars.bar_y b) (snd st)))
    in Hdraw; [done|constructor|].
  intros k [x0 drawn] s2 Hk Hdrawn Hbody. simpl in Hdrawn.
  cbn [bind] in Hbody.
  destruct (Py.getitem xcol (Z.of_nat k)) as [xvalue| | |]; try discriminate.
  cbn [bind] in Hbody.
  destruct (Py.getitem ycol (Z.of_nat k)) as [yvalue| | |] eqn:Hyv;
    try discriminate. cbn [bind] in Hbody.
  destruct (Py.int yvalue) as [y| | |] eqn:Hy; try discriminate.
  cbn [bind] in Hbody.
  apply LoopFacts.getitem_Ok_elem in Hyv.
  pose proof (MaxFacts.ints_elem _ _ _ _ Hvals Hyv Hy) as Hyin.
  rewrite Forall_forall in Hmax.
  destruct (Py.len lval =? ycolumn2).
  - destruct Hall as (ycol2 & vals2 & Hcol2 & Hvals2 & ->).
    rewrite Hcol2 in Hbody. cbn [bind] in Hbody.
    destruct (Py.getitem ycol2 (Z.of_nat k)) as [yvalue2| | |] eqn:Hyv2;
      try discriminate. cbn [bind] in Hbody.
    destruct (Py.int yvalue2) as [y2| | |] eqn:Hy2; try discriminate.
    cbn [bind] in Hbody. injection Hbody as <-. simpl.
    apply LoopFacts.getitem_Ok_elem in Hyv2.
    pose proof (MaxFacts.ints_elem _ _ _ _ Hvals2 Hyv2 Hy2) as Hyin2.
    apply Forall_app. split; [done|].
    assert (y <= h) by (apply Hmax, elem_of_app; by left).
    assert (y2 <= h) by (apply Hmax, elem_of_app; by right).
    repeat constructor; simpl; lia.
  - subst all. injection Hbody as <-. simpl.
    apply Forall_app. split; [done|].
    assert (y <= h) by (by apply Hmax).
    repeat constructor; simpl; lia.
Qed.

(** Two data sets of three values each, with the maximum 40. *)
Lemma bars_under_axis_top_witness :
  Forall (fun b => 100 <= BardiagramBars.bar_y b)
    [BardiagramBars.mk_bar "a" "10" 10 25 125 130 "red" 1 0;
     BardiagramBars.mk_bar "" "5" 5 25 150 135 "blue" 2 0;
     BardiagramBars.mk_bar "b" "30" 30 25 200 110 "red" 1 1;
     BardiagramBars.mk_bar "" "40" 40 25 225 100 "blue" 2 1;
     BardiagramBars.mk_bar "c" "20" 20 25 275 120 "red" 1 2;
     BardiagramBars.mk_bar "" "15" 15 25 300 125 "blue" 2 2].
Proof.
  apply (bars_under_axis_top
           [["a"; "b"; "c"]; ["10"; "30"; "20"]; ["5"; "40"; "15"]]%string
           1 2 3 100 100 25 25 0 40 350 "red" "blue").
  - reflexivity.
  - reflexivity.
Defined.

(** ** Bardiagram3d: the range minimum *)

(** X8.  [Bardiagram3d.printsvg] refuses a value below the range minimum: with
    an X and a Y column of the same length and int literals in the Y
    column, one value below [yrange] makes the loop of the bars print the
    message about the range and leave with the status 2. *)
Theorem draw_bars3d_below_range (lval : list (list string))
    (xcolumn ycolumn xorigin yorigin delim barwidth yrange heightmaxbar : Z)
    (fillcolor : string) (xcol ycol : list string) (ys : list Z) (y : Z) :
  Py.getitem lval (xcolumn - 1) = Ok xcol ->
  Py.getitem lval (ycolumn - 1) = Ok ycol ->
  ints ycol ys -> length xcol = length ycol ->
  y ∈ ys -> y < yrange ->
  Bardiagram3d.draw_bars xcolumn ycolumn xorigin yorigin delim barwidth
    yrange heightmaxbar fillcolor lval = Exit 2 Bardiagram3d.msg_yrange.
Proof.
  intros Hx Hy Hints Hlen Hin Hlow.
  pose proof (Forall2_length _ _ _ Hints) as Hlen2.
  apply list_elem_of_lookup in Hin as [i Hi].
  pose proof (lookup_lt_Some _ _ _ Hi) as Hilt.
  unfold Bardiagram3d.draw_bars. rewrite Hx. cbn [bind].
  apply (LoopFacts.for_range_stops (StopExit 2 Bardiagram3d.msg_yrange) _ _ _ i);
    [|lia|].
  - intros k [x0 drawn] Hk. rewrite ?Hx, ?Hy. cbn [bind].
    destruct (LoopFacts.getitem_nat xcol k Hk) as (xvalue & _ & ->). cbn [bind].
    destruct (LoopFacts.getitem_nat ycol k) as (yvalue & Hyv & ->); [lia|].
    cbn [bind].
    destruct (Forall2_lookup_l _ _ _ _ _ Hints Hyv) as (v & _ & ->).
    cbn [bind]. destruct (yrange <=? v); [left; by eexists|by right].
  - intros [x0 drawn]. rewrite ?Hx, ?Hy. cbn [bind].
    destruct (LoopFacts.getitem_nat xcol i) as (xvalue & _ & ->); [lia|].
    cbn [bind].
    destruct (Forall2_lookup_r _ _ _ _ _ Hints Hi) as (yvalue & Hyv & Hint).
    rewrite (getitem_lookup _ _ _ Hyv). cbn [bind]. rewrite Hint. cbn [bind].
    destruct (Z.leb_spec yrange y); [lia|done].
Qed.

(** The range minimum 12 over the values 10, 30 and 20. *)
Lemma draw_bars3d_below_range_witness :
  Bardiagram3d.draw_bars 1 2 100 100 25 25 12 30 "red"
    [["a"; "b"; "c"]; ["10"; "30"; "20"]]%string
  = Exit 2 Bardiagram3d.msg_yrange.
Proof.
  apply (draw_bars3d_below_range _ 1 2 100 100 25 25 12 30 "red"
           ["a"; "b"; "c"]%string ["10"; "30"; "20"]%string [10; 30; 20] 10).
  - reflexivity.
  - reflexivity.
  - repeat constructor.
  - reflexivity.
  - apply list_elem_of_here.
  - lia.
Defined.

(** X9.  On a three-dimensional chart that the constructor has built, every
    bar that [Bardiagram3d.printsvg] has drawn when its loop returns lies
    between the two ends of the vertical axis: its height is not
    negative, its upper edge is at [yorigin] or below, and its lower
    edge is on the line [yorigin + heightmaxbar - yrange]. *)
Theorem bars3d_inside_axis (lval : list (list string))
    (xcolumn ycolumn xorigin yorigin delim barwidth yrange h xend : Z)
    (fillcolor : string) (bars : list Bardiagram3d.bar3d) :
  Bardiagram3d.init ycolumn lval = Ok h ->
  Bardiagram3d.draw_bars xcolumn ycolumn xorigin yorigin delim barwidth
    yrange h fillcolor lval = Ok (xend, bars) ->
  Forall (fun b =>
            0 <= Bardiagram3d.bar3d_height b
            /\ yorigin <= Bardiagram3d.bar3d_y b
            /\ Bardiagram3d.bar3d_y b + Bardiagram3d.bar3d_height b
               = yorigin + h - yrange) bars.
Proof.
  intros Hinit Hdraw.
  destruct (MaxFacts.init3d_Ok _ _ _ Hinit) as (ycol & vals & Hcol & Hvals & _ & Hmax).
  unfold Bardiagram3d.draw_bars in Hdraw.
  destruct (Py.getitem lval (xcolumn - 1)) as [xcol| | |] eqn:Hxcol;
    try discriminate. cbn [bind] in Hdraw.
  rewrite Hcol in Hdraw.
  apply (LoopFacts.for_range_ind
           (fun _ (st : Z * list Bardiagram3d.bar3d) =>
              Forall (fun b =>
                        0 <= Bardiagram3d.bar3d_height b
                        /\ yorigin <= Bardiagram3d.bar3d_y b
                        /\ Bardiagram3d.bar3d_y b + Bardiagram3d.bar3d_height b
                           = yorigin + h - yrange) (snd st)))
    in Hdraw; [done|constructor|].
  intros k [x0 drawn] s2 Hk Hdrawn Hbody. simpl in Hdrawn.
  cbn [bind] in Hbody.
  destruct (Py.getitem xcol (Z.of_nat k)) as [xvalue| | |]; try discriminate.
  cbn [bind] in Hbody.
  destruct (Py.getitem ycol (Z.of_nat k)) as [yvalue| | |] eqn:Hyv;
    try discriminate. cbn [bind] in Hbody.
  destruct (Py.int yvalue) as [y| | |] eqn:Hy; try discriminate.
  cbn [bind] in Hbody.
  apply LoopFacts.getitem_Ok_elem in Hyv.
  pose proof (MaxFacts.ints_elem _ _ _ _ Hvals Hyv Hy) as Hyin.
  rewrite Forall_forall in Hmax. specialize (Hmax y Hyin).
  destruct (Z.leb_spec yrange y); [|discriminate].
  injection Hbody as <-. simpl.
  apply Forall_app. split; [done|].
  repeat constructor; simpl; lia.
Qed.

(** The values 10, 30 and 20 over the range minimum 5. *)
Lemma bars3d_inside_axis_witness :
  Forall (fun b =>
            0 <= Bardiagram3d.bar3d_height b
            /\ 100 <= Bardiagram3d.bar3d_y b
            /\ Bardiagram3d.bar3d_y b + Bardiagram3d.bar3d_height b
               = 100 + 30 - 5)
    [Bardiagram3d.mk_bar3d "a" "10" 5 25 125 120 "red" 0;
     Bardiagram3d.mk_bar3d "b" "30" 25 25 175 100 "red" 1;
     Bardiagram3d.mk_bar3d "c" "20" 15 25 225 110 "red" 2].
Proof.
  apply (bars3d_inside_axis [["a"; "b"; "c"]; ["10"; "30"; "20"]]%string
           1 2 100 100 25 25 5 30 275 "red").
  - reflexivity.
  - reflexivity.
Defined.

(** ** Scatterplot: the axes, the labels and the points *)

Module AxesFacts.
Import ScatterplotAxes.

(** [getmaxpoint], when it returns. *)
Lemma getmaxpoint_Ok (col : list string) (m : Z) :
  getmaxpoint col = Ok m ->
  exists vals, ints col vals /\ m ∈ vals /\ Forall (fun v => v <= m) vals.
Proof. apply MaxFacts.first_max_Ok. Qed.

(** The labels after the first one: the multiples of [auxinc] from the
    one number [c] on. *)
Lemma scale_loop_multiples (auxinc maxaxis : Z) :
  forall (left c fuel : nat),
    (left < fuel)%nat ->
    (forall k : nat, (c <= k < c + left)%nat -> auxinc * Z.of_nat k <= maxaxis) ->
    maxaxis < auxinc * Z.of_nat (c + left) ->
    scale_loop fuel auxinc maxaxis (auxinc * Z.of_nat c) (Z.of_nat c + 1)
    = Ok (map (fun k : nat => auxinc * Z.of_nat k) (seq c left)).
Proof.
  induction left as [|left IH]; intros c fuel Hfuel Hle Hgt.
  - destruct fuel; [lia|]. cbn [scale_loop].
    rewrite Nat.add_0_r in Hgt.
    destruct (Z.leb_spec (auxinc * Z.of_nat c) maxaxis); [lia|done].
  - destruct fuel; [lia|]. cbn [scale_loop].
    destruct (Z.leb_spec (auxinc * Z.of_nat c) maxaxis) as [_|Hc];
      [|specialize (Hle c); lia].
    replace (Z.of_nat c + 1) with (Z.of_nat (S c)) by lia.
    rewrite IH; [done|lia| |].
    + intros k Hk. apply Hle. lia.
    + replace (S c + left)%nat with (c + S left)%nat by lia. done.
Qed.

(** With an increment that is not positive and a maximum that is not
    negative the loop of the labels has no exit. *)
Lemma scale_loop_no_exit (auxinc maxaxis : Z) :
  auxinc <= 0 -> 0 <= maxaxis ->
  forall fuel yinc cont,
    0 <= cont -> yinc <= maxaxis ->
    scale_loop fuel auxinc maxaxis yinc cont = OutOfFuel.
Proof.
  intros Hinc Hmax. induction fuel as [|fuel IH]; intros yinc cont Hc Hy; [done|].
  cbn [scale_loop].
  destruct (Z.leb_spec yinc maxaxis) as [_|?]; [|lia].
  rewrite IH; [done|lia|nia].
Qed.

End AxesFacts.

(** X10.  [Scatterplot.getmaxpoint] on a column of int literals that is not
    empty returns the greatest of their values. *)
Theorem getmaxpoint_maximum (col : list string) (vals : list Z) :
  ints col vals -> vals <> [] ->
  exists m, ScatterplotAxes.getmaxpoint col = Ok m
            /\ m ∈ vals /\ Forall (fun v => v <= m) vals.
Proof. apply MaxFacts.first_max_ints. Qed.

(** The Y column of the line plot of the documentation. *)
Lemma getmaxpoint_maximum_witness :
  exists m, ScatterplotAxes.getmaxpoint ["57"; "27"; "175"; "45"]%string = Ok m
            /\ m ∈ [57; 27; 175; 45] /\ Forall (fun v => v <= m) [57; 27; 175; 45].
Proof.
  apply (getmaxpoint_maximum ["57"; "27"; "175"; "45"]%string [57; 27; 175; 45]).
  - repeat constructor.
  - discriminate.
Defined.

(** X11.  A cell that holds no whitespace, as the cells that [readinputfile]
    returns, and that [int] refuses makes [Scatterplot.getmaxpoint] print
    the message about numeric values and leave with the status 2. *)
Theorem getmaxpoint_non_numeric (col : list string) (cell : string) :
  cell ∈ col -> Py.blank_free cell = true -> Py.int cell = Raise ValueError ->
  ScatterplotAxes.getmaxpoint col = Exit 2 ScatterplotAxes.msg_numeric.
Proof.
  intros Hcell _ Hint. unfold ScatterplotAxes.getmaxpoint.
  destruct (BarsFacts.getitem_head col cell Hcell) as (cell0 & -> & _).
  cbn [bind].
  destruct (LoopFacts.int_returns_or_stops cell0) as [[v ->]| ->]; [|done].
  cbn [bind]. by rewrite (BarsFacts.max_loop_non_numeric col cell v).
Qed.

(** A decimal value in the last row. *)
Lemma getmaxpoint_non_numeric_witness :
  ScatterplotAxes.getmaxpoint ["57"; "27"; "1.5"]%string
  = Exit 2 ScatterplotAxes.msg_numeric.
Proof.
  apply (getmaxpoint_non_numeric _ "1.5"%string).
  - do 2 apply list_elem_of_further. apply list_elem_of_here.
  - reflexivity.
  - reflexivity.
Defined.

(** X12.  The labels of an axis of the scatter plot and of the line plot, for
    an increment above zero that is not above the maximum of the axis: the
    loop terminates, and it draws the increment first, then the
    multiples [0], [auxinc], [2 * auxinc], ... of the increment up to the
    maximum.  The label of the increment is drawn twice and the label 0
    comes second. *)
Theorem scale_labels_multiples (auxinc maxaxis : Z) (fuel : nat) :
  0 < auxinc -> auxinc <= maxaxis ->
  (Z.to_nat (maxaxis / auxinc) + 2 < fuel)%nat ->
  ScatterplotAxes.scale_labels fuel auxinc maxaxis
  = Ok (auxinc :: map (fun k : nat => auxinc * Z.of_nat k)
                      (seq 0 (Z.to_nat (maxaxis / auxinc) + 1))).
Proof.
  intros Hinc Hmax Hfuel. unfold ScatterplotAxes.scale_labels.
  destruct fuel as [|fuel]; [lia|]. cbn [ScatterplotAxes.scale_loop].
  destruct (Z.leb_spec auxinc maxaxis) as [_|?]; [|lia].
  pose proof (Z.div_pos maxaxis auxinc ltac:(lia) Hinc) as Hq.
  pose proof (Z.mul_div_le maxaxis auxinc Hinc) as Hlo.
  pose proof (Z.mul_succ_div_gt maxaxis auxinc Hinc) as Hhi.
  change 0 with (Z.of_nat 0) at 1 2.
  rewrite (AxesFacts.scale_loop_multiples auxinc maxaxis
             (Z.to_nat (maxaxis / auxinc) + 1) 0 fuel); [done|lia| |].
  - intros k Hk. nia.
  - nia.
Qed.

(** The increment 50 under the maximum 175: the labels 50, 0, 50, 100 and
    150. *)
Lemma scale_labels_multiples_witness :
  ScatterplotAxes.scale_labels 10 50 175
  = Ok (50 :: map (fun k : nat => 50 * Z.of_nat k)
                  (seq 0 (Z.to_nat (175 / 50) + 1))).
Proof. apply scale_labels_multiples; [lia|lia|vm_compute; lia]. Defined.

(** X13.  With an increment that is zero or negative, under a maximum that is
    not negative and not below the increment, the loop of the labels of
    the scatter plot and of the line plot does not terminate. *)
Theorem scale_labels_no_exit (auxinc maxaxis : Z) (fuel : nat) :
  auxinc <= 0 -> 0 <= maxaxis ->
  ScatterplotAxes.scale_labels fuel auxinc maxaxis = OutOfFuel.
Proof.
  intros Hinc Hmax. unfold ScatterplotAxes.scale_labels.
  apply AxesFacts.scale_loop_no_exit; lia.
Qed.

(** The increment 0 under the maximum 175, cut after a thousand turns. *)
Lemma scale_labels_no_exit_witness :
  ScatterplotAxes.scale_labels 1000 0 175 = OutOfFuel.
Proof. apply scale_labels_no_exit; lia. Defined.

(** [getmaxaxis], when it returns. *)
Lemma getmaxaxis_bounds (xcolumn ycolumn xcolumn2 : Z) (lval : list (list string))
    (xmaxaxis ymaxaxis : Z) :
  ScatterplotAxes.getmaxaxis xcolumn ycolumn xcolumn2 lval = Ok (xmaxaxis, ymaxaxis) ->
  exists xcol ycol xs ys,
    Py.getitem lval (xcolumn - 1) = Ok xcol /\ ints xcol xs
    /\ Py.getitem lval (ycolumn - 1) = Ok ycol /\ ints ycol ys
    /\ Forall (fun v => v <= xmaxaxis) xs /\ Forall (fun v => v <= ymaxaxis) ys
    /\ ((Py.len lval >? xcolumn2) = true ->
        exists xcol2 ycol2 xs2 ys2,
          Py.getitem lval (xcolumn2 - 1) = Ok xcol2 /\ ints xcol2 xs2
          /\ Py.getitem lval (Py.len lval - 1) = Ok ycol2 /\ ints ycol2 ys2
          /\ Forall (fun v => v <= xmaxaxis) xs2
          /\ Forall (fun v => v <= ymaxaxis) ys2).
Proof.
  unfold ScatterplotAxes.getmaxaxis. intros H.
  destruct (Py.getitem lval (ycolumn - 1)) as [ycol| | |] eqn:Hycol;
    try discriminate. cbn [bind] in H.
  destruct (ScatterplotAxes.getmaxpoint ycol) as [ym| | |] eqn:Hym;
    try discriminate. cbn [bind] in H.
  destruct (Py.getitem lval (xcolumn - 1)) as [xcol| | |] eqn:Hxcol;
    try discriminate. cbn [bind] in H.
  destruct (ScatterplotAxes.getmaxpoint xcol) as [xm| | |] eqn:Hxm;
    try discriminate. cbn [bind] in H.
  destruct (AxesFacts.getmaxpoint_Ok _ _ Hym) as (ys & Hys & _ & Hysle).
  destruct (AxesFacts.getmaxpoint_Ok _ _ Hxm) as (xs & Hxs & _ & Hxsle).
  exists xcol, ycol, xs, ys.
  destruct (Py.len lval >? xcolumn2) eqn:Hsecond.
  - destruct (Py.getitem lval (Py.len lval - 1)) as [ycol2| | |] eqn:Hycol2;
      try discriminate. cbn [bind] in H.
    destruct (ScatterplotAxes.getmaxpoint ycol2) as [ym2| | |] eqn:Hym2;
      try discriminate. cbn [bind] in H.
    destruct (Py.getitem lval (xcolumn2 - 1)) as [xcol2| | |] eqn:Hxcol2;
      try discriminate. cbn [bind] in H.
    destruct (ScatterplotAxes.getmaxpoint xcol2) as [xm2| | |] eqn:Hxm2;
      try discriminate. cbn [bind] in H.
    destruct (AxesFacts.getmaxpoint_Ok _ _ Hym2) as (ys2 & Hys2 & _ & Hys2le).
    destruct (AxesFacts.getmaxpoint_Ok _ _ Hxm2) as (xs2 & Hxs2 & _ & Hxs2le).
    injection H as <- <-.
    assert (Hx : xm <= (if xm2 >? xm then xm2 else xm)
                 /\ xm2 <= (if xm2 >? xm then xm2 else xm)).
    { destruct (Z.gtb_spec xm2 xm); lia. }
    assert (Hy : ym <= (if ym2 >? ym then ym2 else ym)
                 /\ ym2 <= (if ym2 >? ym then ym2 else ym)).
    { destruct (Z.gtb_spec ym2 ym); lia. }
    repeat split; try done.
    + eapply Forall_impl; [exact Hxsle|]. simpl. lia.
    + eapply Forall_impl; [exact Hysle|]. simpl. lia.
    + intros _. exists xcol2, ycol2, xs2, ys2. repeat split; try done.
      * eapply Forall_impl; [exact Hxs2le|]. simpl. lia.
      * eapply Forall_impl; [exact Hys2le|]. simpl. lia.
  - injection H as <- <-. repeat split; try done.
Qed.

(** X14.  When [Scatterplot.getmaxaxis] returns, the X and the Y column hold
    int literals and the two maxima it returns bound their values; with
    a second data set (more columns than [xcolumn2]) they also bound the
    values of the column [xcolumn2] and those of the last column of the
    table, which is read as the second Y column whatever [ycolumn2]
    is. *)
Theorem getmaxaxis_last_column (xcolumn ycolumn xcolumn2 : Z) (lval : list (list string))
    (xmaxaxis ymaxaxis : Z) :
  ScatterplotAxes.getmaxaxis xcolumn ycolumn xcolumn2 lval = Ok (xmaxaxis, ymaxaxis) ->
  exists xcol ycol xs ys,
    Py.getitem lval (xcolumn - 1) = Ok xcol /\ ints xcol xs
    /\ Py.getitem lval (ycolumn - 1) = Ok ycol /\ ints ycol ys
    /\ Forall (fun v => v <= xmaxaxis) xs /\ Forall (fun v => v <= ymaxaxis) ys
    /\ ((Py.len lval >? xcolumn2) = true ->
        exists xcol2 ycol2 xs2 ys2,
          Py.getitem lval (xcolumn2 - 1) = Ok xcol2 /\ ints xcol2 xs2
          /\ Py.getitem lval (Py.len lval - 1) = Ok ycol2 /\ ints ycol2 ys2
          /\ Forall (fun v => v <= xmaxaxis) xs2
          /\ Forall (fun v => v <= ymaxaxis) ys2).
Proof. apply getmaxaxis_bounds. Qed.

(** Four columns, the second data set in the columns 3 and 4: the maxima
    285 and 100 come from the second data set. *)
Lemma getmaxaxis_last_column_witness :
  exists xcol ycol xs ys,
    Py.getitem [["95"; "150"]; ["57"; "27"]; ["285"; "220"]; ["65"; "100"]]%string
      (1 - 1) = Ok xcol /\ ints xcol xs
    /\ Py.getitem [["95"; "150"]; ["57"; "27"]; ["285"; "220"]; ["65"; "100"]]%string
         (2 - 1) = Ok ycol /\ ints ycol ys
    /\ Forall (fun v => v <= 285) xs /\ Forall (fun v => v <= 100) ys
    /\ ((Py.len [["95"; "150"]; ["57"; "27"]; ["285"; "220"]; ["65"; "100"]]%string
         >? 3) = true ->
        exists xcol2 ycol2 xs2 ys2,
          Py.getitem
            [["95"; "150"]; ["57"; "27"]; ["285"; "220"]; ["65"; "100"]]%string
            (3 - 1) = Ok xcol2 /\ ints xcol2 xs2
          /\ Py.getitem
               [["95"; "150"]; ["57"; "27"]; ["285"; "220"]; ["65"; "100"]]%string
               (Py.len [["95"; "150"]; ["57"; "27"]; ["285"; "220"];
                        ["65"; "100"]]%string - 1) = Ok ycol2
          /\ ints ycol2 ys2
          /\ Forall (fun v => v <= 285) xs2
          /\ Forall (fun v => v <= 100) ys2).
Proof.
  apply (getmaxaxis_last_column 1 2 3
           [["95"; "150"]; ["57"; "27"]; ["285"; "220"]; ["65"; "100"]]%string
           285 100).
  reflexivity.
Defined.

(** X15.  Every point that [Scatterplot.printsvg] draws lies inside the axes
    that it has drawn from the result of [getmaxaxis], for one data set
    and for two: the centre of the point is not to the right of the end
    [xorigin + xmaxaxis] of the horizontal axis and not above the upper
    end [yorigin] of the vertical axis. *)
Theorem points_inside_axes (lval : list (list string))
    (xcolumn ycolumn xcolumn2 xorigin yorigin xmaxaxis ymaxaxis : Z)
    (ptsym ptcolor pt2sym pt2color : string) (ptsize : float)
    (drawn : list ScatterplotAxes.marker) :
  ScatterplotAxes.getmaxaxis xcolumn ycolumn xcolumn2 lval = Ok (xmaxaxis, ymaxaxis) ->
  ScatterplotAxes.draw_points xcolumn ycolumn xcolumn2 xorigin yorigin ymaxaxis
    ptsym ptcolor pt2sym pt2color ptsize lval = Ok drawn ->
  Forall (fun m => ScatterplotAxes.marker_x m <= xorigin + xmaxaxis
                   /\ yorigin <= ScatterplotAxes.marker_y m) drawn.
Proof.
  intros Haxis Hdraw.
  destruct (getmaxaxis_bounds _ _ _ _ _ _ Haxis)
    as (xcol & ycol & xs & ys & Hxcol & Hxs & Hycol & Hys & Hxle & Hyle & Hsecond).
  unfold ScatterplotAxes.draw_points in Hdraw. rewrite Hxcol in Hdraw.
  cbn [bind] in Hdraw. rewrite Hycol in Hdraw.
  apply (LoopFacts.for_range_ind
           (fun _ (st : list ScatterplotAxes.marker) =>
              Forall (fun m => ScatterplotAxes.marker_x m <= xorigin + xmaxaxis
                               /\ yorigin <= ScatterplotAxes.marker_y m) st))
    in Hdraw; [done|constructor|].
  intros k st s2 Hk Hst Hbody. cbn [bind] in Hbody.
  destruct (Py.getitem xcol (Z.of_nat k)) as [cx| | |] eqn:Hcx; try discriminate.
  cbn [bind] in Hbody.
  destruct (Py.int cx) as [x| | |] eqn:Hx; try discriminate.
  cbn [bind] in Hbody.
  destruct (Py.getitem ycol (Z.of_nat k)) as [cy| | |] eqn:Hcy; try discriminate.
  cbn [bind] in Hbody.
  destruct (Py.int cy) as [y| | |] eqn:Hy; try discriminate.
  cbn [bind] in Hbody.
  destruct (ScatterplotAxes.getsvgpoint _ _ ptsym _ _) as [sh| | |];
    try discriminate. cbn [bind] in Hbody.
  apply LoopFacts.getitem_Ok_elem in Hcx, Hcy.
  pose proof (MaxFacts.ints_elem _ _ _ _ Hxs Hcx Hx) as Hxin.
  pose proof (MaxFacts.ints_elem _ _ _ _ Hys Hcy Hy) as Hyin.
  rewrite Forall_forall in Hxle, Hyle.
  specialize (Hxle x Hxin). specialize (Hyle y Hyin).
  destruct (Py.len lval >? xcolumn2).
  - destruct (Hsecond eq_refl)
      as (xcol2 & ycol2 & xs2 & ys2 & Hxcol2 & Hxs2 & Hycol2 & Hys2 & Hx2le & Hy2le).
    rewrite Hxcol2 in Hbody. cbn [bind] in Hbody.
    destruct (Py.getitem xcol2 (Z.of_nat k)) as [cx2| | |] eqn:Hcx2;
      try discriminate. cbn [bind] in Hbody.
    destruct (Py.int cx2) as [x2| | |] eqn:Hx2; try discriminate.
    cbn [bind] in Hbody. rewrite Hycol2 in Hbody. cbn [bind] in Hbody.
    destruct (Py.getitem ycol2 (Z.of_nat k)) as [cy2| | |] eqn:Hcy2;
      try discriminate. cbn [bind] in Hbody.
    destruct (Py.int cy2) as [y2| | |] eqn:Hy2; try discriminate.
    cbn [bind] in Hbody.
    destruct (ScatterplotAxes.getsvgpoint _ _ pt2sym _ _) as [sh2| | |];
      try discriminate. cbn [bind] in Hbody. injection Hbody as <-.
    apply LoopFacts.getitem_Ok_elem in Hcx2, Hcy2.
    pose proof (MaxFacts.ints_elem _ _ _ _ Hxs2 Hcx2 Hx2) as Hx2in.
    pose proof (MaxFacts.ints_elem _ _ _ _ Hys2 Hcy2 Hy2) as Hy2in.
    rewrite Forall_forall in Hx2le, Hy2le.
    specialize (Hx2le x2 Hx2in). specialize (Hy2le y2 Hy2in).
    apply Forall_app. split; [done|]. repeat constructor; simpl; lia.
  - injection Hbody as <-.
    apply Forall_app. split; [done|]. repeat constructor; simpl; lia.
Qed.

(** Two data sets in four columns, drawn with circles and squares. *)
Lemma points_inside_axes_witness :
  Forall (fun m => ScatterplotAxes.marker_x m <= 100 + 285
                   /\ 100 <= ScatterplotAxes.marker_y m)
    [ScatterplotAxes.mk_marker 195 143
       (ScatterplotAxes.Circle 195 143 2 "red");
     ScatterplotAxes.mk_marker 385 135
       (ScatterplotAxes.Rectangle 4 4 383 133 "square" "blue");
     ScatterplotAxes.mk_marker 250 173
       (ScatterplotAxes.Circle 250 173 2 "red");
     ScatterplotAxes.mk_marker 320 100
       (ScatterplotAxes.Rectangle 4 4 318 98 "square" "blue")].
Proof.
  apply (points_inside_axes
           [["95"; "150"]; ["57"; "27"]; ["285"; "220"]; ["65"; "100"]]%string
           1 2 3 100 100 285 100 "circle" "red" "square" "blue" 4%float).
  - reflexivity.
  - vm_compute. reflexivity.
Defined.

(** ** Scatterplot: the statistics of the regression line *)

Module StatFacts.
Import Scatterplot.

(** [a / len(l)] on a list that is not empty. *)
Lemma div_len {A : Type} (l : list A) (a : Z) :
  l <> [] -> Py.div a (Py.len l) = Ok (a / Py.len l).
Proof.
  intros Hne. unfold Py.div, Py.len. destruct l; [done|].
  destruct (Z.eqb_spec (Z.of_nat (length (a0 :: l))) 0) as [H0|H0]; [|done].
  simpl in H0. lia.
Qed.

Lemma ints_nonempty (col : list string) (vals : list Z) :
  ints col vals -> vals <> [] -> col <> [].
Proof. intros H Hne ->. by inversion H. Qed.

Lemma ints_len (col : list string) (vals : list Z) :
  ints col vals -> Py.len col = Py.len vals.
Proof. intros H. unfold Py.len. by rewrite (Forall2_length _ _ _ H). Qed.

(** The floored mean of a column of int literals that is not empty. *)
Lemma getaverage_mean (col : list string) (vals : list Z) :
  ints col vals -> vals <> [] ->
  getaverage col = Ok (sum_list vals / Py.len vals).
Proof.
  intros Hints Hne. rewrite (ScatterplotFacts.getaverage_ints _ _ Hints).
  rewrite div_len by (by eapply ints_nonempty). by rewrite (ints_len _ _ Hints).
Qed.

Lemma take_zip_with_S {A B C : Type} (f : A -> B -> C) (l1 : list A) (l2 : list B)
    (n : nat) (a : A) (b : B) :
  l1 !! n = Some a -> l2 !! n = Some b ->
  take (S n) (zip_with f l1 l2) = take n (zip_with f l1 l2) ++ [f a b].
Proof.
  intros Ha Hb. apply take_S_r. rewrite lookup_zip_with, Ha. simpl. by rewrite Hb.
Qed.

End StatFacts.

(** X16.  [Scatterplot.getaverage] on a column of int literals that is not
    empty returns the floor of the mean of their values (the division is
    the one of two ints). *)
Theorem getaverage_floor (col : list string) (vals : list Z) :
  ints col vals -> vals <> [] ->
  Scatterplot.getaverage col = Ok (sum_list vals / Py.len vals).
Proof. apply StatFacts.getaverage_mean. Qed.

(** The mean 2.5 of 1, 2, 3 and 4 is returned as 2. *)
Lemma getaverage_floor_witness :
  Scatterplot.getaverage ["1"; "2"; "3"; "4"]%string
  = Ok (sum_list [1; 2; 3; 4] / Py.len [1; 2; 3; 4]).
Proof.
  apply (getaverage_floor ["1"; "2"; "3"; "4"]%string [1; 2; 3; 4]).
  - repeat constructor.
  - discriminate.
Defined.

(** X17.  [Scatterplot.getvariance] on a column of int literals that is not
    empty returns the floor of the mean of the squares of the distances
    of the values to their floored mean. *)
Theorem getvariance_floor (col : list string) (vals : list Z) :
  ints col vals -> vals <> [] ->
  let m := sum_list vals / Py.len vals in
  Scatterplot.getvariance col
  = Ok (sum_list (map (fun a => (a - m) * (a - m)) vals) / Py.len vals).
Proof.
  intros Hints Hne m. unfold Scatterplot.getvariance.
  pose proof (StatFacts.getaverage_mean _ _ Hints Hne) as Hm. fold m in Hm.
  pose proof (Forall2_length _ _ _ Hints) as Hlen.
  match goal with |- context [Py.for_range ?len ?body ?s0] =>
    destruct (LoopFacts.for_range_total
                (fun k s => s = sum_list (map (fun a => (a - m) * (a - m))
                                              (take k vals)))
                len body s0) as (var & -> & ->)
  end.
  - done.
  - intros k s Hk ->.
    destruct (LoopFacts.getitem_nat col k Hk) as (cell & Hcell & ->).
    cbn [bind].
    destruct (Forall2_lookup_l _ _ _ _ _ Hints Hcell) as (a & Ha & ->).
    cbn [bind]. rewrite Hm. cbn [bind].
    eexists. split; [reflexivity|].
    by rewrite (take_S_r _ _ _ Ha), map_app, ScatterplotFacts.sum_list_app; simpl;
      rewrite Z.add_0_r.
  - cbn [bind]. rewrite Hlen, firstn_all.
    rewrite StatFacts.div_len by (by eapply StatFacts.ints_nonempty).
    by rewrite (StatFacts.ints_len _ _ Hints).
Qed.

(** The values 1, 2, 3 and 4: the floored mean 2 and the variance
    [(1 + 0 + 1 + 4) / 4 = 1]. *)
Lemma getvariance_floor_witness :
  let m := sum_list [1; 2; 3; 4] / Py.len [1; 2; 3; 4] in
  Scatterplot.getvariance ["1"; "2"; "3"; "4"]%string
  = Ok (sum_list (map (fun a => (a - m) * (a - m)) [1; 2; 3; 4])
        / Py.len [1; 2; 3; 4]).
Proof.
  apply (getvariance_floor ["1"; "2"; "3"; "4"]%string [1; 2; 3; 4]).
  - repeat constructor.
  - discriminate.
Defined.

(** X18.  [Scatterplot.getcovariance] on an X and a Y column of int literals of
    the same length, not empty, returns the floor of the mean of the
    products of the distances of the X and of the Y values to their
    floored means. *)
Theorem getcovariance_floor (lval : list (list string)) (xcolumn ycolumn : Z)
    (xcol ycol : list string) (xs ys : list Z) :
  Py.getitem lval (xcolumn - 1) = Ok xcol ->
  Py.getitem lval (ycolumn - 1) = Ok ycol ->
  ints xcol xs -> ints ycol ys -> length xs = length ys -> xs <> [] ->
  let mx := sum_list xs / Py.len xs in
  let my := sum_list ys / Py.len ys in
  Scatterplot.getcovariance xcolumn ycolumn lval
  = Ok (sum_list (zip_with (fun a b => (a - mx) * (b - my)) xs ys) / Py.len xs).
Proof.
  intros Hx Hy Hxs Hys Hlen Hne mx my. unfold Scatterplot.getcovariance.
  assert (Hyne : ys <> []) by (destruct xs, ys; done).
  pose proof (StatFacts.getaverage_mean _ _ Hxs Hne) as Hmx. fold mx in Hmx.
  pose proof (StatFacts.getaverage_mean _ _ Hys Hyne) as Hmy. fold my in Hmy.
  pose proof (Forall2_length _ _ _ Hxs) as Hlenx.
  pose proof (Forall2_length _ _ _ Hys) as Hleny.
  rewrite Hx. cbn [bind].
  match goal with |- context [Py.for_range ?len ?body ?s0] =>
    destruct (LoopFacts.for_range_total
                (fun k s => s = sum_list (take k (zip_with
                                   (fun a b => (a - mx) * (b - my)) xs ys)))
                len body s0) as (covar & -> & ->)
  end.
  - done.
  - intros k s Hk ->.
    destruct (LoopFacts.getitem_nat xcol k Hk) as (cell & Hcell & ->).
    cbn [bind].
    destruct (Forall2_lookup_l _ _ _ _ _ Hxs Hcell) as (a & Ha & ->).
    cbn [bind]. rewrite Hmx. cbn [bind]. rewrite Hy. cbn [bind].
    destruct (LoopFacts.getitem_nat ycol k) as (cell2 & Hcell2 & ->); [lia|].
    cbn [bind].
    destruct (Forall2_lookup_l _ _ _ _ _ Hys Hcell2) as (b & Hb & ->).
    cbn [bind]. rewrite Hmy. cbn [bind].
    eexists. split; [reflexivity|].
    rewrite (StatFacts.take_zip_with_S _ _ _ _ _ _ Ha Hb).
    rewrite ScatterplotFacts.sum_list_app. simpl. by rewrite Z.add_0_r.
  - cbn [bind].
    rewrite firstn_all2 by (rewrite length_zip_with; lia).
    rewrite StatFacts.div_len by (by eapply StatFacts.ints_nonempty).
    by rewrite (StatFacts.ints_len _ _ Hxs).
Qed.

(** X = 1, 2, 3, 4 and Y = 2, 4, 6, 8: the floored means 2 and 5, and the
    covariance [(3 + 0 + 1 + 6) / 4 = 2]. *)
Lemma getcovariance_floor_witness :
  let mx := sum_list [1; 2; 3; 4] / Py.len [1; 2; 3; 4] in
  let my := sum_list [2; 4; 6; 8] / Py.len [2; 4; 6; 8] in
  Scatterplot.getcovariance 1 2
    [["1"; "2"; "3"; "4"]; ["2"; "4"; "6"; "8"]]%string
  = Ok (sum_list (zip_with (fun a b => (a - mx) * (b - my))
                           [1; 2; 3; 4] [2; 4; 6; 8])
        / Py.len [1; 2; 3; 4]).
Proof.
  apply (getcovariance_floor _ 1 2 ["1"; "2"; "3"; "4"]%string
           ["2"; "4"; "6"; "8"]%string [1; 2; 3; 4] [2; 4; 6; 8]).
  - reflexivity.
  - reflexivity.
  - repeat constructor.
  - repeat constructor.
  - reflexivity.
  - discriminate.
Defined.

(** X19.  When [Scatterplot.getregressionline] returns, on an X and a Y column
    of int literals of the same length, it returns one point per row, in
    the order of the rows: the float that [float(...)] reads in the X
    cell of the row, and the value at it of the line of slope [b] through
    the two floored means, where [b] is the quotient of the floored
    covariance by the floored variance that [getregressionline] computes
    first. *)
Theorem regression_line_points (lval : list (list string)) (xcolumn ycolumn : Z)
    (xcol ycol : list string) (xs ys : list Z) (reg : list (float * float)) :
  Py.getitem lval (xcolumn - 1) = Ok xcol ->
  Py.getitem lval (ycolumn - 1) = Ok ycol ->
  ints xcol xs -> ints ycol ys -> length xs = length ys ->
  Scatterplot.getregressionline xcolumn ycolumn lval = Ok reg ->
  let mx := sum_list xs / Py.len xs in
  let my := sum_list ys / Py.len ys in
  exists b,
    Scatterplot.slope xcolumn ycolumn lval = Ok b
    /\ Forall2 (fun cell p =>
                  exists fx,
                    Py.float_of_token cell = Ok fx
                    /\ p = (fx, (b * (fx - Py.Z2F mx) + Py.Z2F my)%float))
         xcol reg.
Proof.
  intros Hx Hy Hxs Hys Hlen Hreg mx my.
  unfold Scatterplot.getregressionline in Hreg. unfold Scatterplot.slope.
  destruct (Scatterplot.getcovariance xcolumn ycolumn lval) as [cov| | |] eqn:Hcov;
    try discriminate. cbn [bind] in Hreg |- *.
  destruct (Py.float_of_int cov) as [fcov| | |]; try discriminate.
  cbn [bind] in Hreg |- *. rewrite Hx in Hreg |- *. cbn [bind] in Hreg |- *.
  destruct (Scatterplot.getvariance xcol) as [var| | |]; try discriminate.
  cbn [bind] in Hreg |- *.
  destruct (Py.float_of_int var) as [fvar| | |]; try discriminate.
  cbn [bind] in Hreg |- *.
  destruct (Py.fdiv fcov fvar) as [b| | |]; try discriminate.
  cbn [bind] in Hreg. exists b. split; [done|].
  assert (Hne : xs <> []).
  { intros ->. inversion Hxs; subst. unfold Scatterplot.getcovariance in Hcov.
    rewrite Hx in Hcov. discriminate. }
  assert (Hyne : ys <> []) by (destruct xs, ys; done).
  pose proof (StatFacts.getaverage_mean _ _ Hxs Hne) as Hmx. fold mx in Hmx.
  pose proof (StatFacts.getaverage_mean _ _ Hys Hyne) as Hmy. fold my in Hmy.
  pose proof (Forall2_length _ _ _ Hxs) as Hlenx.
  apply (LoopFacts.for_range_ind
           (fun k st =>
              Forall2 (fun cell p =>
                         exists fx,
                           Py.float_of_token cell = Ok fx
                           /\ p = (fx, (b * (fx - Py.Z2F mx) + Py.Z2F my)%float))
                (take k xcol) st))
    in Hreg.
  - by rewrite firstn_all in Hreg.
  - constructor.
  - intros k s1 s2 Hk Hs1 Hbody.
    destruct (LoopFacts.getitem_nat xcol k Hk) as (cell & Hcell & Hget).
    rewrite Hget in Hbody. cbn [bind] in Hbody.
    destruct (Py.float_of_token cell) as [fx| | |] eqn:Hfx; try discriminate.
    cbn [bind] in Hbody. rewrite Hmx in Hbody. cbn [bind] in Hbody.
    unfold Py.float_of_int in Hbody.
    destruct (is_infinity (Py.Z2F mx)); [discriminate|]. cbn [bind] in Hbody.
    rewrite Hy in Hbody. cbn [bind] in Hbody.
    rewrite Hmy in Hbody. cbn [bind] in Hbody.
    destruct (is_infinity (Py.Z2F my)); [discriminate|]. cbn [bind] in Hbody.
    injection Hbody as <-.
    rewrite (take_S_r _ _ _ Hcell). apply Forall2_app; [done|].
    repeat constructor. by exists fx.
Qed.

(** The table of four rows X = 1, 2, 3, 4 and Y = 2, 4, 6, 8. *)
Lemma regression_line_points_witness :
  let mx := sum_list [1; 2; 3; 4] / Py.len [1; 2; 3; 4] in
  let my := sum_list [2; 4; 6; 8] / Py.len [2; 4; 6; 8] in
  exists b,
    Scatterplot.slope 1 2 [["1"; "2"; "3"; "4"]; ["2"; "4"; "6"; "8"]]%string
    = Ok b
    /\ Forall2 (fun cell p =>
                  exists fx,
                    Py.float_of_token cell = Ok fx
                    /\ p = (fx, (b * (fx - Py.Z2F mx) + Py.Z2F my)%float))
         ["1"; "2"; "3"; "4"]%string [(1, 3); (2, 5); (3, 7); (4, 9)]%float.
Proof.
  apply (regression_line_points _ 1 2 ["1"; "2"; "3"; "4"]%string
           ["2"; "4"; "6"; "8"]%string [1; 2; 3; 4] [2; 4; 6; 8]).
  - reflexivity.
  - reflexivity.
  - repeat constructor.
  - repeat constructor.
  - reflexivity.
  - vm_compute. reflexivity.
Defined.

(** X20.  The points of the regression line have two cells:
    [Scatterplot.regtocoordenates] reads them at the indices
    [xcolumn - 1] and [ycolumn - 1] of the data columns, and for an X
    column beyond the second one ([xcolumn] above 2, or below -1) it
    raises IndexError on every regression line that is not empty. *)
Theorem regtocoordenates_beyond_second_column (xcolumn ycolumn : Z)
    (reg : list (float * float)) (ymaxpoint : Z) :
  reg <> [] -> xcolumn < -1 \/ 2 < xcolumn ->
  ScatterplotAxes.regtocoordenates xcolumn ycolumn reg ymaxpoint
  = Raise IndexError.
Proof.
  intros Hne Hcol. unfold ScatterplotAxes.regtocoordenates.
  assert (Hfield : forall p, ScatterplotAxes.ffield p (xcolumn - 1) = Raise IndexError).
  { intros p. unfold ScatterplotAxes.ffield.
    destruct (Z.eqb_spec (xcolumn - 1) 0); [lia|].
    destruct (Z.eqb_spec (xcolumn - 1) (-2)); [lia|].
    destruct (Z.eqb_spec (xcolumn - 1) 1); [lia|].
    destruct (Z.eqb_spec (xcolumn - 1) (-1)); [lia|]. done. }
  assert (Hbody : forall (k : nat) (s : list (float * float)),
             (k < length reg)%nat ->
             (p <-- Py.getitem reg (Z.of_nat k) ;;
              xcoordenate <-- ScatterplotAxes.ffield p (xcolumn - 1) ;;
              fmax <-- Py.float_of_int ymaxpoint ;;
              p' <-- Py.getitem reg (Z.of_nat k) ;;
              y <-- ScatterplotAxes.ffield p' (ycolumn - 1) ;;
              Ok (s ++ [(xcoordenate, (fmax - y)%float)]))
             = Raise IndexError).
  { intros k s Hk.
    destruct (LoopFacts.getitem_nat reg k Hk) as (p & _ & ->). cbn [bind].
    by rewrite Hfield. }
  apply (LoopFacts.for_range_stops (StopRaise IndexError) _ _ _ 0%nat).
  - intros k s Hk. right. by apply Hbody.
  - destruct reg; [done|simpl; lia].
  - intros s. apply Hbody. destruct reg; [done|simpl; lia].
Qed.

(** The regression line of the columns 3 and 4. *)
Lemma regtocoordenates_beyond_second_column_witness :
  ScatterplotAxes.regtocoordenates 3 4 [(1, 3); (2, 5)]%float 9
  = Raise IndexError.
Proof.
  apply regtocoordenates_beyond_second_column; [discriminate|lia].
Defined.

(** X21.  For the first two columns, [Scatterplot.regtocoordenates] keeps the X
    of each point of the regression line and replaces its Y by its
    distance under [ymaxpoint]. *)
Theorem regtocoordenates_flips (reg : list (float * float)) (ymaxpoint : Z)
    (fmax : float) :
  Py.float_of_int ymaxpoint = Ok fmax ->
  ScatterplotAxes.regtocoordenates 1 2 reg ymaxpoint
  = Ok (map (fun p => (fst p, (fmax - snd p)%float)) reg).
Proof.
  intros Hmax. unfold ScatterplotAxes.regtocoordenates.
  match goal with |- context [Py.for_range ?len ?body ?s0] =>
    destruct (LoopFacts.for_range_total
                (fun k s => s = map (fun p => (fst p, (fmax - snd p)%float))
                                    (take k reg))
                len body s0) as (pts & -> & ->)
  end.
  - done.
  - intros k s Hk ->.
    destruct (LoopFacts.getitem_nat reg k Hk) as (p & Hp & ->). cbn [bind].
    change (ScatterplotAxes.ffield p (1 - 1)) with (Ok (fst p)).
    change (ScatterplotAxes.ffield p (2 - 1)) with (Ok (snd p)).
    cbn [bind]. rewrite Hmax. cbn [bind].
    eexists. split; [reflexivity|].
    by rewrite (take_S_r _ _ _ Hp), map_app.
  - by rewrite firstn_all.
Qed.

(** The regression line of the table X = 1, 2, 3, 4 and Y = 2, 4, 6, 8
    under the maximum 9. *)
Lemma regtocoordenates_flips_witness :
  ScatterplotAxes.regtocoordenates 1 2 [(1, 3); (2, 5); (3, 7); (4, 9)]%float 9
  = Ok (map (fun p => (fst p, (9 - snd p)%float))
            [(1, 3); (2, 5); (3, 7); (4, 9)]%float).
Proof. apply regtocoordenates_flips. vm_compute. reflexivity. Defined.

(** ** Lineplot: the points of the line *)

Module PathFacts.
Import Lineplot SortSpec.

(** The points outside the range of the exchanges stay where they are. *)
Lemma lookup_swap_at_outside (l : list point) (i j k : nat) :
  k <> i -> k <> j -> swap_at l i j !! k = l !! k.
Proof.
  intros Hi Hj. unfold swap_at.
  destruct (l !! i); [|done]. destruct (l !! j); [|done].
  by rewrite !list_lookup_insert_ne.
Qed.

Lemma reorder_lookup_outside lo hi (l l' : list point) :
  reorder lo hi l l' ->
  forall k : nat, Z.of_nat k < lo \/ hi < Z.of_nat k -> l' !! k = l !! k.
Proof.
  induction 1 as [|l l' i j Hi Hj Hil Hjl _ IH]; [done|].
  intros k Hk. rewrite IH by done. apply lookup_swap_at_outside; lia.
Qed.

(** The points that [transformtocoordenates] builds. *)
Lemma transform_points (lval : list (list string)) (xcolumn ycolumn ymaxpoint : Z)
    (xcol ycol : list string) (xs ys : list Z) :
  Py.getitem lval (xcolumn - 1) = Ok xcol ->
  Py.getitem lval (ycolumn - 1) = Ok ycol ->
  ints xcol xs -> ints ycol ys -> length xs = length ys ->
  LineplotPath.transformtocoordenates xcolumn ycolumn lval ymaxpoint
  = Ok (zip_with (fun x y => (x, ymaxpoint - y)) xs ys).
Proof.
  intros Hx Hy Hxs Hys Hlen. unfold LineplotPath.transformtocoordenates.
  pose proof (Forall2_length _ _ _ Hxs) as Hlenx.
  pose proof (Forall2_length _ _ _ Hys) as Hleny.
  rewrite Hx. cbn [bind].
  match goal with |- context [Py.for_range ?len ?body ?s0] =>
    destruct (LoopFacts.for_range_total
                (fun k s => s = take k (zip_with (fun x y => (x, ymaxpoint - y))
                                                 xs ys))
                len body s0) as (pts & -> & ->)
  end.
  - done.
  - intros k s Hk ->. rewrite ?Hy. cbn [bind].
    destruct (LoopFacts.getitem_nat xcol k Hk) as (cell & Hcell & ->).
    cbn [bind].
    destruct (Forall2_lookup_l _ _ _ _ _ Hxs Hcell) as (x & Hxk & ->).
    cbn [bind].
    destruct (LoopFacts.getitem_nat ycol k) as (cell2 & Hcell2 & ->); [lia|].
    cbn [bind].
    destruct (Forall2_lookup_l _ _ _ _ _ Hys Hcell2) as (y & Hyk & ->).
    cbn [bind]. eexists. split; [reflexivity|].
    by rewrite (StatFacts.take_zip_with_S _ _ _ _ _ _ Hxk Hyk).
  - f_equal. apply firstn_all2. rewrite length_zip_with. lia.
Qed.

(** The x values of the transformed points are those of the X column. *)
Lemma fst_zip_flip (ymaxpoint : Z) (xs ys : list Z) :
  length xs = length ys ->
  map fst (zip_with (fun x y => (x, ymaxpoint - y)) xs ys) = xs.
Proof.
  revert ys. induction xs as [|x xs IH]; intros [|y ys] Hlen; simpl in *;
    try done. f_equal. apply IH. lia.
Qed.

End PathFacts.

(** X22.  [Lineplot.transformtocoordenates] on an X and a Y column of int
    literals of the same length returns one point per row, in the order
    of the rows: the X value of the row, and the distance of its Y value
    under [ymaxpoint]. *)
Theorem transformtocoordenates_points (lval : list (list string))
    (xcolumn ycolumn ymaxpoint : Z) (xcol ycol : list string) (xs ys : list Z) :
  Py.getitem lval (xcolumn - 1) = Ok xcol ->
  Py.getitem lval (ycolumn - 1) = Ok ycol ->
  ints xcol xs -> ints ycol ys -> length xs = length ys ->
  LineplotPath.transformtocoordenates xcolumn ycolumn lval ymaxpoint
  = Ok (zip_with (fun x y => (x, ymaxpoint - y)) xs ys).
Proof. apply PathFacts.transform_points. Qed.

(** Three rows under the maximum 175. *)
Lemma transformtocoordenates_points_witness :
  LineplotPath.transformtocoordenates 1 2
    [["95"; "150"; "84"]; ["57"; "27"; "175"]]%string 175
  = Ok (zip_with (fun x y => (x, 175 - y)) [95; 150; 84] [57; 27; 175]).
Proof.
  apply (transformtocoordenates_points _ 1 2 175 ["95"; "150"; "84"]%string
           ["57"; "27"; "175"]%string).
  - reflexivity.
  - reflexivity.
  - repeat constructor.
  - repeat constructor.
  - reflexivity.
Defined.

(** X23.  With the x in the first cell of each point and the y in the second,
    [ordenatewithquicksort(lval, first, last)] on a range inside the list
    returns (any bound above twice the length is enough): the list it
    returns has the points of [lval], each as often, the points before
    [first] and after [last] are where they were, and from [first] to
    [last] the x values never decrease. *)
Theorem ordenatewithquicksort_range (lval : list (Z * Z)) (first last : nat)
    (fuel : nat) :
  (first <= last)%nat -> (last < length lval)%nat ->
  (2 * length lval < fuel)%nat ->
  exists sorted,
    Lineplot.ordenatewithquicksort 0 1 fuel lval (Z.of_nat first) (Z.of_nat last)
    = Ok sorted
    /\ Permutation lval sorted
    /\ (forall k : nat, (k < first \/ last < k)%nat -> sorted !! k = lval !! k)
    /\ forall (i : nat) (p q : Z * Z),
         (first <= i)%nat -> (S i <= last)%nat ->
         sorted !! i = Some p -> sorted !! S i = Some q -> fst p <= fst q.
Proof.
  intros Hfl Hlast Hfuel.
  destruct (SortFacts.quicksort_sorts (length lval) lval (Z.of_nat first)
              (Z.of_nat last) fuel)
    as (sorted & Hrun & Hre & Hsorted); try lia.
  exists sorted. split; [done|]. split; [|split].
  - by eapply SortFacts.reorder_Permutation.
  - intros k Hk. apply (PathFacts.reorder_lookup_outside _ _ _ _ Hre). lia.
  - intros i p q Hi Hsi Hp Hq.
    specialize (Hsorted i (S i) ltac:(lia) ltac:(lia) ltac:(lia)).
    unfold SortSpec.xn in Hsorted. by rewrite Hp, Hq in Hsorted.
Qed.

(** The three points in the middle of a list of five. *)
Lemma ordenatewithquicksort_range_witness :
  exists sorted,
    Lineplot.ordenatewithquicksort 0 1 11
      [(9, 1); (5, 2); (7, 3); (1, 4); (0, 5)] (Z.of_nat 1) (Z.of_nat 3)
    = Ok sorted
    /\ Permutation [(9, 1); (5, 2); (7, 3); (1, 4); (0, 5)] sorted
    /\ (forall k : nat, (k < 1 \/ 3 < k)%nat ->
          sorted !! k = [(9, 1); (5, 2); (7, 3); (1, 4); (0, 5)] !! k)
    /\ forall (i : nat) (p q : Z * Z),
         (1 <= i)%nat -> (S i <= 3)%nat ->
         sorted !! i = Some p -> sorted !! S i = Some q -> fst p <= fst q.
Proof.
  apply (ordenatewithquicksort_range
           [(9, 1); (5, 2); (7, 3); (1, 4); (0, 5)] 1 3 11).
  - lia.
  - simpl. lia.
  - simpl. lia.
Defined.

(** X24.  The line of the line plot, for the columns 1 and 2 of int literals,
    of the same length and not empty: [Lineplot.printsvg] builds a path
    that starts and ends on the horizontal axis (at the distance
    [ymaxaxis] under the top), goes through the transformed points of all
    the rows, each once, and never turns back: along the whole path the x
    values do not decrease.  Any bound above twice the number of rows is
    enough for the sort. *)
Theorem plotline_path (lval : list (list string)) (ymaxaxis : Z)
    (xcol ycol : list string) (xs ys : list Z) (fuel : nat) :
  Py.getitem lval 0 = Ok xcol ->
  Py.getitem lval 1 = Ok ycol ->
  ints xcol xs -> ints ycol ys -> length xs = length ys -> xs <> [] ->
  (2 * length xs < fuel)%nat ->
  exists x0 sorted xmax,
    LineplotPath.plotline fuel 1 2 lval ymaxaxis
    = Ok ((x0, ymaxaxis) :: sorted ++ [(xmax, ymaxaxis)])
    /\ Permutation (zip_with (fun x y => (x, ymaxaxis - y)) xs ys) sorted
    /\ forall (i : nat) (p q : Z * Z),
         ((x0, ymaxaxis) :: sorted ++ [(xmax, ymaxaxis)]) !! i = Some p ->
         ((x0, ymaxaxis) :: sorted ++ [(xmax, ymaxaxis)]) !! S i = Some q ->
         fst p <= fst q.
Proof.
  intros Hx Hy Hxs Hys Hlen Hne Hfuel.
  set (pts := zip_with (fun x y => (x, ymaxaxis - y)) xs ys).
  assert (Hpts : length pts = length xs).
  { subst pts. rewrite length_zip_with. lia. }
  assert (Hpos : (0 < length xs)%nat) by (destruct xs; [done|simpl; lia]).
  destruct (SortFacts.quicksort_sorts (length pts) pts 0 (Py.len pts - 1) fuel)
    as (sorted & Hrun & Hre & Hsorted); unfold Py.len; try lia.
  pose proof (SortFacts.reorder_length _ _ _ _ Hre) as Hslen.
  pose proof (SortFacts.reorder_Permutation _ _ _ _ Hre) as Hperm.
  destruct (LoopFacts.getitem_nat sorted 0) as (p0 & Hp0 & Hget0); [lia|].
  destruct (MaxFacts.first_max_ints xcol xs ScatterplotAxes.msg_numeric Hxs Hne)
    as (xmax & Hmax & _ & Hxmax).
  exists (fst p0), sorted, xmax. split; [|split; [done|]].
  - unfold LineplotPath.plotline.
    rewrite (PathFacts.transform_points lval 1 2 ymaxaxis xcol ycol xs ys)
      by done.
    cbn [bind]. fold pts. change (1 - 1) with 0. change (2 - 1) with 1.
    rewrite Hrun. cbn [bind]. change 0 with (Z.of_nat 0) at 1.
    rewrite Hget0. cbn [bind]. change (Lineplot.field p0 0) with (Ok (fst p0)).
    cbn [bind]. rewrite Hx. cbn [bind].
    unfold ScatterplotAxes.getmaxpoint. rewrite Hmax. done.
  - assert (Hbound : forall p, p ∈ sorted -> fst p <= xmax).
    { intros p Hp. rewrite <- Hperm in Hp.
      rewrite Forall_forall in Hxmax. apply Hxmax.
      rewrite <- (PathFacts.fst_zip_flip ymaxaxis xs ys Hlen).
      apply list_elem_of_In, in_map, list_elem_of_In, Hp. }
    intros i p q Hp Hq.
    destruct i as [|i].
    + simpl in Hp, Hq. injection Hp as <-. simpl.
      rewrite lookup_app_l in Hq by lia. rewrite Hp0 in Hq. injection Hq as <-. lia.
    + simpl in Hp, Hq.
      destruct (decide (S i < length sorted)%nat) as [Hin|Hout].
      * rewrite lookup_app_l in Hp, Hq by lia.
        unfold Py.len in Hsorted.
        specialize (Hsorted i (S i) ltac:(lia) ltac:(lia) ltac:(lia)).
        unfold SortSpec.xn in Hsorted. by rewrite Hp, Hq in Hsorted.
      * pose proof (lookup_lt_Some _ _ _ Hq) as Hqlt.
        rewrite length_app in Hqlt. simpl in Hqlt.
        assert (S i = length sorted) as Hlast by lia.
        rewrite lookup_app_l in Hp by lia.
        rewrite lookup_app_r in Hq by lia.
        rewrite Hlast, Nat.sub_diag in Hq. injection Hq as <-. simpl.
        apply Hbound. by apply list_elem_of_lookup_2 in Hp.
Qed.

(** Three rows, out of order in x. *)
Lemma plotline_path_witness :
  exists x0 sorted xmax,
    LineplotPath.plotline 7 1 2
      [["95"; "150"; "84"]; ["57"; "27"; "175"]]%string 175
    = Ok ((x0, 175) :: sorted ++ [(xmax, 175)])
    /\ Permutation (zip_with (fun x y => (x, 175 - y))
                      [95; 150; 84] [57; 27; 175]) sorted
    /\ forall (i : nat) (p q : Z * Z),
         ((x0, 175) :: sorted ++ [(xmax, 175)]) !! i = Some p ->
         ((x0, 175) :: sorted ++ [(xmax, 175)]) !! S i = Some q ->
         fst p <= fst q.
Proof.
  apply (plotline_path [["95"; "150"; "84"]; ["57"; "27"; "175"]]%string 175
           ["95"; "150"; "84"]%string ["57"; "27"; "175"]%string
           [95; 150; 84] [57; 27; 175] 7).
  - reflexivity.
  - reflexivity.
  - repeat constructor.
  - repeat constructor.
  - reflexivity.
  - discriminate.
  - simpl. lia.
Defined.

(** ** Piechart: the sequence of the slices, the errors of the constructor *)

Module PieFacts.
Import Piechart.

(** A [for] loop over a list one of whose turns stops whatever the state,
    the other turns returning or stopping in the same way, stops. *)
Lemma for_each_stops {A St : Type} (e : stop) (l : list A)
    (body : A -> St -> outcome St) (s0 : St) (bad : A) :
  (forall a s, a ∈ l -> returns_or_stops e (body a s)) ->
  bad ∈ l ->
  (forall s, body bad s = stopped e) ->
  Py.for_each l body s0 = stopped e.
Proof.
  intros Hbody Hbad Hstop. revert s0.
  induction l as [|a l IH]; intros s0; [by apply elem_of_nil in Hbad|].
  cbn [Py.for_each].
  apply elem_of_cons in Hbad as [<-|Hbad].
  - rewrite Hstop. by destruct e.
  - destruct (Hbody a s0) as [[s ->]| ->]; [constructor| |by destruct e].
    cbn [bind]. apply IH; [|done].
    intros a' s' Ha'. apply Hbody. by constructor.
Qed.

(** One turn of the loop of the slices. *)
Lemma draw_slice_from (self : t) (value : float) (r0 : float) (p0 : Z)
    (d0 : list slice) st' :
  draw_slice self value (r0, p0, d0) = Ok st' ->
  exists s,
    st' = ((r0 + value)%float, p0 + 1, d0 ++ [s])
    /\ radian s = value
    /\ slices_from self r0 p0 [s].
Proof.
  unfold draw_slice. intros H. bind_ok H. injection H as <-.
  eexists. split; [reflexivity|]. simpl. eauto 10.
Qed.

(** The loop of the slices. *)
Lemma draw_loop_from (self : t) (vals : list float) :
  forall r0 p0 d0 st',
    Py.for_each vals (draw_slice self) (r0, p0, d0) = Ok st' ->
    exists news,
      snd st' = d0 ++ news
      /\ length news = length vals
      /\ slices_from self r0 p0 news.
Proof.
  induction vals as [|value vals IH]; intros r0 p0 d0 st' H.
  - simpl in H. injection H as <-. exists []. by rewrite app_nil_r.
  - cbn [Py.for_each] in H.
    destruct (draw_slice self value (r0, p0, d0)) as [st1| | |] eqn:E;
      try discriminate. cbn [bind] in H.
    destruct (draw_slice_from _ _ _ _ _ _ E) as (s & -> & Hrad & Hs).
    destruct (IH _ _ _ _ H) as (news & Hsnd & Hlen & Hnews).
    exists (s :: news). split; [by rewrite Hsnd, <- app_assoc|].
    split; [simpl; lia|].
    simpl in Hs |- *. destruct Hs as (? & ? & ? & _). by rewrite Hrad.
Qed.

(** What [slices_from] says of the slice at an index and of the next. *)
Lemma slices_from_lookup (self : t) (news : list slice) :
  forall r0 p0,
    slices_from self r0 p0 news ->
    (forall s, news !! 0%nat = Some s -> start_radian s = r0)
    /\ (forall (i : nat) s s', news !! i = Some s -> news !! S i = Some s' ->
          start_radian s' = (start_radian s + radian s)%float)
    /\ (forall (i : nat) s, news !! i = Some s ->
          slice_pos s = p0 + Z.of_nat i
          /\ exists colors,
               Py.getitem (listvalues self) (colorfld self - 1) = Ok colors
               /\ Py.getitem colors (slice_pos s) = Ok (fill s)).
Proof.
  induction news as [|s news IH]; intros r0 p0 H.
  - repeat split; intros; done.
  - simpl in H. destruct H as (Hr & Hp & Hc & Hrest).
    destruct (IH _ _ Hrest) as (H0 & Hnext & Hpos).
    split; [|split].
    + intros s' [= <-]. done.
    + intros [|i] s1 s2 H1 H2; simpl in H1, H2.
      * injection H1 as <-. rewrite Hr. by apply H0.
      * by apply (Hnext i).
    + intros [|i] s1 H1; simpl in H1.
      * injection H1 as <-. split; [lia|]. by rewrite Hp.
      * destruct (Hpos i s1 H1) as [Hp1 Hc1]. split; [lia|done].
Qed.

End PieFacts.

(** X25.  The slices that [Piechart.printsvg] returns come one per span of
    [self.radianvalues] and follow each other round the pie: the first
    starts at [self.initianradian], each of the others starts where the
    one before it ends (its start plus its span), the slice at the index
    [i] has the position [self.pos + i], and its fill colour is the cell
    at this position of the colour column. *)
Theorem printsvg_slices_follow (self : Piechart.t) (slices : list Piechart.slice) :
  Piechart.printsvg self = Ok slices ->
  length slices = length (Piechart.radianvalues self)
  /\ (forall s, slices !! 0%nat = Some s ->
        Piechart.start_radian s = Piechart.initianradian self)
  /\ (forall (i : nat) s s', slices !! i = Some s -> slices !! S i = Some s' ->
        Piechart.start_radian s'
        = (Piechart.start_radian s + Piechart.radian s)%float)
  /\ (forall (i : nat) s, slices !! i = Some s ->
        Piechart.slice_pos s = Piechart.pos self + Z.of_nat i
        /\ exists colors,
             Py.getitem (Piechart.listvalues self) (Piechart.colorfld self - 1)
             = Ok colors
             /\ Py.getitem colors (Piechart.slice_pos s) = Ok (Piechart.fill s)).
Proof.
  unfold Piechart.printsvg. intros H.
  apply BardiagramFacts.try_except_exit_Ok in H.
  destruct (negb _); [discriminate|].
  destruct (Py.for_each _ _ _) as [st| | |] eqn:E; try discriminate.
  cbn [bind] in H. injection H as <-.
  destruct (PieFacts.draw_loop_from _ _ _ _ _ _ E) as (news & Hsnd & Hlen & Hnews).
  simpl in Hsnd. rewrite Hsnd. split; [done|].
  by apply PieFacts.slices_from_lookup.
Qed.

(** The pie of the values 3 and 1. *)
Lemma printsvg_slices_follow_witness :
  let self := Piechart.mk [["a"; "b"]; ["3"; "1"]; ["red"; "blue"]]%string
                2 1 3 100 false 4
                [0x1.2d97c7f3321d2p+2; 0x1.921fb54442d18p+0]%float 0%float 0 in
  let slices :=
    [Piechart.mk_slice 0 0x1.2d97c7f3321d2p+1 120 "red" 0
       0x1.2d97c7f3321d2p+2 "1" None;
     Piechart.mk_slice 1 0x1.5fdbbe9bba775p+2 120 "blue" 0x1.2d97c7f3321d2p+2
       0x1.921fb54442d18p+0 "0" None]%float in
  length slices = length (Piechart.radianvalues self)
  /\ (forall s, slices !! 0%nat = Some s ->
        Piechart.start_radian s = Piechart.initianradian self)
  /\ (forall (i : nat) s s', slices !! i = Some s -> slices !! S i = Some s' ->
        Piechart.start_radian s'
        = (Piechart.start_radian s + Piechart.radian s)%float)
  /\ (forall (i : nat) s, slices !! i = Some s ->
        Piechart.slice_pos s = Piechart.pos self + Z.of_nat i
        /\ exists colors,
             Py.getitem (Piechart.listvalues self) (Piechart.colorfld self - 1)
             = Ok colors
             /\ Py.getitem colors (Piechart.slice_pos s) = Ok (Piechart.fill s)).
Proof.
  apply printsvg_slices_follow. vm_compute. reflexivity.
Defined.

(** X26.  A cell of the value column that holds no whitespace, as the cells
    that [readinputfile] returns, and that [int] refuses makes the
    constructor of the pie chart raise ValueError, which it does not
    catch: no message is printed and no chart is built. *)
Theorem pie_init_non_numeric (radius0 : Z) (lv : list (list string))
    (values0 labels0 colorfld0 : Z) (legend0 : bool) (col : list string)
    (cell : string) :
  Py.getitem lv (values0 - 1) = Ok col ->
  cell ∈ col -> Py.blank_free cell = true -> Py.int cell = Raise ValueError ->
  Piechart.init radius0 lv values0 labels0 colorfld0 legend0 = Raise ValueError.
Proof.
  intros Hcol Hcell _ Hint. unfold Piechart.init, Piechart.totalsum. simpl.
  rewrite Hcol. cbn [bind].
  rewrite (PieFacts.for_each_stops (StopRaise ValueError) col _ 0 cell); [done| |done|].
  - intros a s _.
    apply LoopFacts.bind_returns_or_stops; [apply LoopFacts.int_returns_or_stops|].
    intros v. left. by eexists.
  - intros s. by rewrite Hint.
Qed.

(** The value 2.5 in the second row. *)
Lemma pie_init_non_numeric_witness :
  Piechart.init 100 [["a"; "b"]; ["3"; "2.5"]; ["red"; "blue"]]%string 2 1 3 false
  = Raise ValueError.
Proof.
  apply (pie_init_non_numeric 100 _ 2 1 3 false ["3"; "2.5"]%string "2.5"%string).
  - reflexivity.
  - apply list_elem_of_further, list_elem_of_here.
  - reflexivity.
  - reflexivity.
Defined.

(** X27.  Values that are all zero make the constructor of the pie chart raise
    ZeroDivisionError, which it does not catch: the span of the first
    slice divides by the sum of the values. *)
Theorem pie_init_all_zero (radius0 : Z) (lv : list (list string))
    (values0 labels0 colorfld0 : Z) (legend0 : bool) (col : list string) :
  Py.getitem lv (values0 - 1) = Ok col ->
  col <> [] ->
  Forall (fun cell => Py.int cell = Ok 0) col ->
  Piechart.init radius0 lv values0 labels0 colorfld0 legend0
  = Raise ZeroDivisionError.
Proof.
  intros Hcol Hne Hzero. unfold Piechart.init, Piechart.totalsum. simpl.
  rewrite Hcol. cbn [bind].
  rewrite (PiechartFacts.totalsum_loop col (replicate (length col) 0))
    by (by apply ScatterplotFacts.ints_constant).
  cbn [bind]. unfold Piechart.valuestoradians. simpl.
  rewrite Hcol. cbn [bind].
  rewrite ScatterplotFacts.sum_list_replicate. simpl.
  destruct col as [|cell col]; [done|].
  cbn [Py.for_each]. unfold Piechart.radian_of.
  inversion Hzero as [|? ? Hcell _]; subst. rewrite Hcell. reflexivity.
Qed.

(** Two values 0. *)
Lemma pie_init_all_zero_witness :
  Piechart.init 100 [["a"; "b"]; ["0"; "0"]; ["red"; "blue"]]%string 2 1 3 false
  = Raise ZeroDivisionError.
Proof.
  apply (pie_init_all_zero 100 _ 2 1 3 false ["0"; "0"]%string).
  - reflexivity.
  - discriminate.
  - repeat constructor.
Defined.

(** The pie of the values 3 and 1: the slice of three quarters has the
    flag 1. *)
Lemma large_arc_flag_strict_witness :
  Piechart.arc_flag
    (Piechart.mk_slice 0 0x1.2d97c7f3321d2p+1 120 "red" 0
       0x1.2d97c7f3321d2p+2 "1" None)
  = if PrimFloat.ltb Py.pi
         (Piechart.radian
            (Piechart.mk_slice 0 0x1.2d97c7f3321d2p+1 120 "red" 0
               0x1.2d97c7f3321d2p+2 "1" None))
    then "1"%string else "0"%string.
Proof.
  apply (large_arc_flag_strict
           (Piechart.mk [["a"; "b"]; ["3"; "1"]; ["red"; "blue"]]%string
              2 1 3 100 false 4
              [0x1.2d97c7f3321d2p+2; 0x1.921fb54442d18p+0]%float 0%float 0)
           [Piechart.mk_slice 0 0x1.2d97c7f3321d2p+1 120 "red" 0
              0x1.2d97c7f3321d2p+2 "1" None;
            Piechart.mk_slice 1 0x1.5fdbbe9bba775p+2 120 "blue"
              0x1.2d97c7f3321d2p+2 0x1.921fb54442d18p+0 "0" None]%float).
  - vm_compute. reflexivity.
  - apply list_elem_of_here.
Defined.

(** The pie of the values 3 and 1: the sum 4, the spans of three quarters
    and of one quarter of the turn. *)
Lemma init_layout_witness :
  let self := Piechart.mk [["a"; "b"]; ["3"; "1"]; ["red"; "blue"]]%string
                2 1 3 100 false 4
                [0x1.2d97c7f3321d2p+2; 0x1.921fb54442d18p+0]%float 0%float 0 in
  Piechart.sumvalues self = sum_list [3; 1]
  /\ Forall2 (fun value r => Piechart.radian_of (sum_list [3; 1]) value = Ok r)
       ["3"; "1"]%string (Piechart.radianvalues self)
  /\ Piechart.initianradian self = 0%float /\ Piechart.pos self = 0.
Proof.
  apply (PiechartFacts.init_layout 100
           [["a"; "b"]; ["3"; "1"]; ["red"; "blue"]]%string 2 1 3 false
           ["3"; "1"]%string [3; 1]).
  - reflexivity.
  - repeat constructor.
  - vm_compute. reflexivity.
Defined.
